(** * repoman: the publish pipeline and the channel commands

    A shallow embedding of the Go sources [update/update_repo.go],
    [setchan] and [mkchan/mkchan.go], over an explicit model of the
    file system calls they make.  Every command is a function from a
    file system to an outcome and the file system it leaves behind. *)

From Stdlib Require Import String Ascii List ZArith Lia Bool Arith.
From Stdlib Require Import DecimalString DecimalZ DecimalPos Permutation FinFun.
From Stdlib Require DecimalFacts.
Import ListNotations.
Open Scope string_scope.

(* ================================================================== *)
(** ** Go base types and string helpers *)
(* ================================================================== *)

Module golang.

(** Go's [int] on the 64-bit targets: results of arithmetic wrap. *)
Definition int_min : Z := - 2 ^ 63.
Definition int_max : Z := 2 ^ 63 - 1.

Definition wrap_int (z : Z) : Z := (z + 2 ^ 63) mod 2 ^ 64 - 2 ^ 63.

(** [x++] on an [int]. *)
Definition incr (x : Z) : Z := wrap_int (x + 1).

(** [len(s)] *)
Definition len (s : string) : Z := Z.of_nat (String.length s).

(** [s[:n]]: a run-time panic ([None]) when [n] is out of range. *)
Definition slice_to (s : string) (n : Z) : option string :=
  if (0 <=? n)%Z && (n <=? len s)%Z
  then Some (substring 0 (Z.to_nat n) s)
  else None.

(** [strings.HasSuffix] *)
Fixpoint drop (n : nat) (s : string) : string :=
  match n, s with
  | O, _ => s
  | S _, EmptyString => EmptyString
  | S k, String _ t => drop k t
  end.

Definition HasSuffix (s suffix : string) : bool :=
  (String.length suffix <=? String.length s)%nat
  && (drop (String.length s - String.length suffix) s =? suffix).

(** The verb [%d] on an [int]. *)
Definition fmt_d (z : Z) : string := NilZero.string_of_int (Z.to_int z).

End golang.

(* ================================================================== *)
(** ** Paths: the parts of [path] and [path/filepath] used *)
(* ================================================================== *)

Module path.

Definition slash : ascii := "/"%char.

(** [path.Join] of a directory and a name.  The directory arguments
    of the commands are taken to be clean already, so that joining is
    plain concatenation with a separator; empty elements are ignored
    as in Go. *)
Definition Join (dir name : string) : string :=
  match dir, name with
  | EmptyString, _ => name
  | _, EmptyString => dir
  | _, _ => dir ++ "/" ++ name
  end.

(** The text after the last separator, [acc] being what was read
    since the last one. *)
Fixpoint last_elem (acc s : string) : string :=
  match s with
  | EmptyString => acc
  | String c t =>
      if Ascii.eqb c slash then last_elem EmptyString t
      else last_elem (acc ++ String c EmptyString) t
  end.

Fixpoint strip_trailing (s : string) : string :=
  match s with
  | EmptyString => EmptyString
  | String c t =>
      match strip_trailing t with
      | EmptyString => if Ascii.eqb c slash then EmptyString else String c EmptyString
      | t' => String c t'
      end
  end.

(** [filepath.Base]: the last element of the path; trailing
    separators are removed first; ["."] for the empty path and ["/"]
    for a path of separators only. *)
Definition Base (p : string) : string :=
  match p with
  | EmptyString => "."
  | _ =>
      match strip_trailing p with
      | EmptyString => "/"
      | q => last_elem EmptyString q
      end
  end.

(** The directory part of a path: what comes before its last
    separator. *)
Fixpoint Dir_aux (acc pending s : string) : string :=
  match s with
  | EmptyString => acc
  | String c t =>
      if Ascii.eqb c slash
      then Dir_aux (acc ++ pending) (String c EmptyString) t
      else Dir_aux acc (pending ++ String c EmptyString) t
  end.

Definition Dir (p : string) : string := Dir_aux EmptyString EmptyString p.

End path.

(* ================================================================== *)
(** ** The file system and the calls of package [os] *)
(* ================================================================== *)

Module os.

(** The classes of error the commands tell apart, through
    [os.IsNotExist], [os.IsExist] and [os.IsPermission]; [EOTHER] is
    every error for which the three predicates are false. *)
Inductive errno : Type := ENOENT | EEXIST | EACCES | EOTHER.

Definition IsNotExist (err : option errno) : bool :=
  match err with Some ENOENT => true | _ => false end.
Definition IsExist (err : option errno) : bool :=
  match err with Some EEXIST => true | _ => false end.
Definition IsPermission (err : option errno) : bool :=
  match err with Some EACCES => true | _ => false end.

(** What the caller may do with an entry. *)
Inductive access : Type :=
| Full          (* read and write *)
| ReadOnly      (* read, no write; a directory admits no new entry *)
| NoAccess.     (* the entry cannot even be examined *)

Record inode : Type := mkInode {
  IsDir : bool;
  data  : string;      (* the bytes of a regular file *)
  mode  : access
}.

(** A file system: the entries by path, in the order of their
    creation.  At most the first entry of a path counts. *)
Definition FS : Type := list (string * inode).

Fixpoint lookup (fs : FS) (p : string) : option inode :=
  match fs with
  | [] => None
  | (q, n) :: rest => if q =? p then Some n else lookup rest p
  end.

(** Replace the bytes of the entry at [p]. *)
Fixpoint set_data (fs : FS) (p : string) (d : string) : FS :=
  match fs with
  | [] => []
  | (q, n) :: rest =>
      if q =? p then (q, mkInode (IsDir n) d (mode n)) :: rest
      else (q, n) :: set_data rest p d
  end.

Inductive result (A : Type) : Type :=
| Ok  (a : A)
| Err (e : errno).
Arguments Ok {A} a.
Arguments Err {A} e.

(** The longest name of an entry and the longest path that the
    system takes (Linux, with the file systems in common use). *)
Definition NAME_MAX : nat := 255.
Definition PATH_MAX : nat := 4096.

(** The error of looking up a path that has no entry, by [stat]
    or [open].  The directory the path would lie in decides: under
    something that is no directory the error is [ENOTDIR], under a
    directory that cannot be searched it is [EACCES], and in a
    directory that can, a name longer than [NAME_MAX] gives
    [ENAMETOOLONG] where a shorter one gives [ENOENT]; when the
    directory has no entry either, the path fails where the directory
    does.  A path without directory part lies in the working
    directory or in the root.  [os.IsNotExist] holds of [ENOENT] only:
    [ENOTDIR] and [ENAMETOOLONG] are [EOTHER] here. *)
Fixpoint path_error (fuel : nat) (fs : FS) (p : string) : errno :=
  match fuel with
  | O => ENOENT
  | S fuel' =>
      let name_error :=
        if (NAME_MAX <? String.length (path.last_elem EmptyString p))%nat
        then EOTHER else ENOENT in
      match path.Dir p with
      | EmptyString => name_error
      | d =>
          match lookup fs d with
          | Some n =>
              if negb (IsDir n) then EOTHER
              else match mode n with
                   | NoAccess => EACCES
                   | _ => name_error
                   end
          | None => path_error fuel' fs d
          end
      end
  end.

(** A path of [PATH_MAX] bytes or more is refused with
    [ENAMETOOLONG] as a whole. *)
Definition missing_error (fs : FS) (p : string) : errno :=
  if (PATH_MAX <=? String.length p)%nat then EOTHER
  else path_error (String.length p) fs p.

(** [os.Stat]: the [IsDir] of the entry. *)
Definition Stat (fs : FS) (p : string) : result bool :=
  match lookup fs p with
  | None => Err (missing_error fs p)
  | Some n =>
      match mode n with
      | NoAccess => Err EACCES
      | _ => Ok (IsDir n)
      end
  end.

(** The error of a call, as Go returns it beside the value. *)
Definition err_of {A} (r : result A) : option errno :=
  match r with Ok _ => None | Err e => Some e end.

(** [ioutil.ReadFile] *)
Definition ReadFile (fs : FS) (p : string) : result string :=
  match lookup fs p with
  | None => Err (missing_error fs p)
  | Some n =>
      match mode n with
      | NoAccess => Err EACCES
      | _ => if IsDir n then Err EOTHER else Ok (data n)
      end
  end.

(** The flags of [os.OpenFile] that the commands combine. *)
Record flags : Type := mkFlags {
  O_WR     : bool;    (* O_WRONLY or O_RDWR *)
  O_CREATE : bool;
  O_EXCL   : bool;
  O_TRUNC  : bool
}.

Definition O_WRONLY_CREATE_EXCL : flags := mkFlags true true true false.
Definition O_RDWR               : flags := mkFlags true false false false.
Definition O_WRONLY_TRUNC       : flags := mkFlags true false false true.
Definition O_RDONLY             : flags := mkFlags false false false false.

(** An open file is named by its path; its offset starts at 0. *)
Definition File : Type := string.

(** [os.OpenFile].  A new file is created empty, with mode 0644, in a
    directory that admits it. *)
Definition OpenFile (fs : FS) (p : string) (fl : flags) : result (File * FS) :=
  match lookup fs p with
  | Some n =>
      if O_CREATE fl && O_EXCL fl then Err EEXIST
      else
        match mode n with
        | NoAccess => Err EACCES
        | ReadOnly =>
            if O_WR fl then Err EACCES else Ok (p, fs)
        | Full =>
            if O_WR fl && IsDir n then Err EOTHER
            else Ok (p, if O_TRUNC fl then set_data fs p "" else fs)
        end
  | None =>
      if O_CREATE fl then
        match lookup fs (path.Dir p) with
        | None => Err ENOENT
        | Some d =>
            if negb (IsDir d) then Err EOTHER
            else
              match mode d with
              | Full => Ok (p, (fs ++ [(p, mkInode false "" Full)])%list)
              | _ => Err EACCES
              end
        end
      else Err (missing_error fs p)
  end.

(** [os.Open] *)
Definition Open (fs : FS) (p : string) : result (File * FS) :=
  OpenFile fs p O_RDONLY.

(** Writing [d] at offset 0 of a file holding [old]: the bytes of
    [old] beyond the length of [d] stay. *)
Definition overwrite (old d : string) : string :=
  d ++ golang.drop (String.length d) old.

(** [f.Write(d)] on a file just opened.  The commands discard the
    values it returns. *)
Definition Write (fs : FS) (f : File) (d : string) : FS :=
  match lookup fs f with
  | Some n => set_data fs f (overwrite (data n) d)
  | None => fs
  end.

(** [io.Copy(out, in)] on two files just opened; the source commands
    discard its result, so a source that cannot be read (a directory)
    leaves [out] as it is. *)
Definition Copy (fs : FS) (out inp : File) : FS :=
  match lookup fs inp with
  | Some n => if IsDir n then fs else Write fs out (data n)
  | None => fs
  end.

End os.


(* ================================================================== *)
(** ** Package [subcmd]: the errors of a command *)
(* ================================================================== *)

Module subcmd.

(** The Go [error] values that occur as causes. *)
Inductive gerror : Type :=
| os_error (e : os.errno)
| json_error (text : string).


(** [msgError] *)
Record Error : Type := msgError {
  msg        : string;
  exitCode   : Z;
  cause      : option gerror;
  printUsage : bool
}.

Definition CausedError (message : string) (code : Z) (c : gerror) : Error :=
  msgError message code (Some c) false.

Definition MessageError (message : string) (code : Z) : Error :=
  msgError message code None false.

Definition UsageError (message : string) : Error :=
  msgError message (-1) None true.

Definition ExitCode (e : Error) : Z := exitCode e.

End subcmd.

(* ================================================================== *)
(** ** The records of package [repo] and of package [md5util] *)
(* ================================================================== *)

(** Modelled from the spec: the declarations of the imported package
    [GoUpdate/repo] are not among the sources; the records follow
    section 3 of the specification, with the field names the commands
    use. *)
Module repo.

Module Channel.
Record t : Type := mk { Id : string; Name : string; CurrentVersion : Z }.
End Channel.

Module VersionSummary.
Record t : Type := mk { Id : Z; Name : string }.
End VersionSummary.

Module FileSource.
Record t : Type := mk { SourceType : string; Url : string }.
End FileSource.

Module FileInfo.
Record t : Type := mk { Path : string; Sources : list FileSource.t; MD5 : string }.
End FileInfo.

Module Version.
Record t : Type := mk { Id : Z; Name : string; Files : list FileInfo.t }.
End Version.

Module Index.
Record t : Type := mk {
  Channels : list Channel.t;
  Versions : list VersionSummary.t
}.
End Index.

Definition IndexFileName : string := "index.json".

Definition NewVersion (id : Z) (name : string) : Version.t :=
  Version.mk id name [].

Definition NewBlankIndex : Index.t := Index.mk [] [].

End repo.

Module md5util.

Record FileMD5Data : Type := mkFileMD5Data { Path : string; MD5 : string }.

End md5util.

(** What the commands take from outside their own code: the JSON
    encoding of the index and of a version manifest, and the hasher
    [md5util.RecursiveMD5Calc], which lists the files under a
    directory, by their paths relative to it, with their content
    hashes.  The commands are verified for every such environment. *)
Class Env : Type := {
  json_Unmarshal       : string -> repo.Index.t + string;  (* or the error's text *)
  json_Marshal_Index   : repo.Index.t -> string;
  json_Marshal_Version : repo.Version.t -> string;
  RecursiveMD5Calc     : os.FS -> string -> list string ->
                         os.result (list md5util.FileMD5Data)
}.

(** How a command ends: it returns, or the run-time system stops it
    on a slice out of range, or it never returns. *)
Inductive exec (A : Type) : Type :=
| Returns (a : A)
| Panics
| Diverges.
Arguments Returns {A} a.
Arguments Panics {A}.
Arguments Diverges {A}.

(* ================================================================== *)
(** ** Package [update]: the publish command *)
(* ================================================================== *)

Module update.

Import subcmd.

(** [fileStorageData]: a file of the new version, the name of its
    blob in the file storage directory and its hash. *)
Record fileStorageData : Type := mkFileStorageData {
  FileStoragePath : string;
  InstallPath     : string;
  MD5             : string
}.

Section Publish.
Context {env : Env}.

(** *** Naming a new blob (lines 211-228) *)

(** The name for a given prefix size and prefix number; [None] when
    the slice of the hash panics. *)
Definition name_for (md5 storageNameBase : string) (prefixSize prefixNum : Z)
  : option string :=
  match golang.slice_to md5 prefixSize with
  | None => None
  | Some prefix =>
      Some (if (prefixNum <? 0)%Z
            then prefix ++ "-" ++ storageNameBase
            else prefix ++ "-" ++ golang.fmt_d prefixNum ++ "-" ++ storageNameBase)
  end.

(** The [for] loop of line 216, whose condition is that the [os.Stat]
    of the candidate does not report a missing file.  [fuel] bounds
    the number of candidates tried. *)
Fixpoint name_loop (fuel : nat) (fs : os.FS) (filesDir md5 storageNameBase : string)
  (prefixSize prefixNum : Z) (storageName : string) : exec string :=
  match fuel with
  | O => Diverges
  | S fuel' =>
      if os.IsNotExist (os.err_of (os.Stat fs (path.Join filesDir storageName)))
      then Returns storageName
      else
        let prefixSize' := if (prefixSize <? 32)%Z then golang.incr prefixSize else prefixSize in
        let prefixNum'  := if (prefixSize <? 32)%Z then prefixNum else golang.incr prefixNum in
        match name_for md5 storageNameBase prefixSize' prefixNum' with
        | None => Panics
        | Some storageName' =>
            name_loop fuel' fs filesDir md5 storageNameBase prefixSize' prefixNum' storageName'
        end
  end.

(** Lines 211-228.  The loop is given [length fs + 1] rounds.  A
    file system of [n] entries has no entry for one of any [n + 1]
    different candidates, and [os.Stat] reports that one as not
    existing, unless its name or its path is too long or the storage
    directory cannot be searched; in which case the same holds of the
    candidates after it, which lie in the same directory and are not
    shorter: a loop that has not returned in these rounds never
    does. *)
Definition storage_name (fs : os.FS) (filesDir : string) (nvMD5Data : md5util.FileMD5Data)
  : exec string :=
  let storageNameBase := path.Base (md5util.Path nvMD5Data) in
  let prefixSize := 4%Z in
  let prefixNum := (-1)%Z in
  match name_for (md5util.MD5 nvMD5Data) storageNameBase prefixSize prefixNum with
  | None => Panics
  | Some storageName =>
      name_loop (S (List.length fs)) fs filesDir (md5util.MD5 nvMD5Data) storageNameBase
                prefixSize prefixNum storageName
  end.

(** *** Sorting the new files into stored and to be stored (lines 196-233) *)

(** The inner [range] loop over the file storage entries, from index
    [i] on, for one file of the new version. *)
Fixpoint storage_loop (fs : os.FS) (filesDir : string) (nvMD5Data : md5util.FileMD5Data)
  (lenStorage : Z) (i : Z) (rest : list md5util.FileMD5Data)
  (fileStorageMap addToStorage : list fileStorageData)
  : exec (list fileStorageData * list fileStorageData) :=
  match rest with
  | [] => Returns (fileStorageMap, addToStorage)
  | fsMD5Data :: rest' =>
      if md5util.MD5 nvMD5Data =? md5util.MD5 fsMD5Data then
        (* the file is in storage already: map it and [break] *)
        Returns ((fileStorageMap ++
                   [mkFileStorageData (md5util.Path fsMD5Data) (md5util.Path nvMD5Data)
                                      (md5util.MD5 fsMD5Data)])%list,
                 addToStorage)
      else if (i =? lenStorage - 1)%Z then
        match storage_name fs filesDir nvMD5Data with
        | Returns storageName =>
            storage_loop fs filesDir nvMD5Data lenStorage (i + 1) rest'
              fileStorageMap
              (addToStorage ++
                 [mkFileStorageData storageName (md5util.Path nvMD5Data)
                                    (md5util.MD5 nvMD5Data)])%list
        | Panics => Panics
        | Diverges => Diverges
        end
      else
        storage_loop fs filesDir nvMD5Data lenStorage (i + 1) rest'
          fileStorageMap addToStorage
  end.

(** The outer [range] loop over the files of the new version. *)
Fixpoint diff_loop (fs : os.FS) (filesDir : string)
  (newVersionMD5s fileStorageMD5s : list md5util.FileMD5Data)
  (fileStorageMap addToStorage : list fileStorageData)
  : exec (list fileStorageData * list fileStorageData) :=
  match newVersionMD5s with
  | [] => Returns (fileStorageMap, addToStorage)
  | nvMD5Data :: rest =>
      match storage_loop fs filesDir nvMD5Data (Z.of_nat (List.length fileStorageMD5s))
                         0 fileStorageMD5s fileStorageMap addToStorage with
      | Returns (fileStorageMap', addToStorage') =>
          diff_loop fs filesDir rest fileStorageMD5s fileStorageMap' addToStorage'
      | Panics => Panics
      | Diverges => Diverges
      end
  end.

(** Lines 188-233, with the stand-in entry for an empty storage. *)
Definition content_diff (fs : os.FS) (filesDir : string)
  (newVersionMD5s fileStorageMD5s : list md5util.FileMD5Data)
  : exec (list fileStorageData * list fileStorageData) :=
  let fileStorageMap := [] in
  let fileStorageMD5s :=
    if (Z.of_nat (List.length fileStorageMD5s) <=? 0)%Z
    then [md5util.mkFileMD5Data "" ""]
    else fileStorageMD5s in
  let addToStorage := [] in
  diff_loop fs filesDir newVersionMD5s fileStorageMD5s fileStorageMap addToStorage.

(** *** Copying the new blobs into storage (lines 236-249) *)

Fixpoint copy_loop (fs : os.FS) (repoDir filesDir newVersionDir : string)
  (addToStorage fileStorageMap : list fileStorageData)
  : (Error + list fileStorageData) * os.FS :=
  match addToStorage with
  | [] => (inr fileStorageMap, fs)
  | mapping :: rest =>
      let outFilePath := path.Join filesDir (FileStoragePath mapping) in
      match os.OpenFile fs outFilePath os.O_WRONLY_CREATE_EXCL with
      | os.Err createErr =>
          (inl (CausedError ("Failed updating repository " ++ repoDir ++
                             ". Couldn't create file " ++ outFilePath ++ ".")
                            42 (os_error createErr)), fs)
      | os.Ok (fileOut, fs1) =>
          let inFilePath := path.Join newVersionDir (InstallPath mapping) in
          match os.Open fs1 inFilePath with
          | os.Err readErr =>
              (inl (CausedError ("Failed updating repository " ++ repoDir ++
                                 ". Couldn't read file " ++ inFilePath ++ ".")
                                43 (os_error readErr)), fs1)
          | os.Ok (fileIn, fs2) =>
              let fs3 := os.Copy fs2 fileOut fileIn in
              copy_loop fs3 repoDir filesDir newVersionDir rest
                        (fileStorageMap ++ [mapping])%list
          end
      end
  end.

(** *** Building the version (lines 254-264) *)

Fixpoint build_files (urlBase : string) (fileStorageMap : list fileStorageData)
  (files : list repo.FileInfo.t) : list repo.FileInfo.t :=
  match fileStorageMap with
  | [] => files
  | fsMapData :: rest =>
      let fileInfo :=
        repo.FileInfo.mk (InstallPath fsMapData)
          [repo.FileSource.mk "http" (urlBase ++ FileStoragePath fsMapData)]
          (MD5 fsMapData) in
      build_files urlBase rest (files ++ [fileInfo])%list
  end.

(** *** The messages *)

Definition cant_update (repoDir msg : string) : string :=
  "Can't update repository " ++ repoDir ++ ": " ++ msg.

(** *** [UpdateRepo] (lines 81-310) *)

Definition UpdateRepo (fs : os.FS)
  (repoDir filesDir urlBase newVersionDir versionName : string) (versionId : Z)
  : exec (option Error) * os.FS :=
  let urlBase := if golang.HasSuffix urlBase "/" then urlBase else urlBase ++ "/" in
  (* Make sure the repository directory exists. *)
  match os.Stat fs repoDir with
  | os.Err err =>
      let '(msg, code) :=
        if os.IsNotExist (Some err)
        then ("Invalid repository: repository directory doesn't exist.", 10%Z)
        else if os.IsPermission (Some err)
        then ("Can't access repository directory: permission denied.", 20%Z)
        else ("Can't access repository directory: an unknown error occurred.", (-2)%Z) in
      (Returns (Some (CausedError (cant_update repoDir msg) code (os_error err))), fs)
  | os.Ok false =>
      (Returns (Some (MessageError
         ("Can't update repository. The path " ++ repoDir ++
          " is not a valid repository. Must be a directory.") 10)), fs)
  | os.Ok true =>
  (* Also make sure the file storage directory exists. *)
  match os.Stat fs filesDir with
  | os.Err err =>
      let '(msg, code) :=
        if os.IsNotExist (Some err)
        then ("Invalid file storage directory: file storage directory doesn't exist.", 11%Z)
        else if os.IsPermission (Some err)
        then ("Can't access file storage directory: permission denied.", 21%Z)
        else ("Can't access file storage directory: an unknown error occurred.", (-2)%Z) in
      (Returns (Some (CausedError (cant_update repoDir msg) code (os_error err))), fs)
  | os.Ok false =>
      (Returns (Some (MessageError
         ("The path " ++ filesDir ++
          " is not a valid file storage directory. Must be a directory.") 11)), fs)
  | os.Ok true =>
  (* And the new version's directory: line 128 examines [filesDir]. *)
  match os.Stat fs filesDir with
  | os.Err err =>
      let '(msg, code) :=
        if os.IsNotExist (Some err)
        then ("Invalid new version directory: new version directory doesn't exist.", 12%Z)
        else if os.IsPermission (Some err)
        then ("Can't access new version directory: permission denied.", 22%Z)
        else ("Can't access new version directory: an unknown error occurred.", (-2)%Z) in
      (Returns (Some (CausedError (cant_update repoDir msg) code (os_error err))), fs)
  | os.Ok false =>
      (Returns (Some (MessageError
         ("The path " ++ filesDir ++
          " is not a valid new version directory. Must be a directory.") 12)), fs)
  | os.Ok true =>
  let indexFilePath := path.Join repoDir repo.IndexFileName in
  (* Try to read the index file. *)
  match os.ReadFile fs indexFilePath with
  | os.Err indexErr =>
      let '(msg, code) :=
        if os.IsNotExist (Some indexErr)
        then ("Invalid repository (%s): index file is missing.", 13%Z)
        else if os.IsPermission (Some indexErr)
        then ("Can't access repository's index file: permission denied.", 23%Z)
        else ("An unknown error occurred when trying to read the repository's index file.",
              (-2)%Z) in
      (Returns (Some (CausedError (cant_update repoDir msg) code (os_error indexErr))), fs)
  | os.Ok fileData =>
  (* Unmarshal the JSON. *)
  match json_Unmarshal fileData with
  | inr err =>
      (Returns (Some (CausedError (cant_update repoDir "%!s(MISSING)") 12 (json_error err))), fs)
  | inl indexData =>
  match RecursiveMD5Calc fs newVersionDir [] with
  | os.Err nvMD5Err =>
      (Returns (Some (CausedError
         ("Can't update repository " ++ repoDir ++
          ": Failed to calculate MD5s for new version directory (" ++ filesDir ++ ").")
         30 (os_error nvMD5Err))), fs)
  | os.Ok newVersionMD5s =>
  match RecursiveMD5Calc fs filesDir [] with
  | os.Err fsMD5Err =>
      (Returns (Some (CausedError
         ("Can't update repository " ++ repoDir ++
          ": Failed to calculate MD5s for file storage directory (" ++ filesDir ++ ").")
         31 (os_error fsMD5Err))), fs)
  | os.Ok fileStorageMD5s =>
  match content_diff fs filesDir newVersionMD5s fileStorageMD5s with
  | Panics => (Panics, fs)
  | Diverges => (Diverges, fs)
  | Returns (fileStorageMap, addToStorage) =>
  (* Copy the files into file storage and add them to the mapping. *)
  match copy_loop fs repoDir filesDir newVersionDir addToStorage fileStorageMap with
  | (inl e, fs1) => (Returns (Some e), fs1)
  | (inr fileStorageMap, fs1) =>
  (* Build the version object. *)
  let versionData := repo.NewVersion versionId versionName in
  let versionData :=
    repo.Version.mk (repo.Version.Id versionData) (repo.Version.Name versionData)
      (build_files urlBase fileStorageMap (repo.Version.Files versionData)) in
  (* Add the new version data to the index. *)
  let indexData :=
    repo.Index.mk (repo.Index.Channels indexData)
      (repo.Index.Versions indexData ++ [repo.VersionSummary.mk versionId versionName])%list in
  (* Now write the version data to its file. *)
  match os.OpenFile fs1 (path.Join repoDir (golang.fmt_d versionId ++ ".json"))
                    os.O_WRONLY_CREATE_EXCL with
  | os.Err err =>
      let '(msg, code) :=
        if os.IsExist (Some err)
        then ("Version " ++ golang.fmt_d versionId ++ " already exists.", 44%Z)
        else if os.IsPermission (Some err)
        then ("Can't write version file: permission denied.", 45%Z)
        else ("An unknown error occurred when trying to write the version file.", (-2)%Z) in
      (Returns (Some (CausedError (cant_update repoDir msg) code (os_error err))), fs1)
  | os.Ok (verFile, fs2) =>
  let jsonData := json_Marshal_Version versionData in
  let fs3 := os.Write fs2 verFile jsonData in
  (* And finally, write the index file. *)
  match os.OpenFile fs3 indexFilePath os.O_RDWR with
  | os.Err err =>
      let '(msg, code) :=
        if os.IsPermission (Some err)
        then ("Can't write index file: permission denied.", 45%Z)
        else ("An unknown error occurred when trying to write the index file.", (-2)%Z) in
      (Returns (Some (CausedError (cant_update repoDir msg) code (os_error err))), fs3)
  | os.Ok (indexFile, fs4) =>
  let jsonData := json_Marshal_Index indexData in
  (Returns None, os.Write fs4 indexFile jsonData)
  end end end end end end end end end end end.

End Publish.

End update.

(* ================================================================== *)
(** ** Package [setchan]: setting and removing a channel *)
(* ================================================================== *)

Module setchan.

Import subcmd.

Section SetChan.
Context {env : Env}.

(** The [range] loop of lines 242-256 over [indexData.Channels]:
    [before] holds the channels already passed.  It yields the new
    channel list and [chanExists]. *)
Fixpoint chan_loop (chanId : string) (versionId : Z)
  (before rest : list repo.Channel.t) : list repo.Channel.t * bool :=
  match rest with
  | [] => (before, false)
  | existingChan :: rest' =>
      if repo.Channel.Id existingChan =? chanId then
        if (versionId <? 0)%Z then
          (* everything before the index and everything after it *)
          ((before ++ rest')%list, true)
        else
          let existingChan :=
            repo.Channel.mk (repo.Channel.Id existingChan)
                            (repo.Channel.Name existingChan) versionId in
          ((before ++ existingChan :: rest')%list, true)
      else chan_loop chanId versionId (before ++ [existingChan])%list rest'
  end.

(** Lines 240-265: the change of the index. *)
Definition set_channel (indexData : repo.Index.t) (chanId : string) (versionId : Z)
  : repo.Index.t :=
  let '(channels, chanExists) :=
    chan_loop chanId versionId [] (repo.Index.Channels indexData) in
  let indexData := repo.Index.mk channels (repo.Index.Versions indexData) in
  (* If the channel doesn't already exist, add it. *)
  if negb chanExists then
    let channel := repo.Channel.mk chanId chanId versionId in
    repo.Index.mk (repo.Index.Channels indexData ++ [channel])%list
                  (repo.Index.Versions indexData)
  else indexData.

(** [errFmt] up to its final verb.  The channel ID and the directory
    are taken to hold no [%], so that formatting with [errFmt] puts
    the one argument at its end. *)
Definition errFmt (repoDir chanId : string) (versionId : Z) : string :=
  if (versionId >=? 0)%Z
  then "Can't set channel '" ++ chanId ++ "' to version '" ++ golang.fmt_d versionId ++
       "' for repository '" ++ repoDir ++ "': "
  else "Can't remove channel '" ++ chanId ++ "' from repository '" ++ repoDir ++ "': ".

(** [SetChan] *)
Definition SetChan (fs : os.FS) (repoDir chanId : string) (versionId : Z)
  : option Error * os.FS :=
  let errFmt := errFmt repoDir chanId versionId in
  (* Make sure the repository directory exists. *)
  match os.Stat fs repoDir with
  | os.Err err =>
      let '(msg, code) :=
        if os.IsNotExist (Some err)
        then ("Invalid repository: repository directory doesn't exist.", 10%Z)
        else if os.IsPermission (Some err)
        then ("Can't access repository directory: permission denied.", 20%Z)
        else ("Can't access repository directory: an unknown error occurred.", (-2)%Z) in
      (Some (CausedError (errFmt ++ msg) code (os_error err)), fs)
  | os.Ok false =>
      (Some (MessageError
         (errFmt ++ "The path %s is not a valid repository. Must be a directory." ++
          "%!(EXTRA string=" ++ repoDir ++ ")") 10), fs)
  | os.Ok true =>
  let indexFilePath := path.Join repoDir "index.json" in
  (* Try to read the index file. *)
  match os.ReadFile fs indexFilePath with
  | os.Err indexErr =>
      let '(msg, code) :=
        if os.IsNotExist (Some indexErr)
        then ("Invalid repository (%s): index file is missing.", 13%Z)
        else if os.IsPermission (Some indexErr)
        then ("Can't access repository's index file: permission denied.", 23%Z)
        else ("An unknown error occurred when trying to read the repository's index file.",
              (-2)%Z) in
      (Some (CausedError (errFmt ++ msg) code (os_error indexErr)), fs)
  | os.Ok fileData =>
  (* Unmarshal the JSON. *)
  match json_Unmarshal fileData with
  | inr err =>
      (Some (CausedError (errFmt ++ err) 12 (json_error err)), fs)
  | inl indexData =>
  let indexData := set_channel indexData chanId versionId in
  (* Finally, write the index back to the file. *)
  match os.OpenFile fs indexFilePath os.O_WRONLY_TRUNC with
  | os.Err err =>
      let '(msg, code) :=
        if os.IsPermission (Some err)
        then ("Can't write index file: permission denied.", 45%Z)
        else ("An unknown error occurred when trying to write the index file.", (-2)%Z) in
      (Some (CausedError (errFmt ++ msg) code (os_error err)), fs)
  | os.Ok (indexFile, fs1) =>
  let jsonData := json_Marshal_Index indexData in
  (None, os.Write fs1 indexFile jsonData)
  end end end end.

End SetChan.

End setchan.

(* ================================================================== *)
(** ** Package [mkchan]: creating a channel *)
(* ================================================================== *)

Module mkchan.

Import subcmd.

Section CreateChan.
Context {env : Env}.

(** The [range] loop of lines 100-104: is there a channel of that
    ID? *)
Fixpoint chan_present (chanId : string) (channels : list repo.Channel.t) : bool :=
  match channels with
  | [] => false
  | existingChan :: rest =>
      if repo.Channel.Id existingChan =? chanId then true
      else chan_present chanId rest
  end.

Definition errFmt (repoDir chanId : string) : string :=
  "Can't create channel '" ++ chanId ++ "' for repository '" ++ repoDir ++ "': ".

(** [CreateChan] *)
Definition CreateChan (fs : os.FS) (repoDir chanId : string)
  : option Error * os.FS :=
  let errFmt := errFmt repoDir chanId in
  (* Make sure the repository directory exists. *)
  match os.Stat fs repoDir with
  | os.Err err =>
      let '(msg, code) :=
        if os.IsNotExist (Some err)
        then ("Invalid repository: repository directory doesn't exist.", 10%Z)
        else if os.IsPermission (Some err)
        then ("Can't access repository directory: permission denied.", 20%Z)
        else ("Can't access repository directory: an unknown error occurred.", (-2)%Z) in
      (Some (CausedError (errFmt ++ msg) code (os_error err)), fs)
  | os.Ok false =>
      (Some (MessageError
         (errFmt ++ "The path %s is not a valid repository. Must be a directory." ++
          "%!(EXTRA string=" ++ repoDir ++ ")") 10), fs)
  | os.Ok true =>
  let indexFilePath := path.Join repoDir "index.json" in
  (* Try to read the index file. *)
  match os.ReadFile fs indexFilePath with
  | os.Err indexErr =>
      let '(msg, code) :=
        if os.IsNotExist (Some indexErr)
        then ("Invalid repository (%s): index file is missing.", 13%Z)
        else if os.IsPermission (Some indexErr)
        then ("Can't access repository's index file: permission denied.", 23%Z)
        else ("An unknown error occurred when trying to read the repository's index file.",
              (-2)%Z) in
      (Some (CausedError (errFmt ++ msg) code (os_error indexErr)), fs)
  | os.Ok fileData =>
  (* Unmarshal the JSON. *)
  match json_Unmarshal fileData with
  | inr err =>
      (Some (CausedError (errFmt ++ "%!s(MISSING)") 12 (json_error err)), fs)
  | inl indexData =>
  (* Now make sure the channel doesn't already exist. *)
  if chan_present chanId (repo.Index.Channels indexData) then
    (Some (MessageError (errFmt ++ "Channel already exists") 42), fs)
  else
  (* Now create the channel: [CurrentVersion] is left at its zero value. *)
  let channel := repo.Channel.mk chanId chanId 0 in
  (* Add the channel to the index. *)
  let indexData :=
    repo.Index.mk (repo.Index.Channels indexData ++ [channel])%list
                  (repo.Index.Versions indexData) in
  (* And finally, write the index back to the file. *)
  match os.OpenFile fs indexFilePath os.O_RDWR with
  | os.Err err =>
      let '(msg, code) :=
        if os.IsPermission (Some err)
        then ("Can't write index file: permission denied.", 45%Z)
        else ("An unknown error occurred when trying to write the index file.", (-2)%Z) in
      (Some (CausedError (errFmt ++ msg) code (os_error err)), fs)
  | os.Ok (indexFile, fs1) =>
  let jsonData := json_Marshal_Index indexData in
  (None, os.Write fs1 indexFile jsonData)
  end end end end.

End CreateChan.

End mkchan.

(* ================================================================== *)
(** ** Package [create]: creating a repository *)
(* ================================================================== *)

(** The two further calls of the standard library that [CreateRepo]
    makes, over the same file system. *)
Module fsys.

Import os.

(** [os.Mkdir]: the directory is new, and its parent is a directory
    that admits it. *)
Definition Mkdir (fs : FS) (p : string) : option errno * FS :=
  match lookup fs p with
  | Some _ => (Some EEXIST, fs)
  | None =>
      match lookup fs (path.Dir p) with
      | None => (Some ENOENT, fs)
      | Some d =>
          if negb (IsDir d) then (Some EOTHER, fs)
          else
            match mode d with
            | Full => (None, (fs ++ [(p, mkInode true "" Full)])%list)
            | _ => (Some EACCES, fs)
            end
      end
  end.

Definition O_WRONLY_CREATE_TRUNC : flags := mkFlags true true false true.

(** [ioutil.WriteFile]: the file is created or truncated, and
    written. *)
Definition WriteFile (fs : FS) (filename data : string) : option errno * FS :=
  match OpenFile fs filename O_WRONLY_CREATE_TRUNC with
  | Err e => (Some e, fs)
  | Ok (f, fs1) => (None, Write fs1 f data)
  end.

End fsys.

Module create.

Import subcmd.

Section CreateRepo.
Context {env : Env}.

(** [CreateRepo] (lines 54-93).  The encoding of the blank index
    does not fail, so that the branch on [jsonError] is never
    taken. *)
Definition CreateRepo (fs : os.FS) (repoDir : string) : option Error * os.FS :=
  (* Try to create the repository directory. *)
  match fsys.Mkdir fs repoDir with
  | (Some err, fs1) =>
      if os.IsExist (Some err) then
        (Some (CausedError
           ("Can't create repository at " ++ repoDir ++
            " because the directory already exists. " ++
            "Cannot create a repository in an existing directory.")
           11 (os_error err)), fs1)
      else if os.IsNotExist (Some err) then
        (Some (CausedError
           ("Can't create repository at " ++ repoDir ++
            ". Make sure the parent directory exists.")
           12 (os_error err)), fs1)
      else
        (Some (CausedError
           ("Failed to create repository at " ++ repoDir ++ ". An unknown error occurred.")
           10 (os_error err)), fs1)
  | (None, fs1) =>
      (* Determine the path to the index file. *)
      let indexFilePath := path.Join repoDir repo.IndexFileName in
      (* Get a new, blank index data struct. *)
      let indexData := repo.NewBlankIndex in
      (* Serialize the index structure to JSON... *)
      let jsonData := json_Marshal_Index indexData in
      (* ...and write it to the index file. *)
      match fsys.WriteFile fs1 indexFilePath jsonData with
      | (Some writeError, fs2) =>
          (Some (CausedError "Failed to write index file." 20 (os_error writeError)), fs2)
      | (None, fs2) => (None, fs2)
      end
  end.

(** [Command.Execute] (lines 44-52) *)
Definition Execute (fs : os.FS) (args : list string) : option Error * os.FS :=
  match args with
  | [] => (Some (UsageError "'create' command requires at least one argument."), fs)
  | repoDir :: _ => CreateRepo fs repoDir
  end.

End CreateRepo.

End create.

(* ================================================================== *)
(** ** The commands as they are run: [Command.Execute] *)
(* ================================================================== *)

Module strconv.

Definition is_digit (c : ascii) : bool :=
  let n := nat_of_ascii c in (48 <=? n)%nat && (n <=? 57)%nat.

(** The digits of a decimal number, most significant first, after
    the value [acc] of those read; [None] at a character that is no
    digit. *)
Fixpoint digits (acc : Z) (s : string) : option Z :=
  match s with
  | EmptyString => Some acc
  | String c rest =>
      if is_digit c
      then digits (10 * acc + Z.of_nat (nat_of_ascii c - 48)) rest
      else None
  end.

(** [strconv.ParseInt(s, 10, 0)]: an optional sign and at least one
    digit, within the range of [int]; [None] is a syntax or range
    error. *)
Definition ParseInt (s : string) : option Z :=
  match s with
  | EmptyString => None
  | String c rest =>
      let '(neg, s1) :=
        if Ascii.eqb c "+" then (false, rest)
        else if Ascii.eqb c "-" then (true, rest)
        else (false, s) in
      match s1 with
      | EmptyString => None
      | _ =>
          match digits 0 s1 with
          | None => None
          | Some un =>
              let cutoff := (2 ^ 63)%Z in
              if negb neg && (cutoff <=? un)%Z then None
              else if neg && (cutoff <? un)%Z then None
              else Some (if neg then (- un)%Z else un)
          end
      end
  end.

End strconv.

Module commands.

Import subcmd.

Section Execute.
Context {env : Env}.

(** [update.Command.Execute] (lines 49-68) *)
Definition update_Execute (fs : os.FS) (args : list string)
  : exec (option Error) * os.FS :=
  match args with
  | repoDir :: filesDir :: urlBase :: newVersionDir :: versionName :: versionIdStr :: _ =>
      match strconv.ParseInt versionIdStr with
      | None => (Returns (Some (UsageError "Version ID must be a positive integer.")), fs)
      | Some versionId =>
          update.UpdateRepo fs repoDir filesDir urlBase newVersionDir versionName versionId
      end
  | _ => (Returns (Some (UsageError "'update' command requires at least six arguments.")), fs)
  end.

(** [setchan.Command.Execute]: without a version ID the version is
    -1. *)
Definition setchan_Execute (fs : os.FS) (args : list string) : option Error * os.FS :=
  match args with
  | repoDir :: chanId :: rest =>
      let versionIdStr := match rest with [] => "-1" | v :: _ => v end in
      match strconv.ParseInt versionIdStr with
      | None => (Some (UsageError "Version ID must be a positive integer."), fs)
      | Some versionId => setchan.SetChan fs repoDir chanId versionId
      end
  | _ => (Some (UsageError "'setchan' command takes at least two arguments."), fs)
  end.

(** [mkchan.Command.Execute] (lines 38-46) *)
Definition mkchan_Execute (fs : os.FS) (args : list string) : option Error * os.FS :=
  match args with
  | repoDir :: chanId :: _ => mkchan.CreateChan fs repoDir chanId
  | _ => (Some (UsageError "'mkchan' command takes at least two arguments."), fs)
  end.

End Execute.

End commands.

(* ================================================================== *)
(** ** Package [main]: the table of commands and the exit code *)
(* ================================================================== *)

(** What the program writes to the standard error stream (the error
    message, the usage line, the help text, whose lines come in the
    order of iteration of a Go map) is left out: the model keeps the
    file system and the exit code of the process. *)
Module repoman.

Import subcmd.

(** The values of the interface [subcmd.Command] that [main] puts
    into the table. *)
Inductive Command : Type :=
| helpCommand
| create_Command
| update_Command
| mkchan_Command.

(** The map literal of [main] (lines 30-35). *)
Definition commands : list (string * Command) :=
  [("help", helpCommand);
   ("create", create_Command);
   ("update", update_Command);
   ("mkchan", mkchan_Command)].

(** Indexing the map with the [ok] form. *)
Fixpoint map_lookup (m : list (string * Command)) (key : string) : option Command :=
  match m with
  | [] => None
  | (k, c) :: rest => if (k =? key)%string then Some c else map_lookup rest key
  end.

Section Main.
Context {env : Env}.

(** [helpCommand.Execute]: the help text starts with [os.Args[0]],
    an index out of range when the program was started without argument
    vector; the loop over the table ends, and [nil] is returned. *)
Definition help_Execute (osArgs : list string) (fs : os.FS) (args : list string)
  : exec (option Error) * os.FS :=
  match osArgs with
  | [] => (Panics, fs)
  | _ :: _ => (Returns None, fs)
  end.

(** The method [Execute] of each command. *)
Definition Execute (cmd : Command) (osArgs : list string) (fs : os.FS) (args : list string)
  : exec (option Error) * os.FS :=
  match cmd with
  | helpCommand => help_Execute osArgs fs args
  | create_Command => let '(r, fs') := create.Execute fs args in (Returns r, fs')
  | update_Command => commands.update_Execute fs args
  | mkchan_Command => let '(r, fs') := commands.mkchan_Execute fs args in (Returns r, fs')
  end.

(** [executeCommand]: the exit code the process should exit with. *)
Definition executeCommand (cmd : Command) (osArgs : list string) (fs : os.FS)
  (args : list string) : exec Z * os.FS :=
  match Execute cmd osArgs fs args with
  | (Returns None, fs') => (Returns 0%Z, fs')
  | (Returns (Some err), fs') => (Returns (ExitCode err), fs')
  | (Panics, fs') => (Panics, fs')
  | (Diverges, fs') => (Diverges, fs')
  end.

(** [main]: the result is the argument of [os.Exit]. *)
Definition main (osArgs : list string) (fs : os.FS) : exec Z * os.FS :=
  match osArgs with
  | [] | [_] =>
      (* There must be at least one argument (the sub-command). *)
      match executeCommand helpCommand osArgs fs [] with
      | (Returns _, fs') => (Returns 1%Z, fs')
      | r => r
      end
  | _ :: cmd :: rest =>
      (* Look up the command in the command map. *)
      match map_lookup commands cmd with
      | Some cmdInfo => executeCommand cmdInfo osArgs fs rest
      | None => executeCommand helpCommand osArgs fs rest
      end
  end.

End Main.

End repoman.

(* ================================================================== *)
(** ** An environment to run the commands in *)
(* ================================================================== *)

(** The theorems below hold for every environment.  To run the
    commands on examples, this module supplies one: a JSON encoding of
    the index and of a version, written field by field in the order of
    declaration, and a hasher over the file system model. *)
Module sample.

(** *** Hasher *)

(** A stand-in for the MD5 digest in examples: 32 hexadecimal
    digits that depend on the content only (its first 16 bytes,
    padded with zeros). *)
Definition hex_digit (n : nat) : ascii :=
  match get n "0123456789abcdef" with
  | Some c => c
  | None => "0"%char
  end.

Fixpoint hex (s : string) : string :=
  match s with
  | EmptyString => EmptyString
  | String c t =>
      String (hex_digit (nat_of_ascii c / 16))
        (String (hex_digit (nat_of_ascii c mod 16)) (hex t))
  end.

Definition digest (content : string) : string :=
  substring 0 32 (hex content ++ "00000000000000000000000000000000").

(** The path of [p] relative to [dir], when [p] is below [dir]. *)
Definition below (dir p : string) : option string :=
  if prefix (dir ++ "/") p
  then Some (golang.drop (String.length dir + 1) p)
  else None.

Fixpoint mem (x : string) (l : list string) : bool :=
  match l with
  | [] => false
  | y :: r => (x =? y) || mem x r
  end.

Fixpoint walk (dir : string) (exclude : list string) (entries : os.FS)
  : os.result (list md5util.FileMD5Data) :=
  match entries with
  | [] => os.Ok []
  | (p, n) :: rest =>
      match below dir p with
      | None => walk dir exclude rest
      | Some rel =>
          if os.IsDir n || mem rel exclude then walk dir exclude rest
          else
            match os.mode n with
            | os.NoAccess => os.Err os.EACCES
            | _ =>
                match walk dir exclude rest with
                | os.Ok l => os.Ok (md5util.mkFileMD5Data rel (digest (os.data n)) :: l)
                | os.Err e => os.Err e
                end
            end
      end
  end.

(** Modelled from the spec: [md5util.RecursiveMD5Calc] is not among
    the sources; it is to "compute content hash for every file under
    a directory, recursively, skipping excluded paths". *)
Definition RecursiveMD5Calc (fs : os.FS) (dir : string) (exclude : list string)
  : os.result (list md5util.FileMD5Data) :=
  match os.Stat fs dir with
  | os.Err e => os.Err e
  | os.Ok false => os.Err os.EOTHER
  | os.Ok true => walk dir exclude fs
  end.

(** *** JSON *)

Definition dquote : ascii := "034"%char.

Definition quote (s : string) : string := String dquote (s ++ String dquote "").

Fixpoint commas (l : list string) : string :=
  match l with
  | [] => ""
  | [x] => x
  | x :: r => x ++ "," ++ commas r
  end.

Definition array (l : list string) : string := "[" ++ commas l ++ "]".

Definition Marshal_Channel (c : repo.Channel.t) : string :=
  "{" ++ quote "Id" ++ ":" ++ quote (repo.Channel.Id c) ++ "," ++
  quote "Name" ++ ":" ++ quote (repo.Channel.Name c) ++ "," ++
  quote "CurrentVersion" ++ ":" ++ golang.fmt_d (repo.Channel.CurrentVersion c) ++ "}".

Definition Marshal_VersionSummary (v : repo.VersionSummary.t) : string :=
  "{" ++ quote "Id" ++ ":" ++ golang.fmt_d (repo.VersionSummary.Id v) ++ "," ++
  quote "Name" ++ ":" ++ quote (repo.VersionSummary.Name v) ++ "}".

Definition Marshal_Index (x : repo.Index.t) : string :=
  "{" ++ quote "Channels" ++ ":" ++
  array (map Marshal_Channel (repo.Index.Channels x)) ++ "," ++
  quote "Versions" ++ ":" ++
  array (map Marshal_VersionSummary (repo.Index.Versions x)) ++ "}".

Definition Marshal_FileSource (x : repo.FileSource.t) : string :=
  "{" ++ quote "SourceType" ++ ":" ++ quote (repo.FileSource.SourceType x) ++ "," ++
  quote "Url" ++ ":" ++ quote (repo.FileSource.Url x) ++ "}".

Definition Marshal_FileInfo (x : repo.FileInfo.t) : string :=
  "{" ++ quote "Path" ++ ":" ++ quote (repo.FileInfo.Path x) ++ "," ++
  quote "Sources" ++ ":" ++ array (map Marshal_FileSource (repo.FileInfo.Sources x)) ++ "," ++
  quote "MD5" ++ ":" ++ quote (repo.FileInfo.MD5 x) ++ "}".

Definition Marshal_Version (x : repo.Version.t) : string :=
  "{" ++ quote "Id" ++ ":" ++ golang.fmt_d (repo.Version.Id x) ++ "," ++
  quote "Name" ++ ":" ++ quote (repo.Version.Name x) ++ "," ++
  quote "Files" ++ ":" ++ array (map Marshal_FileInfo (repo.Version.Files x)) ++ "}".

(** The tokens of a JSON text without escapes in its strings. *)
Inductive token : Type :=
| LBrace | RBrace | LBracket | RBracket | Colon | Comma
| Str (s : string)
| Num (z : Z).

Inductive lex_state : Type :=
| Idle
| InStr (acc : string)
| InNum (acc : string).

Definition is_space (c : ascii) : bool :=
  Ascii.eqb c " " || Ascii.eqb c "010" || Ascii.eqb c "009" || Ascii.eqb c "013".

Definition is_digit (c : ascii) : bool :=
  let n := nat_of_ascii c in (48 <=? n)%nat && (n <=? 57)%nat.

Definition number (acc : string) : option token :=
  match NilZero.int_of_string acc with
  | Some d => Some (Num (Z.of_int d))
  | None => None
  end.

(** One character read outside strings and numbers. *)
Definition idle_step (c : ascii) : option (list token * lex_state) :=
  if is_space c then Some ([], Idle)
  else if Ascii.eqb c dquote then Some ([], InStr "")
  else if is_digit c || Ascii.eqb c "-" then Some ([], InNum (String c ""))
  else if Ascii.eqb c "{" then Some ([LBrace], Idle)
  else if Ascii.eqb c "}" then Some ([RBrace], Idle)
  else if Ascii.eqb c "[" then Some ([LBracket], Idle)
  else if Ascii.eqb c "]" then Some ([RBracket], Idle)
  else if Ascii.eqb c ":" then Some ([Colon], Idle)
  else if Ascii.eqb c "," then Some ([Comma], Idle)
  else None.

Fixpoint lex (st : lex_state) (s : string) : option (list token) :=
  match s with
  | EmptyString =>
      match st with
      | Idle => Some []
      | InStr _ => None
      | InNum acc => match number acc with Some t => Some [t] | None => None end
      end
  | String c rest =>
      match st with
      | Idle =>
          match idle_step c with
          | Some (ts, st') =>
              match lex st' rest with Some l => Some (ts ++ l)%list | None => None end
          | None => None
          end
      | InStr acc =>
          if Ascii.eqb c dquote then
            match lex Idle rest with Some l => Some (Str acc :: l) | None => None end
          else lex (InStr (acc ++ String c "")) rest
      | InNum acc =>
          if is_digit c then lex (InNum (acc ++ String c "")) rest
          else
            match number acc, idle_step c with
            | Some t, Some (ts, st') =>
                match lex st' rest with Some l => Some (t :: ts ++ l)%list | None => None end
            | _, _ => None
            end
      end
  end.

(** A channel object at the head of the tokens. *)
Definition parse_Channel (ts : list token) : option (repo.Channel.t * list token) :=
  match ts with
  | LBrace :: Str k1 :: Colon :: Str id :: Comma ::
    Str k2 :: Colon :: Str name :: Comma ::
    Str k3 :: Colon :: Num v :: RBrace :: rest =>
      if (k1 =? "Id") && (k2 =? "Name") && (k3 =? "CurrentVersion")
      then Some (repo.Channel.mk id name v, rest) else None
  | _ => None
  end.

Definition parse_VersionSummary (ts : list token)
  : option (repo.VersionSummary.t * list token) :=
  match ts with
  | LBrace :: Str k1 :: Colon :: Num id :: Comma ::
    Str k2 :: Colon :: Str name :: RBrace :: rest =>
      if (k1 =? "Id") && (k2 =? "Name")
      then Some (repo.VersionSummary.mk id name, rest) else None
  | _ => None
  end.

(** The elements of an array after its opening bracket, up to and
    with its closing one. *)
Fixpoint parse_elements {A} (elem : list token -> option (A * list token))
  (fuel : nat) (first : bool) (ts : list token) : option (list A * list token) :=
  match fuel with
  | O => None
  | S fuel' =>
      match ts with
      | RBracket :: rest => if first then Some ([], rest) else None
      | _ =>
          match elem ts with
          | Some (x, RBracket :: rest) => Some ([x], rest)
          | Some (x, Comma :: rest) =>
              match parse_elements elem fuel' false rest with
              | Some (xs, rest') => Some (x :: xs, rest')
              | None => None
              end
          | _ => None
          end
      end
  end.

Definition Unmarshal (text : string) : repo.Index.t + string :=
  match lex Idle text with
  | None => inr "invalid character in JSON text"
  | Some ts =>
      match ts with
      | LBrace :: Str k1 :: Colon :: LBracket :: ts1 =>
          match parse_elements parse_Channel (S (List.length ts1)) true ts1 with
          | Some (channels, Comma :: Str k2 :: Colon :: LBracket :: ts2) =>
              match parse_elements parse_VersionSummary (S (List.length ts2)) true ts2 with
              | Some (versions, [RBrace]) =>
                  if (k1 =? "Channels") && (k2 =? "Versions")
                  then inl (repo.Index.mk channels versions)
                  else inr "unknown field"
              | _ => inr "cannot unmarshal the version list"
              end
          | _ => inr "cannot unmarshal the channel list"
          end
      | _ => inr "cannot unmarshal into an index"
      end
  end.

Definition env : Env :=
  Build_Env Unmarshal Marshal_Index Marshal_Version RecursiveMD5Calc.

(** A directory and a file as the examples use them. *)
Definition dir : os.inode := os.mkInode true "" os.Full.
Definition file (content : string) : os.inode := os.mkInode false content os.Full.

End sample.

(* ================================================================== *)
(** ** The vocabulary of the statements *)
(* ================================================================== *)

Module props.

Import os subcmd.

(** [fs'] has every entry of [fs] as it was. *)
Definition preserves (fs fs' : FS) : Prop :=
  forall p n, lookup fs p = Some n -> lookup fs' p = Some n.

(** [fs'] differs from [fs] only by new entries directly under
    [dir]. *)
Definition adds_under (dir : string) (fs fs' : FS) : Prop :=
  forall p, lookup fs' p = lookup fs p \/
            (lookup fs p = None /\ exists name, p = path.Join dir name).

(** The path of the index file and of the manifest of a version. *)
Definition index_path (repoDir : string) : string :=
  path.Join repoDir repo.IndexFileName.

Definition manifest_path (repoDir : string) (versionId : Z) : string :=
  path.Join repoDir (golang.fmt_d versionId ++ ".json").

(** The two errors of the last step of a publish, the write of the
    index file (lines 292-303). *)
Definition index_write_failure (repoDir : string) (out : exec (option Error)) : Prop :=
  exists err,
    out = Returns (Some (CausedError
            (update.cant_update repoDir "Can't write index file: permission denied.")
            45 (os_error err)))
    \/ out = Returns (Some (CausedError
            (update.cant_update repoDir
               "An unknown error occurred when trying to write the index file.")
            (-2) (os_error err))).




(** *** The content store *)

(** The storage entries the loops run over: the stand-in entry when
    the storage is empty (lines 190-194). *)
Definition effective (fileStorageMD5s : list md5util.FileMD5Data)
  : list md5util.FileMD5Data :=
  match fileStorageMD5s with
  | [] => [md5util.mkFileMD5Data "" ""]
  | _ => fileStorageMD5s
  end.

(** The first storage entry of a given hash. *)
Definition first_with (md5 : string) (storage : list md5util.FileMD5Data)
  : option md5util.FileMD5Data :=
  find (fun e => md5 =? md5util.MD5 e) storage.

(** The files of a new version sorted into those found in storage,
    each with the first blob of its hash, and those to be added, each
    with the name chosen for it on the file system [fs]. *)
Inductive sorted_into (fs : FS) (filesDir : string) (storage : list md5util.FileMD5Data)
  : list md5util.FileMD5Data ->
    list update.fileStorageData -> list update.fileStorageData -> Prop :=
| sorted_nil : sorted_into fs filesDir storage [] [] []
| sorted_found f e rest found added :
    first_with (md5util.MD5 f) storage = Some e ->
    sorted_into fs filesDir storage rest found added ->
    sorted_into fs filesDir storage (f :: rest)
      (update.mkFileStorageData (md5util.Path e) (md5util.Path f) (md5util.MD5 e) :: found)
      added
| sorted_added f name rest found added :
    first_with (md5util.MD5 f) storage = None ->
    update.storage_name fs filesDir f = Returns name ->
    sorted_into fs filesDir storage rest found added ->
    sorted_into fs filesDir storage (f :: rest) found
      (update.mkFileStorageData name (md5util.Path f) (md5util.MD5 f) :: added).

(** The candidate names for a blob, in the order in which the loop
    of line 216 tries them: the prefix grows from 4 characters to
    the 32 of the hash, then the names are numbered from 0. *)
Definition candidate (md5 storageNameBase : string) (k : nat) : string :=
  if (k <=? 28)%nat
  then substring 0 (4 + k) md5 ++ "-" ++ storageNameBase
  else substring 0 32 md5 ++ "-" ++ golang.fmt_d (Z.of_nat (k - 29)) ++ "-" ++
       storageNameBase.

(** The prefix size and the prefix number of the loop in its round
    [k], counted from 0. *)
Definition size_at (k : nat) : Z := Z.of_nat (Nat.min (4 + k) 32).
Definition num_at (k : nat) : Z :=
  if (k <=? 28)%nat then (-1)%Z else Z.of_nat (k - 29).

(** Candidate [k] is not on the file system. *)
Definition missing (fs : FS) (filesDir md5 storageNameBase : string) (k : nat) : Prop :=
  lookup fs (path.Join filesDir (candidate md5 storageNameBase k)) = None.

(** The storage entry of a blob that a publish has added. *)
Definition blob_of (x : update.fileStorageData) : md5util.FileMD5Data :=
  md5util.mkFileMD5Data (update.FileStoragePath x) (update.MD5 x).

(** [l] lists the elements of [old] and those of [new], each in
    their order: a listing of a directory after files were added to
    it. *)
Inductive interleaved {A : Type} : list A -> list A -> list A -> Prop :=
| inter_nil : interleaved [] [] []
| inter_old x old new l : interleaved old new l -> interleaved (x :: old) new (x :: l)
| inter_new x old new l : interleaved old new l -> interleaved old (x :: new) (x :: l).

End props.

(* ================================================================== *)
(** ** File systems for the examples *)
(* ================================================================== *)

Module examples.

Import sample.

Definition blank_index : string := Marshal_Index repo.NewBlankIndex.

(** A repository with an empty index, an empty storage directory,
    and a new version of two files. *)
Definition fs_fresh : os.FS :=
  [ ("repo", dir); ("repo/index.json", file blank_index);
    ("store", dir);
    ("new", dir); ("new/a.txt", file "aaaa"); ("new/b.txt", file "bbbb") ].

(** A repository that holds the manifest of version 1 already. *)
Definition fs_version_1 : os.FS :=
  [ ("repo", dir); ("repo/index.json", file blank_index);
    ("repo/1.json", file "{}");
    ("store", dir);
    ("new", dir); ("new/a.txt", file "aaaa") ].

(** A repository whose index cannot be written. *)
Definition fs_index_read_only : os.FS :=
  [ ("repo", dir); ("repo/index.json", os.mkInode false blank_index os.ReadOnly);
    ("store", dir);
    ("new", dir); ("new/a.txt", file "aaaa") ].

(** A repository whose index file starts with blank space. *)
Fixpoint spaces (n : nat) : string :=
  match n with
  | O => EmptyString
  | S k => String " " (spaces k)
  end.

Definition padding : string := spaces 240.

Definition fs_padded_index : os.FS :=
  [ ("repo", dir); ("repo/index.json", file (padding ++ blank_index));
    ("store", dir);
    ("new", dir); ("new/a.txt", file "aaaa") ].

(** A new version with the same file in two directories. *)
Definition fs_twins : os.FS :=
  [ ("repo", dir); ("repo/index.json", file blank_index);
    ("store", dir);
    ("new", dir);
    ("new/a", dir); ("new/a/LICENSE", file "MIT License");
    ("new/b", dir); ("new/b/LICENSE", file "MIT License") ].

(** A new version with two files of the same content. *)
Definition fs_copies : os.FS :=
  [ ("repo", dir); ("repo/index.json", file blank_index);
    ("store", dir);
    ("new", dir); ("new/a.txt", file "aaaa"); ("new/b.txt", file "aaaa") ].

(** A repository with two channels. *)
Definition two_channels : repo.Index.t :=
  repo.Index.mk
    [repo.Channel.mk "stable" "stable" 1; repo.Channel.mk "beta" "Beta" 0]
    [repo.VersionSummary.mk 1 "1.0"].

Definition fs_channels : os.FS :=
  [ ("repo", dir); ("repo/index.json", file (Marshal_Index two_channels)) ].

End examples.

(* ================================================================== *)
(** ** Further vocabulary and examples *)
(* ================================================================== *)

Module more_props.

Import os subcmd.

(** The URL base as [UpdateRepo] uses it (lines 83-85). *)
Definition with_slash (urlBase : string) : string :=
  if golang.HasSuffix urlBase "/" then urlBase else urlBase ++ "/".

(** The entry of the manifest for one file of the mapping (lines
    258-261). *)
Definition file_info (urlBase : string) (x : update.fileStorageData) : repo.FileInfo.t :=
  repo.FileInfo.mk (update.InstallPath x)
    [repo.FileSource.mk "http" (urlBase ++ update.FileStoragePath x)]
    (update.MD5 x).

(** The IDs of the channels of an index. *)
Definition channel_ids (indexData : repo.Index.t) : list string :=
  map repo.Channel.Id (repo.Index.Channels indexData).

(** The file system after the two steps of [CreateRepo] (lines 59
    and 85): the directory, and the index file written into it. *)
Definition created {env : Env} (fs : FS) (repoDir : string) : FS :=
  Write ((fs ++ [(repoDir, mkInode true "" Full)]) ++
         [(props.index_path repoDir, mkInode false "" Full)])%list
        (props.index_path repoDir) (json_Marshal_Index repo.NewBlankIndex).

(** A file system with a root directory and nothing else, and one
    with a repository made by [CreateRepo] in it. *)
Definition fs_root : FS := [ ("", sample.dir) ].

Definition fs_created : FS :=
  [ ("", sample.dir); ("repo", sample.dir);
    ("repo/index.json", sample.file examples.blank_index) ].

(** A repository with one blob in storage, and a new version with a
    file of the same content and a file of another. *)
Definition fs_second_version : FS :=
  [ ("repo", sample.dir); ("repo/index.json", sample.file examples.blank_index);
    ("store", sample.dir); ("store/6161-a.txt", sample.file "aaaa");
    ("new", sample.dir); ("new/a.txt", sample.file "aaaa");
    ("new/c.txt", sample.file "cccc") ].

(** A storage in which the first name for [a.txt] is taken by a
    blob of another content. *)
Definition fs_taken : FS :=
  [ ("repo", sample.dir); ("repo/index.json", sample.file examples.blank_index);
    ("store", sample.dir); ("store/6161-a.txt", sample.file "zzzz");
    ("new", sample.dir); ("new/a.txt", sample.file "aaaa") ].

Definition a_txt : md5util.FileMD5Data :=
  md5util.mkFileMD5Data "a.txt" "61616161000000000000000000000000".

Definition c_txt : md5util.FileMD5Data :=
  md5util.mkFileMD5Data "c.txt" "63636363000000000000000000000000".

(** No separator occurs in [s]. *)
Fixpoint no_slash (s : string) : bool :=
  match s with
  | EmptyString => true
  | String c t => negb (Ascii.eqb c path.slash) && no_slash t
  end.

(** A name of [n] bytes, and a file of the new version whose name
    has 251 of them, the most that leaves the first candidate, with
    its four characters of the hash and the dash, longer than
    [NAME_MAX]. *)
Fixpoint letters (n : nat) : string :=
  match n with
  | O => EmptyString
  | S k => String "x" (letters k)
  end.

Definition long_txt : md5util.FileMD5Data :=
  md5util.mkFileMD5Data (letters 247 ++ ".txt") "6c6c6c6c000000000000000000000000".

Definition fs_long_name : FS :=
  [ ("repo", sample.dir); ("repo/index.json", sample.file examples.blank_index);
    ("store", sample.dir);
    ("new", sample.dir); ("new/" ++ letters 247 ++ ".txt", sample.file "llll") ].

End more_props.

(* ================================================================== *)
(** ** Facts about the file system calls *)
(* ================================================================== *)

Module os_facts.

Import os props.

Lemma preserves_refl fs : preserves fs fs.
Proof. intros p n H; exact H. Qed.

Lemma preserves_trans fs1 fs2 fs3 :
  preserves fs1 fs2 -> preserves fs2 fs3 -> preserves fs1 fs3.
Proof. intros H12 H23 p n H. apply H23, H12, H. Qed.

Lemma adds_under_refl dir fs : adds_under dir fs fs.
Proof. intros p; left; reflexivity. Qed.

Lemma adds_under_trans dir fs1 fs2 fs3 :
  adds_under dir fs1 fs2 -> adds_under dir fs2 fs3 -> adds_under dir fs1 fs3.
Proof.
  intros H12 H23 p.
  destruct (H23 p) as [E23 | [N2 Hn]]; destruct (H12 p) as [E12 | [N1 Hn']].
  - left; congruence.
  - right; split; assumption.
  - right; split; [congruence | assumption].
  - right; split; assumption.
Qed.

Lemma lookup_app fs fs2 p :
  lookup (fs ++ fs2)%list p =
  match lookup fs p with Some n => Some n | None => lookup fs2 p end.
Proof.
  induction fs as [| [q n] fs IH]; simpl; [reflexivity |].
  destruct (q =? p)%string; [reflexivity | exact IH].
Qed.

Lemma lookup_set_data_other fs p q d :
  p <> q -> lookup (set_data fs p d) q = lookup fs q.
Proof.
  intros Hpq. induction fs as [| [r n] fs IH]; simpl; [reflexivity |].
  destruct (String.eqb_spec r p) as [-> | Hrp]; simpl.
  - destruct (String.eqb_spec p q); [contradiction | reflexivity].
  - destruct (r =? q)%string; [reflexivity | exact IH].
Qed.

Lemma lookup_set_data_same fs p d n :
  lookup fs p = Some n ->
  lookup (set_data fs p d) p = Some (mkInode (IsDir n) d (mode n)).
Proof.
  induction fs as [| [r m] fs IH]; simpl; [discriminate |].
  destruct (String.eqb_spec r p) as [-> | Hrp]; simpl.
  - rewrite String.eqb_refl. intros [= ->]. reflexivity.
  - destruct (String.eqb_spec r p); [contradiction | exact IH].
Qed.

(** An exclusive creation succeeds only on a path not yet there, and
    adds the empty file at that path. *)
Lemma OpenFile_excl_ok fs p f fs' :
  OpenFile fs p O_WRONLY_CREATE_EXCL = Ok (f, fs') ->
  lookup fs p = None /\ f = p /\ fs' = (fs ++ [(p, mkInode false "" Full)])%list.
Proof.
  unfold OpenFile. destruct (lookup fs p) as [n |]; simpl; [discriminate |].
  destruct (lookup fs (path.Dir p)) as [d |]; [| discriminate].
  destruct (negb (IsDir d)); [discriminate |].
  destruct (mode d); try discriminate.
  intros [= <- <-]. auto.
Qed.


(** Opening without creation and without truncation leaves the file
    system as it is, and succeeds only on an entry. *)
Lemma OpenFile_plain_ok fs p fl f fs' :
  O_CREATE fl = false -> O_TRUNC fl = false ->
  OpenFile fs p fl = Ok (f, fs') ->
  f = p /\ fs' = fs /\ exists n, lookup fs p = Some n.
Proof.
  unfold OpenFile. intros Hc Ht. rewrite Hc, Ht. simpl.
  destruct (lookup fs p) as [n |]; [| discriminate].
  destruct (mode n); try discriminate.
  - destruct (O_WR fl && IsDir n); [discriminate |].
    intros [= <- <-]. eauto.
  - destruct (O_WR fl); [discriminate |].
    intros [= <- <-]. eauto.
Qed.

Lemma Write_other fs f d q : f <> q -> lookup (Write fs f d) q = lookup fs q.
Proof.
  intros Hfq. unfold Write. destruct (lookup fs f); [| reflexivity].
  apply lookup_set_data_other, Hfq.
Qed.

Lemma Write_same fs f d n :
  lookup fs f = Some n ->
  lookup (Write fs f d) f = Some (mkInode (IsDir n) (overwrite (data n) d) (mode n)).
Proof.
  intros H. unfold Write. rewrite H. apply lookup_set_data_same, H.
Qed.

Lemma Copy_other fs out inp q : out <> q -> lookup (Copy fs out inp) q = lookup fs q.
Proof.
  intros Hq. unfold Copy. destruct (lookup fs inp) as [n |]; [| reflexivity].
  destruct (IsDir n); [reflexivity |]. apply Write_other, Hq.
Qed.

Lemma ReadFile_ok fs p d :
  ReadFile fs p = Ok d -> exists n, lookup fs p = Some n /\ data n = d.
Proof.
  unfold ReadFile. destruct (lookup fs p) as [n |]; [| discriminate].
  destruct (mode n); try discriminate;
    (destruct (IsDir n); [discriminate |]); intros [= <-]; eauto.
Qed.

End os_facts.

(* ================================================================== *)
(** ** The publish command *)
(* ================================================================== *)

Module update_facts.

Import os subcmd props os_facts update.

Section Publish.
Context {env : Env}.

Lemma adds_under_preserves dir fs fs' : adds_under dir fs fs' -> preserves fs fs'.
Proof.
  intros H p n Hp. destruct (H p) as [E | [N _]]; congruence.
Qed.

(** One new blob: the exclusive creation, the opening of the source
    and the copy change nothing but the path created. *)
Lemma copy_step_adds_under filesDir name fs fileOut fs1 inp fileIn fs2 :
  OpenFile fs (path.Join filesDir name) O_WRONLY_CREATE_EXCL = Ok (fileOut, fs1) ->
  Open fs1 inp = Ok (fileIn, fs2) ->
  adds_under filesDir fs (Copy fs2 fileOut fileIn).
Proof.
  intros Hc Ho.
  apply OpenFile_excl_ok in Hc as (Hnone & -> & ->).
  apply OpenFile_plain_ok in Ho as (-> & -> & _); [| reflexivity | reflexivity].
  intros q. destruct (String.eqb_spec (path.Join filesDir name) q) as [<- | Hq].
  - right. split; [exact Hnone | eauto].
  - left. rewrite Copy_other by exact Hq. rewrite lookup_app.
    destruct (lookup fs q); [reflexivity |]. simpl.
    destruct (String.eqb_spec (path.Join filesDir name) q); [contradiction | reflexivity].
Qed.

(** The copy loop only adds blobs to the storage directory, whether
    it ends well or not. *)
Lemma copy_loop_adds_under repoDir filesDir newVersionDir addToStorage :
  forall fs fileStorageMap r fs',
    copy_loop fs repoDir filesDir newVersionDir addToStorage fileStorageMap = (r, fs') ->
    adds_under filesDir fs fs'.
Proof.
  induction addToStorage as [| mapping rest IH]; intros fs m r fs' H; simpl in H.
  - injection H as _ <-. apply adds_under_refl.
  - destruct (OpenFile fs _ O_WRONLY_CREATE_EXCL) as [[fileOut fs1] | e] eqn:Hc.
    + destruct (Open fs1 _) as [[fileIn fs2] | e] eqn:Ho.
      * eapply adds_under_trans; [| eapply IH; exact H].
        eapply copy_step_adds_under; eassumption.
      * injection H as _ <-.
        apply OpenFile_excl_ok in Hc as (Hnone & -> & ->).
        intros q. rewrite lookup_app.
        destruct (lookup fs q) eqn:Hq; [left; reflexivity |]. simpl.
        destruct (String.eqb_spec (path.Join filesDir (FileStoragePath mapping)) q)
          as [<- | Hne]; [right; eauto | left; reflexivity].
    + injection H as _ <-. apply adds_under_refl.
Qed.

(** When the copy loop ends well, the mapping holds the files found
    in storage and, after them, the files added. *)
Lemma copy_loop_ok_map repoDir filesDir newVersionDir addToStorage :
  forall fs fileStorageMap fileStorageMap' fs',
    copy_loop fs repoDir filesDir newVersionDir addToStorage fileStorageMap
    = (inr fileStorageMap', fs') ->
    fileStorageMap' = (fileStorageMap ++ addToStorage)%list.
Proof.
  induction addToStorage as [| mapping rest IH]; intros fs m m' fs' H; simpl in H.
  - injection H as <- _. symmetry. apply app_nil_r.
  - destruct (OpenFile fs _ O_WRONLY_CREATE_EXCL) as [[fileOut fs1] | e]; [| discriminate H].
    destruct (Open fs1 _) as [[fileIn fs2] | e]; [| discriminate H].
    apply IH in H. rewrite H, <- app_assoc. reflexivity.
Qed.

(** The directory of the new version is not examined before it is
    hashed: with the repository and the storage in place, an error of
    the hasher on it is what the publish reports. *)
Lemma source_directory_first_seen_by_hasher
  fs repoDir filesDir urlBase newVersionDir versionName versionId fileData indexData e :
  Stat fs repoDir = Ok true ->
  Stat fs filesDir = Ok true ->
  ReadFile fs (index_path repoDir) = Ok fileData ->
  json_Unmarshal fileData = inl indexData ->
  RecursiveMD5Calc fs newVersionDir [] = Err e ->
  UpdateRepo fs repoDir filesDir urlBase newVersionDir versionName versionId =
  (Returns (Some (CausedError
     ("Can't update repository " ++ repoDir ++
      ": Failed to calculate MD5s for new version directory (" ++ filesDir ++ ").")
     30 (os_error e))), fs).
Proof.
  intros H1 H2 H3 H4 H5. unfold UpdateRepo.
  rewrite H1, H2. fold (index_path repoDir). rewrite H3, H4, H5. reflexivity.
Qed.

Ltac stop_unchanged H :=
  simpl in H; injection H as <- <-;
  split; [reflexivity | intros _; split; [apply adds_under_refl | reflexivity]].

(** C2: a publish that fails leaves the index file as it was; and
    unless the failure is that of the final write of the index, all
    it has done is to add blobs to the storage directory, so that the
    manifest of the version, which is no such blob, has not been
    written. *)
Theorem failed_publish_keeps_index
  fs repoDir filesDir urlBase newVersionDir versionName versionId out fs' :
  UpdateRepo fs repoDir filesDir urlBase newVersionDir versionName versionId = (out, fs') ->
  out <> Returns None ->
  lookup fs' (index_path repoDir) = lookup fs (index_path repoDir) /\
  (~ index_write_failure repoDir out ->
     adds_under filesDir fs fs' /\
     ((forall name, manifest_path repoDir versionId <> path.Join filesDir name) ->
      lookup fs' (manifest_path repoDir versionId)
      = lookup fs (manifest_path repoDir versionId))).
Proof.
  intros H Hfail. unfold UpdateRepo in H.
  destruct (Stat fs repoDir) as [[|] | e1]; [| stop_unchanged H | destruct e1; stop_unchanged H].
  destruct (Stat fs filesDir) as [[|] | e2]; [| stop_unchanged H | destruct e2; stop_unchanged H].
  fold (index_path repoDir) in H.
  destruct (ReadFile fs (index_path repoDir)) as [fileData | e3] eqn:Hread;
    [| destruct e3; stop_unchanged H].
  destruct (json_Unmarshal fileData) as [indexData | jerr]; [| stop_unchanged H].
  destruct (RecursiveMD5Calc fs newVersionDir []) as [nv | e4]; [| stop_unchanged H].
  destruct (RecursiveMD5Calc fs filesDir []) as [st | e5]; [| stop_unchanged H].
  destruct (content_diff fs filesDir nv st) as [[m a] | |];
    [| stop_unchanged H | stop_unchanged H].
  destruct (copy_loop fs repoDir filesDir newVersionDir a m) as [[e6 | m'] fs1] eqn:Hcopy.
  all: pose proof (copy_loop_adds_under _ _ _ _ _ _ _ _ Hcopy) as Hadd.
  all: apply ReadFile_ok in Hread as (n & Hidx & _).
  all: pose proof (adds_under_preserves _ _ _ Hadd _ _ Hidx) as Hidx1.
  all: assert (Hframe : (forall name, manifest_path repoDir versionId <> path.Join filesDir name) ->
                        lookup fs1 (manifest_path repoDir versionId)
                        = lookup fs (manifest_path repoDir versionId))
    by (intros Hm; destruct (Hadd (manifest_path repoDir versionId)) as [E | [_ [name E]]];
        [exact E | exfalso; exact (Hm name E)]).
  - injection H as <- <-. split; [congruence | intros _; split; assumption].
  - fold (manifest_path repoDir versionId) in H.
    destruct (OpenFile fs1 (manifest_path repoDir versionId) O_WRONLY_CREATE_EXCL)
      as [[verFile fs2] | e7] eqn:Hver.
    + apply OpenFile_excl_ok in Hver as (Hnone & -> & ->).
      destruct (OpenFile _ (index_path repoDir) O_RDWR) as [[indexFile fs4] | e8] eqn:Hopen.
      * injection H as <- _. exfalso. apply Hfail. reflexivity.
      * assert (Hne : manifest_path repoDir versionId <> index_path repoDir)
          by (intros E; rewrite E in Hnone; congruence).
        split.
        -- destruct e8; simpl in H; injection H as _ <-;
             rewrite Write_other by exact Hne; rewrite lookup_app, Hidx1;
             symmetry; exact Hidx.
        -- intros Hnot. exfalso. apply Hnot. exists e8.
           destruct e8; simpl in H; injection H as <- _; auto.
    + split; [destruct e7; simpl in H; injection H as _ <-; congruence |].
      intros _. destruct e7; simpl in H; injection H as _ <-; split; assumption.
Qed.





(** A successful publish writes the encoding of the index, with the
    new version added, over the bytes the index file held. *)
Lemma publish_writes_over_index
  fs repoDir filesDir urlBase newVersionDir versionName versionId fileData indexData fs' :
  ReadFile fs (index_path repoDir) = Ok fileData ->
  json_Unmarshal fileData = inl indexData ->
  UpdateRepo fs repoDir filesDir urlBase newVersionDir versionName versionId
    = (Returns None, fs') ->
  exists n, lookup fs' (index_path repoDir) = Some n /\
    data n =
    overwrite fileData
      (json_Marshal_Index
         (repo.Index.mk (repo.Index.Channels indexData)
            (repo.Index.Versions indexData ++
               [repo.VersionSummary.mk versionId versionName])%list)).
Proof.
  intros Hread Hjson H. unfold UpdateRepo in H.
  destruct (Stat fs repoDir) as [[|] | e1];
    [| discriminate H | destruct e1; discriminate H].
  destruct (Stat fs filesDir) as [[|] | e2];
    [| discriminate H | destruct e2; discriminate H].
  fold (index_path repoDir) in H. rewrite Hread, Hjson in H.
  destruct (RecursiveMD5Calc fs newVersionDir []) as [nv | e4]; [| discriminate H].
  destruct (RecursiveMD5Calc fs filesDir []) as [st | e5]; [| discriminate H].
  destruct (content_diff fs filesDir nv st) as [[m a] | |]; try discriminate H.
  destruct (copy_loop fs repoDir filesDir newVersionDir a m) as [[e6 | m'] fs1] eqn:Hcopy;
    [discriminate H |].
  pose proof (copy_loop_adds_under _ _ _ _ _ _ _ _ Hcopy) as Hadd.
  apply ReadFile_ok in Hread as (n & Hidx & <-).
  pose proof (adds_under_preserves _ _ _ Hadd _ _ Hidx) as Hidx1.
  fold (manifest_path repoDir versionId) in H.
  destruct (OpenFile fs1 (manifest_path repoDir versionId) O_WRONLY_CREATE_EXCL)
    as [[verFile fs2] | e7] eqn:Hver; [| destruct e7; discriminate H].
  apply OpenFile_excl_ok in Hver as (Hnone & -> & ->).
  destruct (OpenFile _ (index_path repoDir) O_RDWR) as [[indexFile fs4] | e8] eqn:Hopen;
    [| destruct e8; discriminate H].
  apply OpenFile_plain_ok in Hopen as (-> & -> & _); [| reflexivity | reflexivity].
  injection H as <-.
  assert (Hne : manifest_path repoDir versionId <> index_path repoDir)
    by (intros E; rewrite E in Hnone; congruence).
  assert (Hidx3 : lookup (Write (fs1 ++ [(manifest_path repoDir versionId,
                                           mkInode false "" Full)])%list
                                (manifest_path repoDir versionId)
                                (json_Marshal_Version
                                   (repo.Version.mk
                                      (repo.Version.Id (repo.NewVersion versionId versionName))
                                      (repo.Version.Name (repo.NewVersion versionId versionName))
                                      (build_files
                                         (if golang.HasSuffix urlBase "/" then urlBase
                                          else urlBase ++ "/") m'
                                         (repo.Version.Files
                                            (repo.NewVersion versionId versionName))))))
                         (index_path repoDir) = Some n).
  { rewrite Write_other by exact Hne. rewrite lookup_app, Hidx1. reflexivity. }
  rewrite (Write_same _ _ _ _ Hidx3). eexists. split; reflexivity.
Qed.

End Publish.


(** C2 at work: the publish of a version whose manifest exists
    stops after it has copied a blob; the index file and the manifest
    are as they were. *)
Lemma failed_publish_keeps_index_witness :
  let fs := examples.fs_version_1 in
  let fs' := snd (UpdateRepo (env := sample.env) fs "repo" "store" "http://x/" "new" "1.0" 1) in
  lookup fs' (index_path "repo") = lookup fs (index_path "repo") /\
  lookup fs' (manifest_path "repo" 1) = lookup fs (manifest_path "repo" 1) /\
  lookup fs' "store/6161-a.txt" = Some (sample.file "aaaa").
Proof.
  intros fs fs'.
  destruct (failed_publish_keeps_index (env := sample.env)
              fs "repo" "store" "http://x/" "new" "1.0" 1 _ _ (surjective_pairing _))
    as [Hidx Hrest].
  { lazy. discriminate. }
  split; [exact Hidx | split; [| reflexivity]].
  apply Hrest.
  - intros [err [H | H]]; lazy in H; discriminate H.
  - intros name H. destruct name; lazy in H; discriminate H.
Defined.

(** The one failure that leaves a manifest without an entry in the
    index: the index file cannot be opened for writing. *)
Example orphaned_manifest :
  let published :=
    UpdateRepo (env := sample.env) examples.fs_index_read_only
      "repo" "store" "http://x/" "new" "1.0" 1 in
  index_write_failure "repo" (fst published) /\
  lookup (snd published) (index_path "repo")
  = lookup examples.fs_index_read_only (index_path "repo") /\
  lookup examples.fs_index_read_only (manifest_path "repo" 1) = None /\
  exists n, lookup (snd published) (manifest_path "repo" 1) = Some n.
Proof.
  cbv zeta. split; [exists EACCES; left; vm_compute; reflexivity |].
  split; [vm_compute; reflexivity |].
  split; [vm_compute; reflexivity |].
  eexists. vm_compute. reflexivity.
Qed.

(** C6, the defect at work: the directory of the new version does not
    exist, the storage directory does; the three checks pass, the
    hasher is run on the missing directory, and the publish ends
    with the error of the hasher, exit code 30, where the claim has
    the check of the source directory fail, before any hashing. *)
Lemma missing_source_directory_is_hashed :
  Stat examples.fs_fresh "nowhere" = Err ENOENT /\
  UpdateRepo (env := sample.env) examples.fs_fresh "repo" "store" "http://x/" "nowhere" "1.0" 1
  = (Returns (Some (CausedError
       "Can't update repository repo: Failed to calculate MD5s for new version directory (store)."
       30 (os_error ENOENT))),
     examples.fs_fresh).
Proof. split; vm_compute; reflexivity. Qed.

(** C5, the defect at work: the same file in two directories of the
    new version; both get the one storage name, since no blob is
    created before all names are chosen, and the publish fails at
    the second creation, exit code 42. *)
Lemma twins_get_one_name :
  sample.RecursiveMD5Calc examples.fs_twins "new" [] =
  Ok [ md5util.mkFileMD5Data "a/LICENSE" "4d4954204c6963656e73650000000000";
       md5util.mkFileMD5Data "b/LICENSE" "4d4954204c6963656e73650000000000" ] /\
  content_diff examples.fs_twins "store"
    [ md5util.mkFileMD5Data "a/LICENSE" "4d4954204c6963656e73650000000000";
      md5util.mkFileMD5Data "b/LICENSE" "4d4954204c6963656e73650000000000" ] [] =
  Returns ([],
           [ mkFileStorageData "4d49-LICENSE" "a/LICENSE" "4d4954204c6963656e73650000000000";
             mkFileStorageData "4d49-LICENSE" "b/LICENSE" "4d4954204c6963656e73650000000000" ]) /\
  fst (UpdateRepo (env := sample.env) examples.fs_twins "repo" "store" "http://x/" "new" "1.0" 1)
  = Returns (Some (CausedError
      "Failed updating repository repo. Couldn't create file store/4d49-LICENSE."
      42 (os_error EEXIST))).
Proof. repeat split; vm_compute; reflexivity. Qed.

End update_facts.

(* ================================================================== *)
(** ** The channel commands *)
(* ================================================================== *)

Module string_facts.

Lemma append_nil_r (s : string) : s ++ "" = s.
Proof. induction s as [| c s IH]; simpl; congruence. Qed.

Lemma drop_nil (n : nat) : golang.drop n "" = "".
Proof. destruct n; reflexivity. Qed.

Lemma length_append (s t : string) :
  String.length (s ++ t) = String.length s + String.length t.
Proof. induction s as [| c s IH]; simpl; congruence. Qed.

Lemma drop_append (s t : string) : golang.drop (String.length s) (s ++ t) = t.
Proof. induction s as [| c s IH]; simpl; [destruct t; reflexivity | exact IH]. Qed.

(** Writing over an empty file leaves exactly what is written. *)
Lemma overwrite_empty (d : string) : os.overwrite "" d = d.
Proof. unfold os.overwrite. rewrite drop_nil. apply append_nil_r. Qed.

(** Writing over a file that is not longer than what is written
    leaves exactly what is written. *)
Lemma overwrite_short (old d : string) :
  String.length old <= String.length d -> os.overwrite old d = d.
Proof.
  unfold os.overwrite. intros H.
  assert (E : golang.drop (String.length d) old = "").
  { revert old H. generalize (String.length d) as n.
    induction n as [| n IH]; intros [| c old] H; simpl in *; try reflexivity; try lia.
    apply IH. lia. }
  rewrite E. apply append_nil_r.
Qed.

Lemma length_drop (n : nat) (s : string) :
  String.length (golang.drop n s) = String.length s - n.
Proof.
  revert s. induction n as [| n IH]; intros s; simpl.
  - symmetry. apply Nat.sub_0_r.
  - destruct s as [| c s]; simpl; [reflexivity | apply IH].
Qed.

(** Writing over a longer file leaves more than what is written. *)
Lemma overwrite_long (old d : string) :
  String.length d < String.length old -> os.overwrite old d <> d.
Proof.
  unfold os.overwrite. intros H E.
  apply (f_equal String.length) in E.
  rewrite length_append, length_drop in E. lia.
Qed.

End string_facts.

Module setchan_facts.

Import os subcmd props os_facts setchan string_facts.

Lemma chan_loop_absent chanId versionId rest :
  forall before,
    ~ In chanId (map repo.Channel.Id rest) ->
    chan_loop chanId versionId before rest = ((before ++ rest)%list, false).
Proof.
  induction rest as [| c rest IH]; intros before Hn; simpl.
  - rewrite app_nil_r. reflexivity.
  - destruct (String.eqb_spec (repo.Channel.Id c) chanId) as [E | Hne].
    + exfalso. apply Hn. left. exact E.
    + rewrite IH by (intros Hin; apply Hn; right; exact Hin).
      rewrite <- app_assoc. reflexivity.
Qed.

Lemma chan_loop_present chanId versionId r1 c r2 :
  forall before,
    ~ In chanId (map repo.Channel.Id r1) ->
    repo.Channel.Id c = chanId ->
    chan_loop chanId versionId before (r1 ++ c :: r2) =
    ((before ++ r1 ++
       (if (versionId <? 0)%Z then r2
        else repo.Channel.mk (repo.Channel.Id c) (repo.Channel.Name c) versionId :: r2))%list,
     true).
Proof.
  induction r1 as [| d r1 IH]; intros before Hn Hc; simpl.
  - rewrite <- Hc, String.eqb_refl. destruct (versionId <? 0)%Z; reflexivity.
  - destruct (String.eqb_spec (repo.Channel.Id d) chanId) as [E | Hne].
    + exfalso. apply Hn. left. exact E.
    + rewrite IH; [| intros Hin; apply Hn; right; exact Hin | exact Hc].
      rewrite <- app_assoc. reflexivity.
Qed.

(** The index after the command, when no channel has the ID. *)
Lemma set_channel_absent indexData chanId versionId :
  ~ In chanId (map repo.Channel.Id (repo.Index.Channels indexData)) ->
  set_channel indexData chanId versionId =
  repo.Index.mk
    (repo.Index.Channels indexData ++ [repo.Channel.mk chanId chanId versionId])%list
    (repo.Index.Versions indexData).
Proof.
  intros Hn. unfold set_channel. rewrite chan_loop_absent by exact Hn. reflexivity.
Qed.

(** The index after the command, when [c] is the first channel of
    the ID. *)
Lemma set_channel_present indexData chanId versionId r1 c r2 :
  repo.Index.Channels indexData = (r1 ++ c :: r2)%list ->
  ~ In chanId (map repo.Channel.Id r1) ->
  repo.Channel.Id c = chanId ->
  set_channel indexData chanId versionId =
  repo.Index.mk
    (r1 ++ (if (versionId <? 0)%Z then r2
            else repo.Channel.mk (repo.Channel.Id c) (repo.Channel.Name c) versionId :: r2))%list
    (repo.Index.Versions indexData).
Proof.
  intros E Hn Hc. unfold set_channel. rewrite E.
  rewrite chan_loop_present by assumption. reflexivity.
Qed.

Section SetChan.
Context {env : Env}.

(** A successful [SetChan] leaves in the index file exactly the
    encoding of the changed index. *)
Lemma SetChan_writes fs repoDir chanId versionId fileData indexData fs' :
  ReadFile fs (index_path repoDir) = Ok fileData ->
  json_Unmarshal fileData = inl indexData ->
  SetChan fs repoDir chanId versionId = (None, fs') ->
  exists n, lookup fs' (index_path repoDir) = Some n /\
            data n = json_Marshal_Index (set_channel indexData chanId versionId).
Proof.
  intros Hread Hjson H. unfold SetChan in H.
  destruct (Stat fs repoDir) as [[|] | e1];
    [| discriminate H | destruct e1; discriminate H].
  change (path.Join repoDir "index.json") with (index_path repoDir) in H.
  rewrite Hread, Hjson in H.
  destruct (OpenFile fs (index_path repoDir) O_WRONLY_TRUNC) as [[f fs1] | e] eqn:Ho;
    [| destruct e; discriminate H].
  injection H as <-.
  unfold OpenFile in Ho. simpl in Ho.
  destruct (lookup fs (index_path repoDir)) as [n |] eqn:Hl; [| discriminate Ho].
  destruct (mode n) eqn:Hm; try discriminate Ho.
  destruct (IsDir n) eqn:Hd; [discriminate Ho |].
  injection Ho as <- <-.
  pose proof (lookup_set_data_same _ _ "" _ Hl) as Hl1.
  rewrite (Write_same _ _ _ _ Hl1). eexists. split; [reflexivity |].
  simpl. apply overwrite_empty.
Qed.

(** C8: a successful [SetChan] leaves in the index file the encoding
    of an index with the version list of the old one and with these
    channels: the old ones and a new one of the given ID, when no old
    one has it; otherwise the old ones, with the current version of
    the first channel of that ID replaced, its ID, its name and all
    other channels as they were, when the version ID is not negative;
    and the old ones without that channel when it is negative, in
    which case no channel of the ID is left, the IDs being unique. *)
Theorem setchan_semantics fs repoDir chanId versionId fileData indexData fs' :
  ReadFile fs (index_path repoDir) = Ok fileData ->
  json_Unmarshal fileData = inl indexData ->
  SetChan fs repoDir chanId versionId = (None, fs') ->
  exists indexData' n,
    lookup fs' (index_path repoDir) = Some n /\
    data n = json_Marshal_Index indexData' /\
    repo.Index.Versions indexData' = repo.Index.Versions indexData /\
    (~ In chanId (map repo.Channel.Id (repo.Index.Channels indexData)) ->
     repo.Index.Channels indexData' =
     (repo.Index.Channels indexData ++ [repo.Channel.mk chanId chanId versionId])%list) /\
    (forall r1 c r2,
       repo.Index.Channels indexData = (r1 ++ c :: r2)%list ->
       repo.Channel.Id c = chanId ->
       ~ In chanId (map repo.Channel.Id r1) ->
       ((0 <= versionId)%Z ->
        repo.Index.Channels indexData' =
        (r1 ++ repo.Channel.mk (repo.Channel.Id c) (repo.Channel.Name c) versionId :: r2)%list) /\
       ((versionId < 0)%Z ->
        repo.Index.Channels indexData' = (r1 ++ r2)%list /\
        (NoDup (map repo.Channel.Id (repo.Index.Channels indexData)) ->
         ~ In chanId (map repo.Channel.Id (repo.Index.Channels indexData'))))).
Proof.
  intros Hread Hjson H.
  destruct (SetChan_writes _ _ _ _ _ _ _ Hread Hjson H) as (n & Hn & Hdata).
  exists (set_channel indexData chanId versionId), n.
  split; [exact Hn | split; [exact Hdata |]].
  split.
  { unfold set_channel.
    destruct (chan_loop chanId versionId [] (repo.Index.Channels indexData)) as [cs []];
      reflexivity. }
  split.
  - intros Habs. rewrite set_channel_absent by exact Habs. reflexivity.
  - intros r1 c r2 E Hc Hr1.
    rewrite (set_channel_present _ _ _ _ _ _ E Hr1 Hc). simpl. split.
    + intros Hv. destruct (Z.ltb_spec versionId 0); [lia | reflexivity].
    + intros Hv. destruct (Z.ltb_spec versionId 0); [| lia].
      split; [reflexivity |].
      rewrite E, !map_app. simpl. rewrite Hc. intros Hnd Hin.
      apply NoDup_remove_2 in Hnd. apply Hnd. exact Hin.
Qed.

(** C10: the repository is there, its index file loads and can be
    written, no channel has the given ID, and the version ID is
    negative.  Then [SetChan] ends well, and the channel list does
    not stay as it was: the index file holds the encoding of the
    index with one channel more, at the end, of that ID and name, and
    with the negative value as its current version. *)
Theorem setchan_negative_absent_appends fs repoDir chanId versionId n indexData :
  Stat fs repoDir = Ok true ->
  lookup fs (index_path repoDir) = Some n ->
  IsDir n = false ->
  mode n = Full ->
  json_Unmarshal (data n) = inl indexData ->
  ~ In chanId (map repo.Channel.Id (repo.Index.Channels indexData)) ->
  (versionId < 0)%Z ->
  let indexData' :=
    repo.Index.mk
      (repo.Index.Channels indexData ++ [repo.Channel.mk chanId chanId versionId])%list
      (repo.Index.Versions indexData) in
  exists fs',
    SetChan fs repoDir chanId versionId = (None, fs') /\
    ReadFile fs' (index_path repoDir) = Ok (json_Marshal_Index indexData') /\
    set_channel indexData chanId versionId = indexData' /\
    repo.Index.Channels indexData' <> repo.Index.Channels indexData.
Proof.
  intros Hstat Hidx Hfile Hmode Hjson Habs Hv indexData'.
  pose proof (set_channel_absent indexData chanId versionId Habs) as E.
  unfold SetChan. rewrite Hstat.
  change (path.Join repoDir "index.json") with (index_path repoDir).
  unfold ReadFile at 1. rewrite Hidx, Hmode, Hfile, Hjson.
  unfold OpenFile. rewrite Hidx, Hmode, Hfile.
  cbn [O_WRONLY_TRUNC O_CREATE O_EXCL O_WR O_TRUNC andb].
  eexists. split; [reflexivity |]. split; [| split; [exact E |]].
  - unfold ReadFile.
    erewrite Write_same by (apply lookup_set_data_same; exact Hidx).
    rewrite Hmode, Hfile. cbn [mode IsDir data].
    rewrite overwrite_empty, E. reflexivity.
  - simpl. intros Heq. apply (f_equal (@List.length _)) in Heq.
    rewrite length_app in Heq. simpl in Heq. lia.
Qed.

End SetChan.

(** C8 at work: the channel [stable] is set to version 2; the
    channel [beta] stays as it was. *)
Lemma setchan_semantics_witness :
  exists indexData' n,
    lookup (snd (SetChan (env := sample.env) examples.fs_channels "repo" "stable" 2))
           (index_path "repo") = Some n /\
    data n = sample.Marshal_Index indexData' /\
    repo.Index.Channels indexData' =
    [repo.Channel.mk "stable" "stable" 2; repo.Channel.mk "beta" "Beta" 0].
Proof.
  destruct (setchan_semantics (env := sample.env) examples.fs_channels "repo" "stable" 2
              (sample.Marshal_Index examples.two_channels) examples.two_channels
              (snd (SetChan (env := sample.env) examples.fs_channels "repo" "stable" 2)))
    as (indexData' & n & Hn & Hdata & _ & _ & Hpresent);
    [vm_compute; reflexivity | vm_compute; reflexivity | vm_compute; reflexivity |].
  exists indexData', n. split; [exact Hn | split; [exact Hdata |]].
  apply (Hpresent [] (repo.Channel.mk "stable" "stable" 1) [repo.Channel.mk "beta" "Beta" 0]);
    [reflexivity | reflexivity | intros [] | lia].
Defined.

(** C10 at work: removing the channel [nightly], which is not
    there, ends well and adds it, with the current version -1. *)
Lemma setchan_negative_absent_appends_witness :
  exists fs',
    SetChan (env := sample.env) examples.fs_channels "repo" "nightly" (-1) = (None, fs') /\
    ReadFile fs' "repo/index.json" =
    Ok (sample.Marshal_Index
          (repo.Index.mk
             [repo.Channel.mk "stable" "stable" 1; repo.Channel.mk "beta" "Beta" 0;
              repo.Channel.mk "nightly" "nightly" (-1)]
             [repo.VersionSummary.mk 1 "1.0"])).
Proof.
  destruct (setchan_negative_absent_appends (env := sample.env) examples.fs_channels "repo"
              "nightly" (-1) (sample.file (sample.Marshal_Index examples.two_channels))
              examples.two_channels)
    as (fs' & Hset & Hread & _).
  - reflexivity.
  - reflexivity.
  - reflexivity.
  - reflexivity.
  - vm_compute; reflexivity.
  - simpl. intros [H | [H | []]]; discriminate H.
  - lia.
  - exists fs'. split; [exact Hset | exact Hread].
Defined.

End setchan_facts.

Module mkchan_facts.

Import os subcmd props os_facts mkchan string_facts.

Lemma chan_present_In chanId channels :
  chan_present chanId channels = true <-> In chanId (map repo.Channel.Id channels).
Proof.
  induction channels as [| c cs IH]; simpl.
  - split; [discriminate | intros []].
  - destruct (String.eqb_spec (repo.Channel.Id c) chanId) as [E | Hne].
    + split; auto.
    + rewrite IH. split; [auto | intros [E | H]; [contradiction | exact H]].
Qed.

Section CreateChan.
Context {env : Env}.

(** C9 (amended): on a repository whose index loads, [CreateChan]
    fails with "Channel already exists" and changes nothing when a
    channel of the given ID is there; otherwise it writes over the
    index file the encoding of the index with one more channel, whose
    ID and name are the given ID and whose current version is 0. *)
Theorem create_channel_semantics fs repoDir chanId fileData indexData :
  Stat fs repoDir = Ok true ->
  ReadFile fs (index_path repoDir) = Ok fileData ->
  json_Unmarshal fileData = inl indexData ->
  (In chanId (map repo.Channel.Id (repo.Index.Channels indexData)) ->
   CreateChan fs repoDir chanId =
   (Some (MessageError (errFmt repoDir chanId ++ "Channel already exists") 42), fs)) /\
  (~ In chanId (map repo.Channel.Id (repo.Index.Channels indexData)) ->
   forall fs', CreateChan fs repoDir chanId = (None, fs') ->
     exists n, lookup fs' (index_path repoDir) = Some n /\
       data n =
       overwrite fileData
         (json_Marshal_Index
            (repo.Index.mk
               (repo.Index.Channels indexData ++ [repo.Channel.mk chanId chanId 0])%list
               (repo.Index.Versions indexData)))).
Proof.
  intros Hstat Hread Hjson. unfold CreateChan. rewrite Hstat.
  change (path.Join repoDir "index.json") with (index_path repoDir).
  rewrite Hread, Hjson. split.
  - intros Hin. apply chan_present_In in Hin. rewrite Hin. reflexivity.
  - intros Habs fs' H.
    destruct (chan_present chanId (repo.Index.Channels indexData)) eqn:Hp;
      [apply chan_present_In in Hp; contradiction |].
    destruct (OpenFile fs (index_path repoDir) O_RDWR) as [[f fs1] | e] eqn:Ho;
      [| destruct e; discriminate H].
    injection H as <-.
    apply OpenFile_plain_ok in Ho as (-> & -> & _); [| reflexivity | reflexivity].
    apply ReadFile_ok in Hread as (n & Hn & <-).
    rewrite (Write_same _ _ _ _ Hn). eexists. split; reflexivity.
Qed.

End CreateChan.

(** The claim C9 as it is written fails: the channel that [CreateChan]
    appends has the current version 0, which is not negative, and is
    written to the index file with it. *)
Lemma created_channel_has_version_0 :
  exists fs' n,
    CreateChan (env := sample.env) examples.fs_fresh "repo" "beta" = (None, fs') /\
    lookup fs' (index_path "repo") = Some n /\
    sample.Unmarshal (data n) = inl (repo.Index.mk [repo.Channel.mk "beta" "beta" 0] []) /\
    ~ (repo.Channel.CurrentVersion (repo.Channel.mk "beta" "beta" 0) < 0)%Z.
Proof.
  do 2 eexists. split; [vm_compute; reflexivity |].
  split; [vm_compute; reflexivity |].
  split; [vm_compute; reflexivity | simpl; lia].
Qed.

(** C9 at work: [beta] is a channel of the repository and [nightly]
    is not. *)
Lemma create_channel_semantics_witness :
  CreateChan (env := sample.env) examples.fs_channels "repo" "beta" =
  (Some (MessageError (errFmt "repo" "beta" ++ "Channel already exists") 42),
   examples.fs_channels) /\
  exists n,
    lookup (snd (CreateChan (env := sample.env) examples.fs_channels "repo" "nightly"))
           (index_path "repo") = Some n /\
    data n =
    sample.Marshal_Index
      (repo.Index.mk
         [repo.Channel.mk "stable" "stable" 1; repo.Channel.mk "beta" "Beta" 0;
          repo.Channel.mk "nightly" "nightly" 0]
         [repo.VersionSummary.mk 1 "1.0"]).
Proof.
  split.
  - apply (create_channel_semantics (env := sample.env) examples.fs_channels "repo" "beta"
             (sample.Marshal_Index examples.two_channels) examples.two_channels);
      [vm_compute; reflexivity | vm_compute; reflexivity | vm_compute; reflexivity |].
    simpl. auto.
  - destruct (create_channel_semantics (env := sample.env) examples.fs_channels "repo" "nightly"
                (sample.Marshal_Index examples.two_channels) examples.two_channels)
      as [_ Habs];
      [vm_compute; reflexivity | vm_compute; reflexivity | vm_compute; reflexivity |].
    destruct (Habs ltac:(simpl; intros [H | [H | []]]; discriminate H)
                   (snd (CreateChan (env := sample.env) examples.fs_channels "repo" "nightly"))
                   ltac:(vm_compute; reflexivity)) as (n & Hn & Hdata).
    exists n. split; [exact Hn |]. rewrite Hdata. vm_compute. reflexivity.
Defined.

(** C7, the defect at work: the index file starts with blank space
    and loads as the empty index.  After [CreateChan], and after
    [UpdateRepo], the file holds the new encoding followed by what
    was left of the old bytes: it is not the encoding of the index
    saved, and it does not load. *)
Lemma index_not_truncated :
  let old := (examples.padding ++ examples.blank_index)%string in
  let created := repo.Index.mk [repo.Channel.mk "beta" "beta" 0] [] in
  let published := repo.Index.mk [] [repo.VersionSummary.mk 1 "1.0"] in
  sample.Unmarshal old = inl repo.NewBlankIndex /\
  (exists fs' n,
     CreateChan (env := sample.env) examples.fs_padded_index "repo" "beta" = (None, fs') /\
     lookup fs' (index_path "repo") = Some n /\
     data n = overwrite old (sample.Marshal_Index created) /\
     data n <> sample.Marshal_Index created /\
     sample.Unmarshal (data n) = inr "cannot unmarshal the version list") /\
  (exists fs' n,
     update.UpdateRepo (env := sample.env) examples.fs_padded_index
       "repo" "store" "http://x/" "new" "1.0" 1 = (Returns None, fs') /\
     lookup fs' (index_path "repo") = Some n /\
     data n = overwrite old (sample.Marshal_Index published) /\
     data n <> sample.Marshal_Index published /\
     sample.Unmarshal (data n) = inr "cannot unmarshal the version list").
Proof.
  split; [vm_compute; reflexivity |].
  split; do 2 eexists.
  - split; [vm_compute; reflexivity |].
    split; [vm_compute; reflexivity |].
    split; [vm_compute; reflexivity |].
    split; [vm_compute; discriminate | vm_compute; reflexivity].
  - split; [vm_compute; reflexivity |].
    split; [vm_compute; reflexivity |].
    split; [vm_compute; reflexivity |].
    split; [vm_compute; discriminate | vm_compute; reflexivity].
Qed.

End mkchan_facts.

(* ================================================================== *)
(** ** The content store: what the sorting loops compute *)
(* ================================================================== *)

Module store_facts.

Import os subcmd props os_facts update.

Lemma effective_not_nil st : effective st <> [].
Proof. destruct st; discriminate. Qed.

Lemma content_diff_effective fs filesDir nv st :
  content_diff fs filesDir nv st = diff_loop fs filesDir nv (effective st) [] [].
Proof. unfold content_diff. destruct st; reflexivity. Qed.

(** The inner loop, from any of its rounds on: the first entry of
    the hash of the file, if there is one among those still to
    come; otherwise a new name, chosen in the last round. *)
Lemma storage_loop_spec fs filesDir f lenStorage rest :
  forall i m a,
    (i + Z.of_nat (List.length rest) = lenStorage)%Z ->
    storage_loop fs filesDir f lenStorage i rest m a =
    match first_with (md5util.MD5 f) rest with
    | Some e =>
        Returns ((m ++ [mkFileStorageData (md5util.Path e) (md5util.Path f)
                                          (md5util.MD5 e)])%list, a)
    | None =>
        match rest with
        | [] => Returns (m, a)
        | _ =>
            match storage_name fs filesDir f with
            | Returns name =>
                Returns (m, (a ++ [mkFileStorageData name (md5util.Path f)
                                                     (md5util.MD5 f)])%list)
            | Panics => Panics
            | Diverges => Diverges
            end
        end
    end.
Proof.
  induction rest as [| e rest IH]; intros i m a Hlen; [reflexivity |].
  cbn [storage_loop first_with find].
  destruct (md5util.MD5 f =? md5util.MD5 e)%string; [reflexivity |].
  cbn [List.length] in Hlen.
  destruct (Z.eqb_spec i (lenStorage - 1)) as [Hi | Hi].
  - assert (rest = []) by (destruct rest; [reflexivity | cbn [List.length] in Hlen; lia]).
    subst rest. cbn [find].
    destruct (storage_name fs filesDir f); reflexivity.
  - rewrite IH by lia. fold (first_with (md5util.MD5 f) rest).
    destruct (first_with (md5util.MD5 f) rest); [reflexivity |].
    destruct rest as [| e' rest]; [cbn [List.length] in Hlen; lia | reflexivity].
Qed.

(** The outer loop computes a sorting of the files, and every
    sorting is computed by it. *)
Lemma diff_loop_sound fs filesDir st nv :
  st <> [] ->
  forall m a m' a',
    diff_loop fs filesDir nv st m a = Returns (m', a') ->
    exists found added,
      m' = (m ++ found)%list /\ a' = (a ++ added)%list /\
      sorted_into fs filesDir st nv found added.
Proof.
  intros Hst. induction nv as [| f nv IH]; intros m a m' a' H; cbn [diff_loop] in H.
  - injection H as <- <-. exists [], []. rewrite !app_nil_r. repeat split. constructor.
  - rewrite storage_loop_spec in H by lia.
    destruct (first_with (md5util.MD5 f) st) as [e |] eqn:Hf.
    + apply IH in H as (found & added & -> & -> & Hs).
      exists (mkFileStorageData (md5util.Path e) (md5util.Path f) (md5util.MD5 e) :: found),
             added.
      rewrite <- app_assoc. repeat split. constructor; assumption.
    + destruct st as [| e0 st0]; [contradiction |].
      destruct (storage_name fs filesDir f) as [name | |] eqn:Hn; try discriminate H.
      apply IH in H as (found & added & -> & -> & Hs).
      exists found,
             (mkFileStorageData name (md5util.Path f) (md5util.MD5 f) :: added).
      rewrite <- app_assoc. repeat split. constructor; assumption.
Qed.

Lemma diff_loop_complete fs filesDir st nv found added :
  st <> [] ->
  sorted_into fs filesDir st nv found added ->
  forall m a,
    diff_loop fs filesDir nv st m a = Returns ((m ++ found)%list, (a ++ added)%list).
Proof.
  intros Hst Hs. induction Hs as [| f e rest found added Hf Hs IH
                                   | f name rest found added Hf Hn Hs IH]; intros m a.
  - rewrite !app_nil_r. reflexivity.
  - cbn [diff_loop]. rewrite storage_loop_spec by lia. rewrite Hf.
    rewrite IH, <- app_assoc. reflexivity.
  - cbn [diff_loop]. rewrite storage_loop_spec by lia. rewrite Hf.
    destruct st as [| e0 st0]; [contradiction |]. rewrite Hn.
    rewrite IH, <- app_assoc. reflexivity.
Qed.

Lemma content_diff_sound fs filesDir nv st found added :
  content_diff fs filesDir nv st = Returns (found, added) ->
  sorted_into fs filesDir (effective st) nv found added.
Proof.
  rewrite content_diff_effective. intros H.
  apply diff_loop_sound in H as (f & a & -> & -> & Hs); [exact Hs |].
  apply effective_not_nil.
Qed.

Lemma content_diff_complete fs filesDir nv st found added :
  sorted_into fs filesDir (effective st) nv found added ->
  content_diff fs filesDir nv st = Returns (found, added).
Proof.
  intros Hs. rewrite content_diff_effective.
  apply (diff_loop_complete _ _ _ _ _ _ (effective_not_nil st) Hs [] []).
Qed.

(** *** Files found in storage *)

Lemma first_with_some h st e :
  first_with h st = Some e -> In e st /\ md5util.MD5 e = h.
Proof.
  intros H. apply find_some in H as [Hin Heq].
  apply String.eqb_eq in Heq. auto.
Qed.

Lemma first_with_none h st :
  first_with h st = None -> forall e, In e st -> md5util.MD5 e <> h.
Proof.
  intros H e Hin E. apply (find_none _ _ H) in Hin.
  rewrite E, String.eqb_refl in Hin. discriminate.
Qed.

Lemma sorted_found_first fs filesDir st nv found added :
  sorted_into fs filesDir st nv found added ->
  forall x, In x found ->
    exists e, first_with (MD5 x) st = Some e /\ FileStoragePath x = md5util.Path e.
Proof.
  induction 1 as [| f e rest found added Hf Hs IH | f name rest found added Hf Hn Hs IH];
    intros x Hx.
  - destruct Hx.
  - destruct Hx as [<- | Hx]; [| apply IH, Hx].
    exists e. split; [| reflexivity]. cbn [MD5].
    destruct (first_with_some _ _ _ Hf) as [_ ->]. exact Hf.
  - apply IH, Hx.
Qed.

Lemma sorted_added_absent fs filesDir st nv found added :
  sorted_into fs filesDir st nv found added ->
  forall x, In x added -> first_with (MD5 x) st = None.
Proof.
  induction 1 as [| f e rest found added Hf Hs IH | f name rest found added Hf Hn Hs IH];
    intros x Hx.
  - destruct Hx.
  - apply IH, Hx.
  - destruct Hx as [<- | Hx]; [exact Hf | apply IH, Hx].
Qed.

Lemma sorted_added_hashes fs filesDir st nv found added :
  sorted_into fs filesDir st nv found added ->
  forall x, In x added -> In (MD5 x) (map md5util.MD5 nv).
Proof.
  induction 1 as [| f e rest found added Hf Hs IH | f name rest found added Hf Hn Hs IH];
    intros x Hx.
  - destruct Hx.
  - right. apply IH, Hx.
  - destruct Hx as [<- | Hx]; [left; reflexivity | right; apply IH, Hx].
Qed.

Lemma sorted_added_NoDup fs filesDir st nv found added :
  sorted_into fs filesDir st nv found added ->
  NoDup (map md5util.MD5 nv) -> NoDup (map MD5 added).
Proof.
  induction 1 as [| f e rest found added Hf Hs IH | f name rest found added Hf Hn Hs IH];
    intros Hnd; cbn [map] in *.
  - constructor.
  - apply IH. inversion Hnd; assumption.
  - inversion Hnd as [| ? ? Hnotin Hnd']; subst. constructor; [| apply IH, Hnd'].
    intros Hin. apply Hnotin. apply in_map_iff in Hin as (x & E & Hx).
    cbn [MD5] in E. rewrite <- E. eapply sorted_added_hashes; eassumption.
Qed.

(** *** A listing with more blobs *)

Lemma interleaved_refl {A} (l : list A) : interleaved l [] l.
Proof. induction l; constructor; assumption. Qed.

Lemma interleaved_new_only {A} (l : list A) : interleaved [] l l.
Proof. induction l; constructor; assumption. Qed.

Lemma interleaved_not_nil_l {A} (old new l : list A) :
  interleaved old new l -> old <> [] -> l <> [].
Proof. intros H. destruct H; intros Hn; [contradiction | discriminate | discriminate]. Qed.

Lemma interleaved_not_nil_r {A} (old new l : list A) :
  interleaved old new l -> new <> [] -> l <> [].
Proof. intros H. destruct H; intros Hn; [contradiction | discriminate | discriminate]. Qed.

Lemma effective_id st : st <> [] -> effective st = st.
Proof. destruct st; [contradiction | reflexivity]. Qed.

(** Blobs of other hashes do not change which blob comes first. *)
Lemma first_with_interleaved_old h st ad st' :
  interleaved st ad st' ->
  (forall d, In d ad -> md5util.MD5 d <> h) ->
  first_with h st' = first_with h st.
Proof.
  induction 1 as [| x old new l Hi IH | x old new l Hi IH]; intros Had.
  - reflexivity.
  - cbn [first_with find]. destruct (h =? md5util.MD5 x)%string; [reflexivity |].
    apply IH, Had.
  - cbn [first_with find].
    destruct (String.eqb_spec h (md5util.MD5 x)) as [E | _].
    + exfalso. apply (Had x); [left; reflexivity | symmetry; exact E].
    + apply IH. intros d Hd. apply Had. right. exact Hd.
Qed.

Lemma first_with_interleaved_new h st ad st' :
  interleaved st ad st' ->
  (forall e, In e st -> md5util.MD5 e <> h) ->
  first_with h st' = first_with h ad.
Proof.
  induction 1 as [| x old new l Hi IH | x old new l Hi IH]; intros Hst.
  - reflexivity.
  - cbn [first_with find].
    destruct (String.eqb_spec h (md5util.MD5 x)) as [E | _].
    + exfalso. apply (Hst x); [left; reflexivity | symmetry; exact E].
    + apply IH. intros e He. apply Hst. right. exact He.
  - cbn [first_with find]. destruct (h =? md5util.MD5 x)%string; [reflexivity |].
    apply IH, Hst.
Qed.

Lemma first_with_unique h ad b :
  In b ad -> md5util.MD5 b = h ->
  (forall d, In d ad -> md5util.MD5 d = h -> d = b) ->
  first_with h ad = Some b.
Proof.
  induction ad as [| d ad IH]; intros Hin Hb Hu; [destruct Hin |].
  cbn [first_with find].
  destruct (String.eqb_spec h (md5util.MD5 d)) as [E | Hne].
  - f_equal. apply Hu; [left; reflexivity | symmetry; exact E].
  - destruct Hin as [-> | Hin]; [exfalso; apply Hne; symmetry; exact Hb |].
    apply IH; [exact Hin | exact Hb |]. intros d' Hd'. apply Hu. right. exact Hd'.
Qed.

(** A hash found in the effective storage, and not empty, is found
    in the storage itself. *)
Lemma first_with_effective h st e :
  first_with h (effective st) = Some e -> h <> "" -> st <> [].
Proof.
  intros H Hh ->. cbn in H. destruct (String.eqb_spec h "") as [E | _]; [| discriminate H].
  contradiction.
Qed.

Lemma first_with_effective_none h st :
  first_with h (effective st) = None -> forall e, In e st -> md5util.MD5 e <> h.
Proof.
  intros H e He. destruct st as [| e0 st]; [destruct He |].
  eapply first_with_none; eassumption.
Qed.

Lemma NoDup_map_inj {A B} (f : A -> B) (l : list A) x y :
  NoDup (map f l) -> In x l -> In y l -> f x = f y -> x = y.
Proof.
  induction l as [| a l IH]; intros Hnd Hx Hy E; [destruct Hx |].
  cbn [map] in Hnd. inversion Hnd as [| ? ? Hnotin Hnd']; subst.
  destruct Hx as [-> | Hx], Hy as [-> | Hy].
  - reflexivity.
  - exfalso. apply Hnotin. rewrite E. apply in_map, Hy.
  - exfalso. apply Hnotin. rewrite <- E. apply in_map, Hx.
  - apply IH; assumption.
Qed.

(** A file whose hash is in the storage the loops run over is
    found, with the first blob of that hash. *)
Lemma sorted_found_in fs filesDir st nv found added :
  sorted_into fs filesDir st nv found added ->
  forall f e, In f nv -> first_with (md5util.MD5 f) st = Some e ->
    In (mkFileStorageData (md5util.Path e) (md5util.Path f) (md5util.MD5 f)) found.
Proof.
  induction 1 as [| f0 e0 rest found added Hf Hs IH | f0 name rest found added Hf Hn Hs IH];
    intros f e Hin He.
  - destruct Hin.
  - destruct Hin as [-> | Hin]; [| right; apply IH; assumption].
    left. rewrite Hf in He. injection He as <-.
    destruct (first_with_some _ _ _ Hf) as [_ ->]. reflexivity.
  - destruct Hin as [-> | Hin]; [congruence | apply IH; assumption].
Qed.

(** A file whose hash is not there is added, under the name that
    the naming loop returns for it. *)
Lemma sorted_added_in fs filesDir st nv found added :
  sorted_into fs filesDir st nv found added ->
  forall f, In f nv -> first_with (md5util.MD5 f) st = None ->
    exists name,
      storage_name fs filesDir f = Returns name /\
      In (mkFileStorageData name (md5util.Path f) (md5util.MD5 f)) added.
Proof.
  induction 1 as [| f0 e0 rest found added Hf Hs IH | f0 name rest found added Hf Hn Hs IH];
    intros f Hin Hnone.
  - destruct Hin.
  - destruct Hin as [-> | Hin]; [congruence | apply IH; assumption].
  - destruct Hin as [-> | Hin].
    + exists name. split; [exact Hn | left; reflexivity].
    + destruct (IH f Hin Hnone) as (name' & Hn' & Hin'). exists name'. split; [exact Hn' |].
      right. exact Hin'.
Qed.

Lemma first_with_effective_some h st e :
  first_with h st = Some e -> first_with h (effective st) = Some e.
Proof. destruct st; [discriminate | auto]. Qed.

Lemma first_with_effective_absent h st :
  first_with h st = None -> h <> "" -> first_with h (effective st) = None.
Proof.
  destruct st; [| auto]. intros _ Hh. cbn.
  destruct (String.eqb_spec h ""); [contradiction | reflexivity].
Qed.

(** C4 (amended): the content store resolves a file by the storage
    listing of its publish.  A file whose hash is that of a blob in
    the listing is found, and mapped to the first blob of that hash,
    as is every other file of that hash, and no blob of that hash is
    added; so it is across publishes, for a file of the hash of a
    blob that an earlier publish added, when the listing holds that
    blob as the first new one of its hash.  A file whose hash is not
    in the listing is added under the name the naming loop returns
    for it, whatever the other files of the publish: two such files
    of equal hash make two blobs. *)
Theorem stored_hash_one_name fs filesDir nv st found added :
  content_diff fs filesDir nv st = Returns (found, added) ->
  (forall f e,
     In f nv -> first_with (md5util.MD5 f) st = Some e ->
     In (mkFileStorageData (md5util.Path e) (md5util.Path f) (md5util.MD5 f)) found /\
     (forall x, In x found -> MD5 x = md5util.MD5 f -> FileStoragePath x = md5util.Path e) /\
     (forall x, In x added -> MD5 x <> md5util.MD5 f)) /\
  (forall f,
     In f nv -> first_with (md5util.MD5 f) st = None -> md5util.MD5 f <> "" ->
     exists name,
       storage_name fs filesDir f = Returns name /\
       In (mkFileStorageData name (md5util.Path f) (md5util.MD5 f)) added) /\
  (forall fs2 filesDir2 nv2 st2 ad found2 added2 x f,
     content_diff fs2 filesDir2 nv2 st2 = Returns (found2, added2) ->
     interleaved st ad st2 ->
     In x added -> first_with (MD5 x) ad = Some (blob_of x) ->
     In f nv2 -> md5util.MD5 f = MD5 x ->
     In (mkFileStorageData (FileStoragePath x) (md5util.Path f) (md5util.MD5 f)) found2).
Proof.
  intros H. apply content_diff_sound in H. split; [| split].
  - intros f e Hf He. pose proof (first_with_effective_some _ _ _ He) as He'.
    split; [| split].
    + exact (sorted_found_in _ _ _ _ _ _ H f e Hf He').
    + intros x Hx Ex.
      destruct (sorted_found_first _ _ _ _ _ _ H x Hx) as (e' & He'' & ->).
      rewrite Ex in He''. congruence.
    + intros x Hx Ex.
      pose proof (sorted_added_absent _ _ _ _ _ _ H x Hx) as Hnone.
      rewrite Ex in Hnone. congruence.
  - intros f Hf Hnone Hne.
    exact (sorted_added_in _ _ _ _ _ _ H f Hf (first_with_effective_absent _ _ Hnone Hne)).
  - intros fs2 filesDir2 nv2 st2 ad found2 added2 x f H2 Hi Hx Hb Hf Ef.
    apply content_diff_sound in H2.
    pose proof (sorted_added_absent _ _ _ _ _ _ H x Hx) as Hnone.
    assert (Hst2 : st2 <> []).
    { apply (interleaved_not_nil_r _ _ _ Hi). intros E. rewrite E in Hb. discriminate Hb. }
    assert (He : first_with (md5util.MD5 f) (effective st2) = Some (blob_of x)).
    { rewrite effective_id by exact Hst2. rewrite Ef.
      rewrite (first_with_interleaved_new _ _ _ _ Hi)
        by (apply first_with_effective_none, Hnone).
      exact Hb. }
    exact (sorted_found_in _ _ _ _ _ _ H2 f (blob_of x) Hf He).
Qed.

(** The claim C4 as it is written fails for two files of one
    publish whose hash is not in storage yet: each is named after
    its own base name, and both are copied. *)
Lemma equal_hash_two_names :
  let h := "61616161000000000000000000000000" in
  sample.RecursiveMD5Calc examples.fs_copies "new" [] =
  Ok [md5util.mkFileMD5Data "a.txt" h; md5util.mkFileMD5Data "b.txt" h] /\
  content_diff examples.fs_copies "store"
    [md5util.mkFileMD5Data "a.txt" h; md5util.mkFileMD5Data "b.txt" h] [] =
  Returns ([], [mkFileStorageData "6161-a.txt" "a.txt" h;
                mkFileStorageData "6161-b.txt" "b.txt" h]) /\
  "6161-a.txt" <> "6161-b.txt" /\
  let fs' := snd (UpdateRepo (env := sample.env) examples.fs_copies
                    "repo" "store" "http://x/" "new" "1.0" 1) in
  lookup fs' "store/6161-a.txt" = Some (sample.file "aaaa") /\
  lookup fs' "store/6161-b.txt" = Some (sample.file "aaaa").
Proof.
  cbv zeta. split; [vm_compute; reflexivity |].
  split; [vm_compute; reflexivity |].
  split; [discriminate |].
  split; vm_compute; reflexivity.
Qed.

(** C4 at work: the two files are published a second time, and are
    both given the name of the first blob of their hash. *)
Lemma stored_hash_one_name_witness :
  let h := "61616161000000000000000000000000" in
  let st := [md5util.mkFileMD5Data "6161-a.txt" h; md5util.mkFileMD5Data "6161-b.txt" h] in
  let nv := [md5util.mkFileMD5Data "a.txt" h; md5util.mkFileMD5Data "b.txt" h] in
  exists found,
    content_diff examples.fs_copies "store" nv st = Returns (found, []) /\
    In (mkFileStorageData "6161-a.txt" "a.txt" h) found /\
    In (mkFileStorageData "6161-a.txt" "b.txt" h) found.
Proof.
  intros h st nv.
  assert (E : content_diff examples.fs_copies "store" nv st =
              Returns ([mkFileStorageData "6161-a.txt" "a.txt" h;
                        mkFileStorageData "6161-a.txt" "b.txt" h], []))
    by (vm_compute; reflexivity).
  destruct (stored_hash_one_name _ _ _ _ _ _ E) as (Hfound & _ & _).
  eexists. split; [exact E | split].
  - apply (Hfound (md5util.mkFileMD5Data "a.txt" h) (md5util.mkFileMD5Data "6161-a.txt" h));
      [left; reflexivity | reflexivity].
  - apply (Hfound (md5util.mkFileMD5Data "b.txt" h) (md5util.mkFileMD5Data "6161-a.txt" h));
      [right; left; reflexivity | reflexivity].
Defined.

(** *** Publishing a tree again *)

(** The sorting of the same files against the storage with the
    added blobs in it: every file is found, with the name it had. *)
Lemma resorted fs0 fs1 filesDir st ad st' nv found added :
  sorted_into fs0 filesDir (effective st) nv found added ->
  interleaved st ad st' ->
  Forall (fun f => md5util.MD5 f <> "") nv ->
  (forall d, In d ad -> first_with (md5util.MD5 d) (effective st) = None) ->
  (forall x, In x added -> In (blob_of x) ad) ->
  (forall d x, In d ad -> In x added -> md5util.MD5 d = MD5 x -> d = blob_of x) ->
  exists found',
    sorted_into fs1 filesDir (effective st') nv found' [] /\
    Permutation found' (found ++ added).
Proof.
  intros Hs Hi.
  induction Hs as [| f e rest found added Hf Hs IH | f name rest found added Hf Hn Hs IH];
    intros Hne Habs Hin Huniq.
  - exists []. split; constructor.
  - inversion Hne as [| ? ? Hf_ne Hne']; subst.
    destruct (IH Hne' Habs Hin Huniq) as (found' & Hs' & Hp).
    exists (mkFileStorageData (md5util.Path e) (md5util.Path f) (md5util.MD5 e) :: found').
    split; [| cbn [app]; apply perm_skip, Hp].
    constructor; [| exact Hs'].
    pose proof (first_with_effective _ _ _ Hf Hf_ne) as Hst.
    pose proof (interleaved_not_nil_l _ _ _ Hi Hst) as Hst'.
    rewrite effective_id in Hf |- * by assumption.
    rewrite (first_with_interleaved_old _ _ _ _ Hi); [exact Hf |].
    intros d Hd E. specialize (Habs d Hd).
    rewrite effective_id, E in Habs by assumption. congruence.
  - inversion Hne as [| ? ? Hf_ne Hne']; subst.
    set (x := mkFileStorageData name (md5util.Path f) (md5util.MD5 f)) in *.
    destruct (IH Hne' Habs) as (found' & Hs' & Hp).
    { intros y Hy. apply Hin. right. exact Hy. }
    { intros d y Hd Hy. apply Huniq; [exact Hd | right; exact Hy]. }
    exists (x :: found').
    split; [| apply Permutation_cons_app, Hp].
    assert (Hb : In (blob_of x) ad) by (apply Hin; left; reflexivity).
    assert (Hst' : st' <> []).
    { apply (interleaved_not_nil_r _ _ _ Hi). intros E. rewrite E in Hb. destruct Hb. }
    change x with (mkFileStorageData (md5util.Path (blob_of x)) (md5util.Path f)
                                     (md5util.MD5 (blob_of x))).
    constructor; [| exact Hs'].
    rewrite effective_id by assumption.
    rewrite (first_with_interleaved_new _ _ _ _ Hi)
      by (apply first_with_effective_none, Hf).
    apply first_with_unique; [exact Hb | reflexivity |].
    intros d Hd E. apply Huniq; [exact Hd | left; reflexivity | exact E].
Qed.

Lemma first_with_in h ad b :
  In b ad -> md5util.MD5 b = h ->
  exists e, first_with h ad = Some e /\ In e ad /\ md5util.MD5 e = h.
Proof.
  intros Hin Hb. destruct (first_with h ad) as [e |] eqn:E.
  - exists e. split; [reflexivity |]. apply first_with_some, E.
  - exfalso. exact (first_with_none _ _ E b Hin Hb).
Qed.

(** The same for any files: with the added blobs in the storage,
    every file is found and none is to be added; a file that was
    found before has the name it had, and so has a file that was
    added, when its blob is the first new one of its hash. *)
Lemma resorted_any fs0 fs1 filesDir st ad st' nv found added :
  sorted_into fs0 filesDir (effective st) nv found added ->
  interleaved st ad st' ->
  Forall (fun f => md5util.MD5 f <> "") nv ->
  (forall d, In d ad -> first_with (md5util.MD5 d) (effective st) = None) ->
  (forall x, In x added -> In (blob_of x) ad) ->
  exists found',
    sorted_into fs1 filesDir (effective st') nv found' [] /\
    map InstallPath found' = map md5util.Path nv /\
    map MD5 found' = map md5util.MD5 nv /\
    (forall x, In x found -> In x found') /\
    (forall x, In x added -> first_with (MD5 x) ad = Some (blob_of x) -> In x found').
Proof.
  intros Hs Hi.
  induction Hs as [| f e rest found added Hf Hs IH | f name rest found added Hf Hn Hs IH];
    intros Hne Habs Hin.
  - exists []. repeat split; try constructor; intros x [].
  - inversion Hne as [| ? ? Hf_ne Hne']; subst.
    destruct (IH Hne' Habs Hin) as (found' & Hs' & Hpaths & Hhashes & Hfound & Hadded).
    destruct (first_with_some _ _ _ Hf) as [_ He].
    exists (mkFileStorageData (md5util.Path e) (md5util.Path f) (md5util.MD5 e) :: found').
    split; [| split; [| split; [| split]]].
    + constructor; [| exact Hs'].
      pose proof (first_with_effective _ _ _ Hf Hf_ne) as Hst.
      pose proof (interleaved_not_nil_l _ _ _ Hi Hst) as Hst'.
      rewrite effective_id in Hf |- * by assumption.
      rewrite (first_with_interleaved_old _ _ _ _ Hi); [exact Hf |].
      intros d Hd E. specialize (Habs d Hd).
      rewrite effective_id, E in Habs by assumption. congruence.
    + cbn [map InstallPath]. rewrite Hpaths. reflexivity.
    + cbn [map MD5]. rewrite Hhashes, He. reflexivity.
    + intros x [<- | Hx]; [left; reflexivity | right; apply Hfound, Hx].
    + intros x Hx Hu. right. apply Hadded; assumption.
  - inversion Hne as [| ? ? Hf_ne Hne']; subst.
    set (x := mkFileStorageData name (md5util.Path f) (md5util.MD5 f)) in *.
    destruct (IH Hne' Habs) as (found' & Hs' & Hpaths & Hhashes & Hfound & Hadded).
    { intros y Hy. apply Hin. right. exact Hy. }
    assert (Hb : In (blob_of x) ad) by (apply Hin; left; reflexivity).
    assert (Hst' : st' <> []).
    { apply (interleaved_not_nil_r _ _ _ Hi). intros E. rewrite E in Hb. destruct Hb. }
    destruct (first_with_in (md5util.MD5 f) ad (blob_of x) Hb eq_refl) as (e & He & Hein & Heh).
    exists (mkFileStorageData (md5util.Path e) (md5util.Path f) (md5util.MD5 e) :: found').
    split; [| split; [| split; [| split]]].
    + constructor; [| exact Hs'].
      rewrite effective_id by assumption.
      rewrite (first_with_interleaved_new _ _ _ _ Hi)
        by (apply first_with_effective_none, Hf).
      exact He.
    + cbn [map InstallPath]. rewrite Hpaths. reflexivity.
    + cbn [map MD5]. rewrite Hhashes, Heh. reflexivity.
    + intros y Hy. right. apply Hfound, Hy.
    + intros y [<- | Hy] Hu.
      * left. unfold x in Hu |- *. cbn [MD5] in Hu. rewrite He in Hu.
        injection Hu as ->. reflexivity.
      * right. apply Hadded; assumption.
Qed.

Section Publish.
Context {env : Env}.

(** A publish that adds no blob changes nothing but the manifest of
    its version and the index file. *)
Lemma publish_without_new_blob
  fs repoDir filesDir urlBase newVersionDir versionName versionId nv st found out fs' :
  RecursiveMD5Calc fs newVersionDir [] = Ok nv ->
  RecursiveMD5Calc fs filesDir [] = Ok st ->
  content_diff fs filesDir nv st = Returns (found, []) ->
  UpdateRepo fs repoDir filesDir urlBase newVersionDir versionName versionId = (out, fs') ->
  forall p, lookup fs' p <> lookup fs p ->
            p = manifest_path repoDir versionId \/ p = index_path repoDir.
Proof.
  intros Hnv Hst Hdiff H p Hp. unfold UpdateRepo in H.
  destruct (Stat fs repoDir) as [[|] | e1];
    [| simpl in H; injection H as _ <-; contradiction
     | destruct e1; simpl in H; injection H as _ <-; contradiction].
  destruct (Stat fs filesDir) as [[|] | e2];
    [| simpl in H; injection H as _ <-; contradiction
     | destruct e2; simpl in H; injection H as _ <-; contradiction].
  fold (index_path repoDir) in H.
  destruct (ReadFile fs (index_path repoDir)) as [fileData | e3];
    [| destruct e3; simpl in H; injection H as _ <-; contradiction].
  destruct (json_Unmarshal fileData) as [indexData | jerr];
    [| simpl in H; injection H as _ <-; contradiction].
  rewrite Hnv, Hst, Hdiff in H. cbn [copy_loop] in H.
  fold (manifest_path repoDir versionId) in H.
  destruct (OpenFile fs (manifest_path repoDir versionId) O_WRONLY_CREATE_EXCL)
    as [[verFile fs2] | e7] eqn:Hver;
    [| destruct e7; simpl in H; injection H as _ <-; contradiction].
  apply OpenFile_excl_ok in Hver as (Hnone & -> & ->).
  destruct (String.eqb_spec (manifest_path repoDir versionId) p) as [E | Hpm];
    [left; symmetry; exact E | right].
  destruct (String.eqb_spec (index_path repoDir) p) as [E | Hpi];
    [symmetry; exact E | exfalso].
  apply Hp.
  assert (Hbase : forall d,
            lookup (Write (fs ++ [(manifest_path repoDir versionId,
                                   mkInode false "" Full)])%list
                          (manifest_path repoDir versionId) d) p = lookup fs p).
  { intros d. rewrite Write_other by exact Hpm. rewrite lookup_app.
    destruct (lookup fs p); [reflexivity |]. simpl.
    destruct (String.eqb_spec (manifest_path repoDir versionId) p);
      [contradiction | reflexivity]. }
  destruct (OpenFile _ (index_path repoDir) O_RDWR) as [[indexFile fs4] | e8] eqn:Hopen.
  - apply OpenFile_plain_ok in Hopen as (-> & -> & _); [| reflexivity | reflexivity].
    injection H as _ <-. rewrite Write_other by exact Hpi. apply Hbase.
  - destruct e8; simpl in H; injection H as _ <-; apply Hbase.
Qed.

(** C3 (amended): a tree, every hash of which is a digest and so
    not empty, is published twice.  The second publish finds the same
    files, and the storage as the first one found it with the blobs
    that the first one added.  Then it finds every file in storage
    and adds no blob, and creates or changes no file but its manifest
    and the index.  A file that the first publish found in storage is
    mapped to the same storage name, and so is a file that the first
    publish added, when its blob is the first of its hash among the
    new blobs of the listing, as it is when no other file added has
    the same hash (the mapping of the first publish being
    [found1 ++ added1], see [copy_loop_ok_map]); when no two files of
    the tree have the same hash, the whole mapping is that of the
    first publish.  In any case a file is mapped to the first blob of
    its hash in the listing. *)
Theorem republish_reuses_blobs
  fs0 fs1 repoDir filesDir urlBase newVersionDir name1 id1 name2 id2
  nv st ad st' found1 added1 :
  (* the first publish *)
  RecursiveMD5Calc fs0 newVersionDir [] = Ok nv ->
  RecursiveMD5Calc fs0 filesDir [] = Ok st ->
  content_diff fs0 filesDir nv st = Returns (found1, added1) ->
  UpdateRepo fs0 repoDir filesDir urlBase newVersionDir name1 id1 = (Returns None, fs1) ->
  (* every hash is a digest *)
  Forall (fun f => md5util.MD5 f <> "") nv ->
  (* what the second publish finds *)
  RecursiveMD5Calc fs1 newVersionDir [] = Ok nv ->
  RecursiveMD5Calc fs1 filesDir [] = Ok st' ->
  interleaved st ad st' ->
  Permutation ad (map blob_of added1) ->
  exists found2,
    content_diff fs1 filesDir nv st' = Returns (found2, []) /\
    map InstallPath found2 = map md5util.Path nv /\
    map MD5 found2 = map md5util.MD5 nv /\
    (forall x, In x found1 -> In x found2) /\
    (forall x, In x added1 -> first_with (MD5 x) ad = Some (blob_of x) -> In x found2) /\
    (forall x, In x added1 ->
       (forall y, In y added1 -> MD5 y = MD5 x -> y = x) -> In x found2) /\
    (NoDup (map md5util.MD5 nv) -> Permutation found2 (found1 ++ added1)) /\
    (forall y, In y found2 ->
       exists e, first_with (MD5 y) st' = Some e /\ FileStoragePath y = md5util.Path e) /\
    forall out2 fs2,
      UpdateRepo fs1 repoDir filesDir urlBase newVersionDir name2 id2 = (out2, fs2) ->
      forall p, lookup fs2 p <> lookup fs1 p ->
                p = manifest_path repoDir id2 \/ p = index_path repoDir.
Proof.
  intros Hnv0 Hst0 Hdiff0 _ Hne Hnv1 Hst1 Hi Hperm.
  apply content_diff_sound in Hdiff0.
  assert (Habs : forall d, In d ad -> first_with (md5util.MD5 d) (effective st) = None).
  { intros d Hd. apply (Permutation_in _ Hperm) in Hd.
    apply in_map_iff in Hd as (x & <- & Hx).
    apply (sorted_added_absent _ _ _ _ _ _ Hdiff0 x Hx). }
  assert (Hin : forall x, In x added1 -> In (blob_of x) ad).
  { intros x Hx. apply (Permutation_in _ (Permutation_sym Hperm)). apply in_map, Hx. }
  destruct (resorted_any fs0 fs1 filesDir st ad st' nv found1 added1 Hdiff0 Hi Hne Habs Hin)
    as (found2 & Hs2 & Hpaths & Hhashes & Hfound & Hadded).
  exists found2. pose proof (content_diff_complete _ _ _ _ _ _ Hs2) as Hdiff2.
  split; [exact Hdiff2 | split; [exact Hpaths | split; [exact Hhashes |]]].
  split; [exact Hfound | split; [exact Hadded | split; [| split; [| split]]]].
  - intros x Hx Hu. apply (Hadded x Hx).
    apply first_with_unique; [apply Hin, Hx | reflexivity |].
    intros d Hd E. apply (Permutation_in _ Hperm) in Hd.
    apply in_map_iff in Hd as (y & <- & Hy). f_equal. apply Hu; assumption.
  - intros Hnd.
    destruct (resorted fs0 fs1 filesDir st ad st' nv found1 added1 Hdiff0 Hi Hne Habs Hin)
      as (found2' & Hs2' & Hp2).
    + intros d x Hd Hx E. apply (Permutation_in _ Hperm) in Hd.
      apply in_map_iff in Hd as (x' & <- & Hx'). f_equal.
      apply (NoDup_map_inj MD5 added1); try assumption.
      eapply sorted_added_NoDup; eassumption.
    + apply content_diff_complete in Hs2'. rewrite Hdiff2 in Hs2'.
      injection Hs2' as ->. exact Hp2.
  - intros y Hy.
    destruct (sorted_found_first _ _ _ _ _ _ Hs2 y Hy) as (e & He & Hpath).
    exists e. split; [| exact Hpath].
    assert (Hy_ne : MD5 y <> "").
    { assert (Hin' : In (MD5 y) (map md5util.MD5 nv))
        by (rewrite <- Hhashes; apply in_map, Hy).
      apply in_map_iff in Hin' as (f & <- & Hf).
      rewrite Forall_forall in Hne. apply Hne, Hf. }
    rewrite effective_id in He by (eapply first_with_effective; eassumption).
    exact He.
  - intros out2 fs2 H2.
    exact (publish_without_new_blob _ _ _ _ _ _ _ _ _ _ _ _ Hnv1 Hst1 Hdiff2 H2).
Qed.

End Publish.

(** The claim C3 as it is written fails for a tree with two files of
    the same content: the first publish stores [b.txt] under the
    name [6161-b.txt], the second one maps it to the blob
    [6161-a.txt], the first of its hash. *)
Lemma republish_renames_copy :
  let h := "61616161000000000000000000000000" in
  let nv := [md5util.mkFileMD5Data "a.txt" h; md5util.mkFileMD5Data "b.txt" h] in
  let st' := [md5util.mkFileMD5Data "6161-a.txt" h; md5util.mkFileMD5Data "6161-b.txt" h] in
  let published :=
    UpdateRepo (env := sample.env) examples.fs_copies "repo" "store" "http://x/" "new" "1.0" 1 in
  fst published = Returns None /\
  sample.RecursiveMD5Calc examples.fs_copies "new" [] = Ok nv /\
  sample.RecursiveMD5Calc examples.fs_copies "store" [] = Ok [] /\
  content_diff examples.fs_copies "store" nv [] =
  Returns ([], [mkFileStorageData "6161-a.txt" "a.txt" h;
                mkFileStorageData "6161-b.txt" "b.txt" h]) /\
  sample.RecursiveMD5Calc (snd published) "new" [] = Ok nv /\
  sample.RecursiveMD5Calc (snd published) "store" [] = Ok st' /\
  content_diff (snd published) "store" nv st' =
  Returns ([mkFileStorageData "6161-a.txt" "a.txt" h;
            mkFileStorageData "6161-a.txt" "b.txt" h], []) /\
  "6161-b.txt" <> "6161-a.txt".
Proof.
  cbv zeta. repeat split; try (vm_compute; reflexivity). discriminate.
Qed.

(** C3 at work, on the tree of the two files of the same content:
    published again, both files are found in storage, no blob is
    added, and nothing changes but the manifest of version 2 and the
    index; [a.txt], whose blob is listed first, has the name it
    had. *)
Lemma republish_reuses_blobs_witness :
  let h := "61616161000000000000000000000000" in
  let fs1 :=
    snd (UpdateRepo (env := sample.env) examples.fs_copies
           "repo" "store" "http://x/" "new" "1.0" 1) in
  let fs2 :=
    snd (UpdateRepo (env := sample.env) fs1 "repo" "store" "http://x/" "new" "2.0" 2) in
  let nv := [md5util.mkFileMD5Data "a.txt" h; md5util.mkFileMD5Data "b.txt" h] in
  let st' := [md5util.mkFileMD5Data "6161-a.txt" h; md5util.mkFileMD5Data "6161-b.txt" h] in
  (exists found2,
     content_diff fs1 "store" nv st' = Returns (found2, []) /\
     map InstallPath found2 = ["a.txt"; "b.txt"] /\
     In (mkFileStorageData "6161-a.txt" "a.txt" h) found2) /\
  forall p, lookup fs2 p <> lookup fs1 p -> p = "repo/2.json" \/ p = "repo/index.json".
Proof.
  intros h fs1 fs2 nv st'.
  destruct (republish_reuses_blobs (env := sample.env) examples.fs_copies fs1
              "repo" "store" "http://x/" "new" "1.0" 1 "2.0" 2
              nv [] st' st' []
              [mkFileStorageData "6161-a.txt" "a.txt" h;
               mkFileStorageData "6161-b.txt" "b.txt" h])
    as (found2 & Hdiff & Hpaths & _ & _ & Hfirst & _ & _ & _ & Hframe).
  - vm_compute; reflexivity.
  - vm_compute; reflexivity.
  - vm_compute; reflexivity.
  - vm_compute; reflexivity.
  - repeat constructor; discriminate.
  - vm_compute; reflexivity.
  - vm_compute; reflexivity.
  - apply interleaved_new_only.
  - apply Permutation_refl.
  - split.
    + exists found2. split; [exact Hdiff | split; [exact Hpaths |]].
      apply Hfirst; [left; reflexivity | reflexivity].
    + apply (Hframe _ fs2 (surjective_pairing _)).
Defined.

(** The scenario of section 8 of the specification: the first
    publish stores the two files under the first four characters of
    their hashes and their names, lists them in the manifest with
    their URLs, and adds the version to the index; the second one,
    of a tree with one of the files only, adds no blob. *)
Example end_to_end :
  let published :=
    UpdateRepo (env := sample.env) examples.fs_fresh "repo" "store" "http://x" "new" "1.0" 1 in
  let fs1 := snd published in
  fst published = Returns None /\
  lookup fs1 "store/6161-a.txt" = Some (sample.file "aaaa") /\
  lookup fs1 "store/6262-b.txt" = Some (sample.file "bbbb") /\
  lookup fs1 "repo/1.json" =
  Some (sample.file (sample.Marshal_Version
    (repo.Version.mk 1 "1.0"
       [repo.FileInfo.mk "a.txt" [repo.FileSource.mk "http" "http://x/6161-a.txt"]
                         "61616161000000000000000000000000";
        repo.FileInfo.mk "b.txt" [repo.FileSource.mk "http" "http://x/6262-b.txt"]
                         "62626262000000000000000000000000"]))) /\
  lookup fs1 "repo/index.json" =
  Some (sample.file (sample.Marshal_Index
    (repo.Index.mk [] [repo.VersionSummary.mk 1 "1.0"]))) /\
  content_diff fs1 "store"
    [md5util.mkFileMD5Data "a.txt" "61616161000000000000000000000000"]
    [md5util.mkFileMD5Data "6161-a.txt" "61616161000000000000000000000000";
     md5util.mkFileMD5Data "6262-b.txt" "62626262000000000000000000000000"] =
  Returns ([mkFileStorageData "6161-a.txt" "a.txt" "61616161000000000000000000000000"], []).
Proof. cbv zeta. repeat split; vm_compute; reflexivity. Qed.

End store_facts.

(* ================================================================== *)
(** ** Paths, and [os.Stat] on a name in a directory *)
(* ================================================================== *)

Module path_facts.

Import os more_props string_facts.

Lemma append_append (a b c : string) : (a ++ b) ++ c = a ++ b ++ c.
Proof. induction a as [| x a IH]; simpl; congruence. Qed.

Lemma no_slash_append a b : no_slash (a ++ b) = no_slash a && no_slash b.
Proof.
  induction a as [| c a IH]; simpl; [reflexivity |].
  rewrite IH. apply andb_assoc.
Qed.

Lemma no_slash_substring s : forall n m, no_slash s = true -> no_slash (substring n m s) = true.
Proof.
  induction s as [| c s IH]; intros n m H.
  - destruct n, m; reflexivity.
  - simpl in H. apply andb_true_iff in H as [Hc Hs].
    destruct n as [| n]; simpl.
    + destruct m as [| m]; [reflexivity |]. simpl. rewrite Hc. apply IH, Hs.
    + apply IH, Hs.
Qed.

Lemma no_slash_uint d : no_slash (NilEmpty.string_of_uint d) = true.
Proof. induction d; simpl; auto. Qed.

Lemma no_slash_fmt_d z : no_slash (golang.fmt_d z) = true.
Proof.
  unfold golang.fmt_d.
  assert (H : forall d, no_slash (NilZero.string_of_uint d) = true)
    by (intros d; destruct d; try reflexivity; apply (no_slash_uint (_ d))).
  destruct z; simpl; try apply H. reflexivity.
Qed.

(** The last element of a name without separator is the name. *)
Lemma last_elem_no_slash t :
  forall acc, no_slash t = true -> path.last_elem acc t = acc ++ t.
Proof.
  induction t as [| c t IH]; intros acc H; simpl.
  - symmetry. apply append_nil_r.
  - simpl in H. apply andb_true_iff in H as [Hc Ht].
    apply negb_true_iff in Hc. rewrite Hc, IH by exact Ht.
    rewrite append_append. reflexivity.
Qed.

Lemma last_elem_in_dir d t :
  forall acc, no_slash t = true -> path.last_elem acc (d ++ String path.slash t) = t.
Proof.
  induction d as [| c d IH]; intros acc H; simpl.
  - apply (last_elem_no_slash t EmptyString H).
  - destruct (Ascii.eqb c path.slash); apply IH, H.
Qed.

(** The directory part of a name without separator is empty, and
    that of a name in a directory is the directory. *)
Lemma Dir_aux_no_slash t :
  forall acc pending, no_slash t = true -> path.Dir_aux acc pending t = acc.
Proof.
  induction t as [| c t IH]; intros acc pending H; simpl; [reflexivity |].
  simpl in H. apply andb_true_iff in H as [Hc Ht].
  apply negb_true_iff in Hc. rewrite Hc. apply IH, Ht.
Qed.

Lemma Dir_aux_in_dir d t :
  forall acc pending,
    no_slash t = true ->
    path.Dir_aux acc pending (d ++ String path.slash t) = acc ++ pending ++ d.
Proof.
  induction d as [| c d IH]; intros acc pending H; simpl.
  - rewrite Dir_aux_no_slash by exact H.
    rewrite append_nil_r. reflexivity.
  - destruct (Ascii.eqb c path.slash) eqn:Hc.
    + apply Ascii.eqb_eq in Hc. subst c. rewrite IH by exact H.
      rewrite !append_append. reflexivity.
    + rewrite IH by exact H. rewrite !append_append. reflexivity.
Qed.

(** What [os.Stat] answers for a name that has no entry in a
    directory that can be searched: the name is missing, unless it,
    or the path, is too long. *)
Lemma Stat_in_dir fs filesDir name :
  Stat fs filesDir = Ok true ->
  no_slash name = true ->
  name <> "" ->
  lookup fs (path.Join filesDir name) = None ->
  Stat fs (path.Join filesDir name) =
  Err (if (PATH_MAX <=? String.length (path.Join filesDir name))%nat
          || (NAME_MAX <? String.length name)%nat
       then EOTHER else ENOENT).
Proof.
  intros Hdir Hname Hne Hnone. unfold Stat at 1. rewrite Hnone. unfold missing_error.
  destruct (PATH_MAX <=? String.length (path.Join filesDir name))%nat; [reflexivity |].
  cbn [orb]. f_equal.
  destruct name as [| c name]; [contradiction |].
  destruct filesDir as [| c0 dir].
  - cbn [path.Join String.length path_error].
    unfold path.Dir. rewrite Dir_aux_no_slash by exact Hname.
    rewrite last_elem_no_slash by exact Hname. reflexivity.
  - unfold path.Join.
    change (String c0 dir ++ "/" ++ String c name)
      with (String c0 dir ++ String path.slash (String c name)).
    assert (Hfuel : exists k,
              String.length (String c0 dir ++ String path.slash (String c name)) = S k)
      by (eexists; reflexivity).
    destruct Hfuel as [k ->]. cbn [path_error].
    unfold path.Dir. rewrite Dir_aux_in_dir by exact Hname.
    rewrite last_elem_in_dir by exact Hname. cbn [append].
    unfold Stat in Hdir.
    destruct (lookup fs (String c0 dir)) as [n |].
    + destruct (mode n); try discriminate Hdir; injection Hdir as ->; reflexivity.
    + discriminate Hdir.
Qed.

End path_facts.

(* ================================================================== *)
(** ** The naming loop terminates *)
(* ================================================================== *)

Module naming_facts.

Import os props more_props os_facts update string_facts path_facts.

Lemma wrap_int_small z :
  (- 2 ^ 63 <= z < 2 ^ 63)%Z -> golang.wrap_int z = z.
Proof. intros H. unfold golang.wrap_int. rewrite Z.mod_small; lia. Qed.

Lemma length_substring n s :
  n <= String.length s -> String.length (substring 0 n s) = n.
Proof.
  revert s. induction n as [| n IH]; intros s H.
  - destruct s; reflexivity.
  - destruct s as [| c s]; simpl in *; [lia |]. rewrite IH; lia.
Qed.

Lemma append_inv_head (a s t : string) : a ++ s = a ++ t -> s = t.
Proof. induction a as [| c a IH]; simpl; [auto | intros [= H]; auto]. Qed.

Lemma append_inv_length (a b s t : string) :
  String.length a = String.length b -> a ++ s = b ++ t -> a = b /\ s = t.
Proof.
  revert b. induction a as [| c a IH]; intros [| d b] Hl H; simpl in *; try discriminate.
  - auto.
  - injection H as -> H. injection Hl as Hl.
    destruct (IH b Hl H) as [-> ->]. auto.
Qed.

Lemma append_inv_tail (a b s : string) : a ++ s = b ++ s -> a = b.
Proof.
  intros H. apply (append_inv_length a b s s); [| exact H].
  apply (f_equal String.length) in H. rewrite !length_append in H. lia.
Qed.

Lemma fmt_d_inj a b : golang.fmt_d a = golang.fmt_d b -> a = b.
Proof.
  unfold golang.fmt_d. intros H.
  apply (f_equal NilZero.int_of_string) in H.
  assert (Hnn : forall z, Z.to_int z <> Decimal.Pos Decimal.Nil /\
                          Z.to_int z <> Decimal.Neg Decimal.Nil).
  { intros [| p | p]; simpl; split; try discriminate;
      intros [= E]; exact (DecimalPos.Unsigned.to_uint_nonnil p E). }
  rewrite !NilZero.isi in H by apply Hnn.
  injection H as H. apply to_int_inj, H.
Qed.

Lemma fmt_d_not_empty z : golang.fmt_d z <> "".
Proof.
  unfold golang.fmt_d. destruct z as [| p | p]; simpl; try discriminate.
  pose proof (DecimalPos.Unsigned.to_uint_nonnil p) as Hn.
  destruct (Pos.to_uint p); [contradiction | discriminate ..].
Qed.

Lemma Join_inj dir a b : a <> "" -> b <> "" -> path.Join dir a = path.Join dir b -> a = b.
Proof.
  intros Ha Hb. unfold path.Join.
  destruct dir as [| c dir]; [auto |].
  destruct a; [contradiction |]. destruct b; [contradiction |].
  intros H. apply (append_inv_head (String c dir)) in H. simpl in H. congruence.
Qed.

Section Candidates.
Variables md5 base : string.
Hypothesis md5_length : String.length md5 = 32.

Lemma candidate_not_empty k : candidate md5 base k <> "".
Proof.
  unfold candidate. intros H. apply (f_equal String.length) in H.
  destruct (k <=? 28)%nat eqn:Hk; rewrite !length_append in H; simpl in H.
  - apply Nat.leb_le in Hk. rewrite length_substring in H; simpl in H; lia.
  - rewrite length_substring in H; simpl in H; lia.
Qed.

Lemma candidate_length_short k :
  k <= 28 -> String.length (candidate md5 base k) = 5 + k + String.length base.
Proof.
  intros Hk. unfold candidate. destruct (Nat.leb_spec k 28); [| lia].
  rewrite !length_append, length_substring by lia. simpl. lia.
Qed.

Lemma candidate_length_long k :
  28 < k -> 34 + String.length base < String.length (candidate md5 base k).
Proof.
  intros Hk. unfold candidate. destruct (Nat.leb_spec k 28); [lia |].
  rewrite !length_append, length_substring by lia. simpl.
  pose proof (fmt_d_not_empty (Z.of_nat (k - 29))) as Hd.
  destruct (golang.fmt_d (Z.of_nat (k - 29))); [contradiction | simpl; lia].
Qed.

Lemma candidate_inj j k : candidate md5 base j = candidate md5 base k -> j = k.
Proof.
  intros H. pose proof (f_equal String.length H) as Hl.
  destruct (Nat.leb_spec j 28) as [Hj | Hj], (Nat.leb_spec k 28) as [Hk | Hk].
  - rewrite !candidate_length_short in Hl by assumption. lia.
  - rewrite candidate_length_short in Hl by assumption.
    pose proof (candidate_length_long k Hk). lia.
  - rewrite (candidate_length_short k) in Hl by assumption.
    pose proof (candidate_length_long j Hj). lia.
  - unfold candidate in H.
    destruct (Nat.leb_spec j 28); [lia |]. destruct (Nat.leb_spec k 28); [lia |].
    apply append_inv_head in H. apply (append_inv_head "-") in H.
    apply append_inv_tail in H. apply fmt_d_inj in H. lia.
Qed.

Lemma name_for_at k :
  name_for md5 base (size_at k) (num_at k) = Some (candidate md5 base k).
Proof.
  unfold name_for, golang.slice_to, golang.len, size_at, num_at, candidate.
  rewrite md5_length.
  destruct (Z.leb_spec 0 (Z.of_nat (Nat.min (4 + k) 32))); [| lia].
  destruct (Z.leb_spec (Z.of_nat (Nat.min (4 + k) 32)) (Z.of_nat 32)); [| lia].
  cbn [andb]. rewrite Nat2Z.id.
  destruct (Nat.leb_spec k 28).
  - replace (Nat.min (4 + k) 32) with (4 + k) by lia. reflexivity.
  - replace (Nat.min (4 + k) 32) with 32 by lia.
    destruct (Z.ltb_spec (Z.of_nat (k - 29)) 0); [lia | reflexivity].
Qed.

Lemma next_size k :
  (if (size_at k <? 32)%Z then golang.incr (size_at k) else size_at k) = size_at (S k).
Proof.
  unfold size_at, golang.incr.
  destruct (Z.ltb_spec (Z.of_nat (Nat.min (4 + k) 32)) 32).
  - rewrite wrap_int_small by lia. lia.
  - lia.
Qed.

Lemma next_num k :
  (Z.of_nat k < 2 ^ 63)%Z ->
  (if (size_at k <? 32)%Z then num_at k else golang.incr (num_at k)) = num_at (S k).
Proof.
  intros Hk. unfold size_at, num_at, golang.incr.
  destruct (Z.ltb_spec (Z.of_nat (Nat.min (4 + k) 32)) 32);
    destruct (Nat.leb_spec k 28); destruct (Nat.leb_spec (S k) 28); try lia.
  - assert (k = 28) by lia. subst k. reflexivity.
  - rewrite wrap_int_small by lia. lia.
Qed.

Variables (fs : FS) (filesDir : string).

Local Abbreviation missing := (props.missing fs filesDir md5 base).

(** [os.Stat] reports candidate [k] as not existing. *)
Local Abbreviation reported k :=
  (Stat fs (path.Join filesDir (candidate md5 base k)) = Err ENOENT).

Lemma IsNotExist_ENOENT (r : result bool) :
  IsNotExist (err_of r) = true <-> r = Err ENOENT.
Proof.
  destruct r as [b | e]; simpl; [split; discriminate |].
  destruct e; split; try discriminate; reflexivity.
Qed.

(** What [os.Stat] reports as not existing has no entry. *)
Lemma IsNotExist_Stat p :
  IsNotExist (err_of (Stat fs p)) = true -> lookup fs p = None.
Proof.
  unfold Stat. destruct (lookup fs p) as [n |]; [| reflexivity].
  destruct (mode n); simpl; discriminate.
Qed.


(** One of the first [length fs + 1] candidates has no entry: the
    candidates are all different, and the file system has only
    [length fs] entries. *)
Lemma some_candidate_missing : exists j, j <= List.length fs /\ missing j.
Proof.
  assert (Hdec : forall n, (exists j, j < n /\ missing j) \/ (forall j, j < n -> ~ missing j)).
  { induction n as [| n [(j & Hj & Hm) | Hall]].
    - right. intros j Hj. lia.
    - left. exists j. split; [lia | exact Hm].
    - destruct (lookup fs (path.Join filesDir (candidate md5 base n))) eqn:E.
      + right. intros j Hj Hm. destruct (Nat.eq_dec j n) as [-> | Hne].
        * unfold missing in Hm. congruence.
        * apply (Hall j); [lia | exact Hm].
      + left. exists n. split; [lia | exact E]. }
  destruct (Hdec (S (List.length fs))) as [(j & Hj & Hm) | Hall].
  - exists j. split; [lia | exact Hm].
  - exfalso.
    set (paths := map (fun k => path.Join filesDir (candidate md5 base k))
                      (seq 0 (S (List.length fs)))).
    assert (Hnd : NoDup paths).
    { apply Injective_map_NoDup; [| apply seq_NoDup].
      intros a b E. apply Join_inj in E; try apply candidate_not_empty.
      apply candidate_inj, E. }
    assert (Hincl : incl paths (map fst fs)).
    { intros p Hp. apply in_map_iff in Hp as (k & <- & Hk). apply in_seq in Hk.
      specialize (Hall k ltac:(lia)). unfold missing in Hall.
      clear - Hall. induction fs as [| [q n] l IH]; simpl in *; [congruence |].
      destruct (String.eqb_spec q (path.Join filesDir (candidate md5 base k)));
        [left; assumption | right; apply IH, Hall]. }
    pose proof (NoDup_incl_length Hnd Hincl) as Hlen.
    unfold paths in Hlen. rewrite !length_map, length_seq in Hlen. lia.
Qed.

(** *** Names within and beyond the limits *)

Hypothesis md5_no_slash : no_slash md5 = true.
Hypothesis base_no_slash : no_slash base = true.
Hypothesis filesDir_ok : Stat fs filesDir = Ok true.

(** The names the loop forms have no separator in them, and are
    longer than the base name by five characters at least. *)
Lemma name_for_shape prefixSize prefixNum :
  (4 <= prefixSize <= 32)%Z ->
  exists name,
    name_for md5 base prefixSize prefixNum = Some name /\
    no_slash name = true /\
    5 + String.length base <= String.length name.
Proof.
  intros Hs. unfold name_for, golang.slice_to, golang.len. rewrite md5_length.
  destruct (Z.leb_spec 0 prefixSize); [| lia].
  destruct (Z.leb_spec prefixSize (Z.of_nat 32)); [| lia].
  cbn [andb]. eexists. split; [reflexivity |].
  pose proof (length_substring (Z.to_nat prefixSize) md5 ltac:(lia)) as Hl.
  pose proof (no_slash_substring md5 0 (Z.to_nat prefixSize) md5_no_slash) as Hp.
  destruct (prefixNum <? 0)%Z.
  - rewrite !no_slash_append, Hp, base_no_slash, !length_append, Hl. simpl. split; [reflexivity | lia].
  - rewrite !no_slash_append, Hp, base_no_slash, no_slash_fmt_d, !length_append, Hl.
    simpl. split; [reflexivity | lia].
Qed.

Lemma candidate_no_slash k : no_slash (candidate md5 base k) = true.
Proof.
  destruct (name_for_shape (size_at k) (num_at k)) as (name & E & Hn & _).
  { unfold size_at. lia. }
  rewrite name_for_at in E. injection E as <-. exact Hn.
Qed.


(** A name too long is never reported as not existing, whether it
    has an entry or not. *)
Lemma long_name_not_reported name :
  no_slash name = true ->
  NAME_MAX < String.length name ->
  IsNotExist (err_of (Stat fs (path.Join filesDir name))) = false.
Proof.
  intros Hn Hl.
  destruct (lookup fs (path.Join filesDir name)) as [n |] eqn:E.
  - unfold Stat. rewrite E. destruct (mode n); reflexivity.
  - rewrite (Stat_in_dir fs filesDir name filesDir_ok Hn); [| | exact E].
    + destruct (Nat.ltb_spec NAME_MAX (String.length name)); [| lia].
      rewrite orb_true_r. reflexivity.
    + intros ->. simpl in Hl. lia.
Qed.

(** When the base name is so long that every candidate is longer
    than [NAME_MAX], no number of rounds makes the loop return. *)
Lemma name_loop_diverges fuel :
  NAME_MAX < 5 + String.length base ->
  forall prefixSize prefixNum storageName,
    (4 <= prefixSize <= 32)%Z ->
    no_slash storageName = true ->
    NAME_MAX < String.length storageName ->
    name_loop fuel fs filesDir md5 base prefixSize prefixNum storageName = Diverges.
Proof.
  intros Hlong.
  induction fuel as [| fuel IH]; intros ps pn sn Hps Hsn Hl; cbn [name_loop]; [reflexivity |].
  rewrite (long_name_not_reported sn Hsn Hl).
  set (ps' := if (ps <? 32)%Z then golang.incr ps else ps).
  set (pn' := if (ps <? 32)%Z then pn else golang.incr pn).
  assert (Hps' : (4 <= ps' <= 32)%Z).
  { unfold ps', golang.incr. destruct (Z.ltb_spec ps 32); [| lia].
    rewrite wrap_int_small by lia. lia. }
  destruct (name_for_shape ps' pn' Hps') as (sn' & -> & Hsn' & Hl').
  apply IH; [exact Hps' | exact Hsn' | lia].
Qed.

End Candidates.


(** The loop that names a new blob never returns for a file whose
    base name has 251 bytes or more: every candidate, the four
    characters of the hash and the dash before the base name at the
    least, is longer than [NAME_MAX], [os.Stat] fails on it with an
    error that is not "does not exist", and the condition of the loop
    stays true.  No number of rounds is enough, and the model of the
    loop, which allows [length fs + 1], says so. *)
Theorem long_base_name_never_named fs filesDir f :
  String.length (md5util.MD5 f) = 32 ->
  no_slash (md5util.MD5 f) = true ->
  no_slash (path.Base (md5util.Path f)) = true ->
  Stat fs filesDir = Ok true ->
  250 < String.length (path.Base (md5util.Path f)) ->
  storage_name fs filesDir f = Diverges /\
  forall fuel storageName,
    name_for (md5util.MD5 f) (path.Base (md5util.Path f)) 4 (-1) = Some storageName ->
    name_loop fuel fs filesDir (md5util.MD5 f) (path.Base (md5util.Path f)) 4 (-1) storageName
    = Diverges.
Proof.
  intros Hlen Hmd5 Hbase Hdir Hlong.
  destruct (name_for_shape _ _ Hlen Hmd5 Hbase 4 (-1) ltac:(lia)) as (sn & E & Hsn & Hl).
  assert (Hall : forall fuel,
            name_loop fuel fs filesDir (md5util.MD5 f) (path.Base (md5util.Path f))
                      4 (-1) sn = Diverges).
  { intros fuel.
    apply (name_loop_diverges _ _ Hlen fs filesDir Hmd5 Hbase Hdir fuel);
      unfold NAME_MAX in *; lia || exact Hsn. }
  split.
  - unfold storage_name. rewrite E. apply Hall.
  - intros fuel sn' E'. rewrite E in E'. injection E' as <-. apply Hall.
Qed.

End naming_facts.

(* ================================================================== *)
(** ** More on the content store *)
(* ================================================================== *)

Module content_store_facts.

Import os subcmd props os_facts update store_facts.

(** The loop returns a name only after [os.Stat] has reported it
    missing. *)
Lemma name_loop_returns_missing fs filesDir md5 base fuel :
  forall prefixSize prefixNum storageName name,
    name_loop fuel fs filesDir md5 base prefixSize prefixNum storageName = Returns name ->
    lookup fs (path.Join filesDir name) = None.
Proof.
  induction fuel as [| fuel IH]; intros ps pn sn name H; cbn [name_loop] in H;
    [discriminate H |].
  destruct (IsNotExist (err_of (Stat fs (path.Join filesDir sn)))) eqn:E.
  - injection H as <-. apply naming_facts.IsNotExist_Stat, E.
  - destruct (name_for md5 base _ _) as [sn' |]; [| discriminate H].
    eapply IH, H.
Qed.

Lemma storage_name_returns_missing fs filesDir f name :
  storage_name fs filesDir f = Returns name ->
  lookup fs (path.Join filesDir name) = None.
Proof.
  unfold storage_name. destruct (name_for _ _ 4 (-1)) as [sn |]; [| discriminate].
  apply name_loop_returns_missing.
Qed.

(** No file that is to be added is given the name of an entry of
    the file system: what the sorting loops put on the list of
    blobs to add does not name anything that [os.Stat] reports as
    being there. *)
Theorem added_names_are_free fs filesDir nv st found added x :
  content_diff fs filesDir nv st = Returns (found, added) ->
  In x added ->
  lookup fs (path.Join filesDir (FileStoragePath x)) = None.
Proof.
  intros H. apply content_diff_sound in H.
  induction H as [| f e rest found added Hf Hs IH | f name rest found added Hf Hn Hs IH];
    intros Hx.
  - destruct Hx.
  - apply IH, Hx.
  - destruct Hx as [<- | Hx]; [| apply IH, Hx].
    cbn [FileStoragePath]. apply storage_name_returns_missing with (f := f), Hn.
Qed.

(** A hash of fewer than four characters stops the naming with a
    panic, before any name is tried. *)
Theorem storage_name_short_hash fs filesDir f :
  String.length (md5util.MD5 f) < 4 ->
  storage_name fs filesDir f = Panics.
Proof.
  intros H. unfold storage_name, name_for, golang.slice_to, golang.len.
  destruct (Z.leb_spec 4 (Z.of_nat (String.length (md5util.MD5 f)))); [lia |].
  reflexivity.
Qed.

(** Every file of the new version is on exactly one of the two
    lists, once, with its path and its hash. *)
Theorem content_diff_covers fs filesDir nv st found added :
  content_diff fs filesDir nv st = Returns (found, added) ->
  Permutation (map (fun x => (InstallPath x, MD5 x)) (found ++ added))
              (map (fun f => (md5util.Path f, md5util.MD5 f)) nv).
Proof.
  intros H. apply content_diff_sound in H.
  induction H as [| f e rest found added Hf Hs IH | f name rest found added Hf Hn Hs IH].
  - constructor.
  - cbn [app map InstallPath MD5].
    destruct (first_with_some _ _ _ Hf) as [_ ->]. apply perm_skip, IH.
  - rewrite map_app. cbn [map InstallPath MD5]. rewrite map_app in IH.
    apply Permutation_sym, Permutation_cons_app, Permutation_sym, IH.
Qed.

(** With nothing in storage, nothing is found and every file is to
    be added, in the order of the listing: the stand-in entry of
    line 193 makes the loop reach its last round. *)
Theorem first_publish_adds_all fs filesDir nv found added :
  content_diff fs filesDir nv [] = Returns (found, added) ->
  Forall (fun f => md5util.MD5 f <> "") nv ->
  found = [] /\
  map InstallPath added = map md5util.Path nv /\
  map MD5 added = map md5util.MD5 nv.
Proof.
  intros H Hne. apply content_diff_sound in H. cbn [effective] in H.
  induction H as [| f e rest found added Hf Hs IH | f name rest found added Hf Hn Hs IH].
  - repeat split.
  - exfalso. inversion Hne as [| ? ? Hf_ne _]; subst.
    cbn in Hf. destruct (String.eqb_spec (md5util.MD5 f) ""); [contradiction | discriminate].
  - inversion Hne as [| ? ? _ Hne']; subst.
    destruct (IH Hne') as (-> & Hp & Hm).
    cbn [map InstallPath MD5]. rewrite Hp, Hm. repeat split.
Qed.

(** *** The copy loop *)

(** What a copy loop that ends well has done, blob by blob. *)
Lemma copy_loop_ok_spec repoDir filesDir newVersionDir addToStorage :
  forall fs fileStorageMap fileStorageMap' fs',
    copy_loop fs repoDir filesDir newVersionDir addToStorage fileStorageMap
    = (inr fileStorageMap', fs') ->
    NoDup (map (fun x => path.Join filesDir (FileStoragePath x)) addToStorage) /\
    forall x, In x addToStorage ->
      lookup fs (path.Join filesDir (FileStoragePath x)) = None /\
      exists n,
        lookup fs' (path.Join filesDir (FileStoragePath x)) = Some n /\
        IsDir n = false /\
        forall src,
          lookup fs (path.Join newVersionDir (InstallPath x)) = Some src ->
          IsDir src = false -> data n = data src.
Proof.
  induction addToStorage as [| mapping rest IH]; intros fs m m' fs' H; simpl in H.
  - split; [constructor | intros x []].
  - destruct (OpenFile fs _ O_WRONLY_CREATE_EXCL) as [[fileOut fs1] | e] eqn:Hc;
      [| discriminate H].
    destruct (Open fs1 _) as [[fileIn fs2] | e] eqn:Ho; [| discriminate H].
    pose proof (update_facts.copy_step_adds_under _ _ _ _ _ _ _ _ Hc Ho) as Hstep.
    pose proof (update_facts.adds_under_preserves _ _ _ Hstep) as Hpres.
    pose proof (update_facts.copy_loop_adds_under _ _ _ _ _ _ _ _ H) as Hrest.
    pose proof (update_facts.adds_under_preserves _ _ _ Hrest) as Hpres'.
    destruct (IH _ _ _ _ H) as [Hnd Hblobs].
    apply OpenFile_excl_ok in Hc as (Hnone & -> & ->).
    apply OpenFile_plain_ok in Ho as (-> & -> & _); [| reflexivity | reflexivity].
    set (out := path.Join filesDir (FileStoragePath mapping)) in *.
    set (fs1 := (fs ++ [(out, mkInode false "" Full)])%list) in *.
    assert (Hout1 : lookup fs1 out = Some (mkInode false "" Full)).
    { unfold fs1. rewrite lookup_app, Hnone. simpl. rewrite String.eqb_refl. reflexivity. }
    assert (Hout3 : exists n,
               lookup (Copy fs1 out (path.Join newVersionDir (InstallPath mapping))) out = Some n /\
               IsDir n = false /\
               forall src,
                 lookup fs (path.Join newVersionDir (InstallPath mapping)) = Some src ->
                 IsDir src = false -> data n = data src).
    { unfold Copy.
      destruct (lookup fs1 (path.Join newVersionDir (InstallPath mapping))) as [s1 |] eqn:Hs1.
      - destruct (IsDir s1) eqn:Hd.
        + exists (mkInode false "" Full). split; [exact Hout1 | split; [reflexivity |]].
          intros src Hsrc Hsd. unfold fs1 in Hs1. rewrite lookup_app, Hsrc in Hs1.
          injection Hs1 as <-. congruence.
        + rewrite (Write_same _ _ _ _ Hout1). eexists. split; [reflexivity |].
          split; [reflexivity |]. intros src Hsrc _. cbn [data].
          unfold fs1 in Hs1. rewrite lookup_app, Hsrc in Hs1. injection Hs1 as <-.
          apply string_facts.overwrite_empty.
      - exists (mkInode false "" Full). split; [exact Hout1 | split; [reflexivity |]].
        intros src Hsrc _. unfold fs1 in Hs1. rewrite lookup_app, Hsrc in Hs1.
        discriminate Hs1. }
    destruct Hout3 as (n & Hn & Hnd_n & Hsrc_n).
    split.
    + cbn [map]. constructor; [| exact Hnd].
      intros Hin. apply in_map_iff in Hin as (y & Ey & Hy).
      destruct (Hblobs y Hy) as [Hynone _]. fold out in Ey. rewrite Ey in Hynone.
      congruence.
    + intros x [<- | Hx].
      * split; [exact Hnone |]. exists n.
        split; [apply Hpres', Hn | split; [exact Hnd_n | exact Hsrc_n]].
      * destruct (Hblobs x Hx) as (Hxnone & nx & Hnx & Hdx & Hsx). split.
        -- destruct (lookup fs (path.Join filesDir (FileStoragePath x))) as [n0 |] eqn:E;
             [| reflexivity].
           apply Hpres in E. congruence.
        -- exists nx. split; [exact Hnx | split; [exact Hdx |]].
           intros src Hsrc Hsd. apply Hsx; [apply Hpres, Hsrc | exact Hsd].
Qed.

(** After a copy loop that ends well, every blob on the list is a
    file in storage that holds the bytes of its file of the new
    version. *)
Theorem copied_blobs_hold_source
  fs repoDir filesDir newVersionDir addToStorage fileStorageMap fileStorageMap' fs' x src :
  copy_loop fs repoDir filesDir newVersionDir addToStorage fileStorageMap
  = (inr fileStorageMap', fs') ->
  In x addToStorage ->
  lookup fs (path.Join newVersionDir (InstallPath x)) = Some src ->
  IsDir src = false ->
  exists n,
    lookup fs' (path.Join filesDir (FileStoragePath x)) = Some n /\
    IsDir n = false /\ data n = data src.
Proof.
  intros H Hx Hsrc Hd.
  destruct (copy_loop_ok_spec _ _ _ _ _ _ _ _ H) as [_ Hblobs].
  destruct (Hblobs x Hx) as (_ & n & Hn & Hdn & Hs).
  exists n. split; [exact Hn | split; [exact Hdn | apply Hs; assumption]].
Qed.

(** A copy loop ends well only if the blobs on its list have
    different paths, none of which was there before: a blob is
    created with [O_EXCL], and never written over. *)
Theorem copied_blobs_are_new
  fs repoDir filesDir newVersionDir addToStorage fileStorageMap fileStorageMap' fs' :
  copy_loop fs repoDir filesDir newVersionDir addToStorage fileStorageMap
  = (inr fileStorageMap', fs') ->
  NoDup (map (fun x => path.Join filesDir (FileStoragePath x)) addToStorage) /\
  forall x, In x addToStorage ->
    lookup fs (path.Join filesDir (FileStoragePath x)) = None.
Proof.
  intros H. destruct (copy_loop_ok_spec _ _ _ _ _ _ _ _ H) as [Hnd Hblobs].
  split; [exact Hnd |]. intros x Hx. apply (Hblobs x Hx).
Qed.


(** A file whose name has 251 bytes is never named, and the publish
    of a version that holds it does not return. *)
Lemma long_base_name_never_named_witness :
  sample.RecursiveMD5Calc more_props.fs_long_name "new" [] = Ok [more_props.long_txt] /\
  storage_name more_props.fs_long_name "store" more_props.long_txt = Diverges /\
  fst (UpdateRepo (env := sample.env) more_props.fs_long_name
         "repo" "store" "http://x/" "new" "1.0" 1) = Diverges.
Proof.
  destruct (naming_facts.long_base_name_never_named more_props.fs_long_name "store"
              more_props.long_txt) as [H _].
  - reflexivity.
  - reflexivity.
  - vm_compute; reflexivity.
  - reflexivity.
  - vm_compute. lia.
  - split; [vm_compute; reflexivity | split; [exact H | vm_compute; reflexivity]].
Defined.

Lemma added_names_are_free_witness :
  lookup more_props.fs_taken "store/61616-a.txt" = None.
Proof.
  apply (added_names_are_free more_props.fs_taken "store" [more_props.a_txt]
           [md5util.mkFileMD5Data "6161-a.txt" "7a7a7a7a000000000000000000000000"]
           [] [mkFileStorageData "61616-a.txt" "a.txt" "61616161000000000000000000000000"]
           (mkFileStorageData "61616-a.txt" "a.txt" "61616161000000000000000000000000")).
  - vm_compute; reflexivity.
  - left; reflexivity.
Defined.

Lemma storage_name_short_hash_witness :
  storage_name examples.fs_fresh "store" (md5util.mkFileMD5Data "a.txt" "616") = Panics.
Proof.
  apply storage_name_short_hash. simpl. lia.
Defined.

Lemma content_diff_covers_witness :
  Permutation
    (map (fun x => (InstallPath x, MD5 x))
       ([mkFileStorageData "6161-a.txt" "a.txt" "61616161000000000000000000000000"] ++
        [mkFileStorageData "6363-c.txt" "c.txt" "63636363000000000000000000000000"]))
    (map (fun f => (md5util.Path f, md5util.MD5 f)) [more_props.a_txt; more_props.c_txt]).
Proof.
  apply (content_diff_covers more_props.fs_second_version "store"
           [more_props.a_txt; more_props.c_txt]
           [md5util.mkFileMD5Data "6161-a.txt" "61616161000000000000000000000000"]).
  vm_compute; reflexivity.
Defined.

Lemma first_publish_adds_all_witness :
  map InstallPath
    [mkFileStorageData "6161-a.txt" "a.txt" "61616161000000000000000000000000";
     mkFileStorageData "6363-c.txt" "c.txt" "63636363000000000000000000000000"]
  = map md5util.Path [more_props.a_txt; more_props.c_txt].
Proof.
  apply (first_publish_adds_all examples.fs_fresh "store"
           [more_props.a_txt; more_props.c_txt] []
           [mkFileStorageData "6161-a.txt" "a.txt" "61616161000000000000000000000000";
            mkFileStorageData "6363-c.txt" "c.txt" "63636363000000000000000000000000"]).
  - vm_compute; reflexivity.
  - repeat constructor; discriminate.
Defined.

Lemma copied_blobs_hold_source_witness :
  exists n,
    lookup (snd (copy_loop more_props.fs_second_version "repo" "store" "new"
                   [mkFileStorageData "6363-c.txt" "c.txt" "63636363000000000000000000000000"]
                   []))
           "store/6363-c.txt" = Some n /\
    IsDir n = false /\ data n = "cccc".
Proof.
  apply (copied_blobs_hold_source more_props.fs_second_version "repo" "store" "new"
           [mkFileStorageData "6363-c.txt" "c.txt" "63636363000000000000000000000000"] []
           [mkFileStorageData "6363-c.txt" "c.txt" "63636363000000000000000000000000"]
           _
           (mkFileStorageData "6363-c.txt" "c.txt" "63636363000000000000000000000000")
           (sample.file "cccc")).
  - vm_compute; reflexivity.
  - left; reflexivity.
  - reflexivity.
  - reflexivity.
Defined.

Lemma copied_blobs_are_new_witness :
  NoDup (map (fun x => path.Join "store" (FileStoragePath x))
           [mkFileStorageData "6161-a.txt" "a.txt" "61616161000000000000000000000000";
            mkFileStorageData "6262-b.txt" "b.txt" "62626262000000000000000000000000"]).
Proof.
  apply (copied_blobs_are_new examples.fs_fresh "repo" "store" "new"
           [mkFileStorageData "6161-a.txt" "a.txt" "61616161000000000000000000000000";
            mkFileStorageData "6262-b.txt" "b.txt" "62626262000000000000000000000000"]
           []
           [mkFileStorageData "6161-a.txt" "a.txt" "61616161000000000000000000000000";
            mkFileStorageData "6262-b.txt" "b.txt" "62626262000000000000000000000000"]
           (snd (copy_loop examples.fs_fresh "repo" "store" "new"
                   [mkFileStorageData "6161-a.txt" "a.txt" "61616161000000000000000000000000";
                    mkFileStorageData "6262-b.txt" "b.txt" "62626262000000000000000000000000"]
                   []))).
  vm_compute. reflexivity.
Defined.

End content_store_facts.

(* ================================================================== *)
(** ** More on the publish command *)
(* ================================================================== *)

Module publish_facts.

Import os subcmd props more_props os_facts update.

Lemma build_files_map urlBase fileStorageMap :
  forall files,
    build_files urlBase fileStorageMap files
    = (files ++ map (file_info urlBase) fileStorageMap)%list.
Proof.
  induction fileStorageMap as [| x rest IH]; intros files; cbn [build_files map].
  - symmetry. apply app_nil_r.
  - rewrite IH, <- app_assoc. reflexivity.
Qed.

Lemma HasSuffix_slash u : golang.HasSuffix (u ++ "/") "/" = true.
Proof.
  unfold golang.HasSuffix. rewrite string_facts.length_append. cbn [String.length].
  replace (String.length u + 1 - 1) with (String.length u) by lia.
  rewrite string_facts.drop_append.
  destruct (Nat.leb_spec 1 (String.length u + 1)); [reflexivity | lia].
Qed.

Lemma with_slash_idempotent u : with_slash (with_slash u) = with_slash u.
Proof.
  unfold with_slash. destruct (golang.HasSuffix u "/") eqn:E.
  - rewrite E. reflexivity.
  - rewrite HasSuffix_slash. reflexivity.
Qed.

Section Publish.
Context {env : Env}.

(** The steps of a publish that ends well. *)
Lemma publish_success_inv
  fs repoDir filesDir urlBase newVersionDir versionName versionId fs' :
  UpdateRepo fs repoDir filesDir urlBase newVersionDir versionName versionId
  = (Returns None, fs') ->
  exists fileData indexData nv st found added fs1 n,
    Stat fs repoDir = Ok true /\
    Stat fs filesDir = Ok true /\
    ReadFile fs (index_path repoDir) = Ok fileData /\
    json_Unmarshal fileData = inl indexData /\
    RecursiveMD5Calc fs newVersionDir [] = Ok nv /\
    RecursiveMD5Calc fs filesDir [] = Ok st /\
    content_diff fs filesDir nv st = Returns (found, added) /\
    copy_loop fs repoDir filesDir newVersionDir added found = (inr (found ++ added)%list, fs1) /\
    lookup fs1 (manifest_path repoDir versionId) = None /\
    lookup fs1 (index_path repoDir) = Some n /\
    lookup fs (index_path repoDir) = Some n /\
    fs' =
    Write
      (Write (fs1 ++ [(manifest_path repoDir versionId, mkInode false "" Full)])%list
             (manifest_path repoDir versionId)
             (json_Marshal_Version
                (repo.Version.mk versionId versionName
                   (map (file_info (with_slash urlBase)) (found ++ added)))))
      (index_path repoDir)
      (json_Marshal_Index
         (repo.Index.mk (repo.Index.Channels indexData)
            (repo.Index.Versions indexData ++
               [repo.VersionSummary.mk versionId versionName])%list)).
Proof.
  intros H. unfold UpdateRepo in H.
  destruct (Stat fs repoDir) as [[|] | e1];
    [| discriminate H | destruct e1; discriminate H].
  destruct (Stat fs filesDir) as [[|] | e2];
    [| discriminate H | destruct e2; discriminate H].
  fold (index_path repoDir) in H.
  destruct (ReadFile fs (index_path repoDir)) as [fileData | e3] eqn:Hread;
    [| destruct e3; discriminate H].
  destruct (json_Unmarshal fileData) as [indexData | jerr] eqn:Hjson; [| discriminate H].
  destruct (RecursiveMD5Calc fs newVersionDir []) as [nv | e4] eqn:Hnv; [| discriminate H].
  destruct (RecursiveMD5Calc fs filesDir []) as [st | e5] eqn:Hst; [| discriminate H].
  destruct (content_diff fs filesDir nv st) as [[found added] | |] eqn:Hdiff;
    try discriminate H.
  destruct (copy_loop fs repoDir filesDir newVersionDir added found) as [[e6 | m'] fs1]
    eqn:Hcopy; [discriminate H |].
  pose proof (update_facts.copy_loop_ok_map _ _ _ _ _ _ _ _ Hcopy) as ->.
  pose proof (update_facts.copy_loop_adds_under _ _ _ _ _ _ _ _ Hcopy) as Hadd.
  pose proof Hread as Hread'. apply ReadFile_ok in Hread' as (n & Hidx & _).
  pose proof (update_facts.adds_under_preserves _ _ _ Hadd _ _ Hidx) as Hidx1.
  fold (manifest_path repoDir versionId) in H.
  destruct (OpenFile fs1 (manifest_path repoDir versionId) O_WRONLY_CREATE_EXCL)
    as [[verFile fs2] | e7] eqn:Hver; [| destruct e7; discriminate H].
  apply OpenFile_excl_ok in Hver as (Hnone & -> & ->).
  destruct (OpenFile _ (index_path repoDir) O_RDWR) as [[indexFile fs4] | e8] eqn:Hopen;
    [| destruct e8; discriminate H].
  apply OpenFile_plain_ok in Hopen as (-> & -> & _); [| reflexivity | reflexivity].
  injection H as <-.
  exists fileData, indexData, nv, st, found, added, fs1, n.
  repeat (split; [first [reflexivity | assumption] |]).
  cbn [repo.NewVersion repo.Version.Id repo.Version.Name repo.Version.Files].
  rewrite build_files_map. reflexivity.
Qed.

(** A publish that ends well has changed the index file, created
    the manifest of the version and blobs in the storage directory,
    and nothing else: no entry other than the index is changed or
    removed. *)
Theorem successful_publish_frame
  fs repoDir filesDir urlBase newVersionDir versionName versionId fs' :
  UpdateRepo fs repoDir filesDir urlBase newVersionDir versionName versionId
  = (Returns None, fs') ->
  forall p,
    lookup fs' p = lookup fs p \/
    p = index_path repoDir \/
    (lookup fs p = None /\
     (p = manifest_path repoDir versionId \/ exists name, p = path.Join filesDir name)).
Proof.
  intros H p.
  destruct (publish_success_inv _ _ _ _ _ _ _ _ H)
    as (fileData & indexData & nv & st & found & added & fs1 & n &
        _ & _ & _ & _ & _ & _ & _ & Hcopy & Hnone & _ & _ & ->).
  pose proof (update_facts.copy_loop_adds_under _ _ _ _ _ _ _ _ Hcopy) as Hadd.
  destruct (String.eqb_spec (index_path repoDir) p) as [E | Hpi];
    [right; left; symmetry; exact E |].
  rewrite Write_other by exact Hpi.
  destruct (String.eqb_spec (manifest_path repoDir versionId) p) as [<- | Hpm].
  - right; right. split; [| left; reflexivity].
    destruct (Hadd (manifest_path repoDir versionId)) as [E | [N _]]; congruence.
  - rewrite Write_other by exact Hpm. rewrite lookup_app.
    assert (E : match lookup fs1 p with
                | Some n0 => Some n0
                | None => lookup [(manifest_path repoDir versionId, mkInode false "" Full)] p
                end = lookup fs1 p).
    { destruct (lookup fs1 p); [reflexivity |]. simpl.
      destruct (String.eqb_spec (manifest_path repoDir versionId) p);
        [contradiction | reflexivity]. }
    rewrite E. destruct (Hadd p) as [Eq | [N Hname]]; [left; exact Eq |].
    right; right. split; [exact N | right; exact Hname].
Qed.

(** A publish that ends well has created the manifest of the
    version, which was not there, and it holds exactly the encoding
    of the version: its ID, its name, and one entry for each file of
    the mapping, first the files found in storage and then the files
    added, each in the order of the listing, each with its path, its
    hash and the one HTTP source made of the URL base, with a slash
    at its end, and the storage name. *)
Theorem publish_writes_manifest
  fs repoDir filesDir urlBase newVersionDir versionName versionId nv st found added fs' :
  RecursiveMD5Calc fs newVersionDir [] = Ok nv ->
  RecursiveMD5Calc fs filesDir [] = Ok st ->
  content_diff fs filesDir nv st = Returns (found, added) ->
  UpdateRepo fs repoDir filesDir urlBase newVersionDir versionName versionId
  = (Returns None, fs') ->
  lookup fs (manifest_path repoDir versionId) = None /\
  lookup fs' (manifest_path repoDir versionId) =
  Some (mkInode false
          (json_Marshal_Version
             (repo.Version.mk versionId versionName
                (map (file_info (with_slash urlBase)) (found ++ added))))
          Full).
Proof.
  intros Hnv Hst Hdiff H.
  destruct (publish_success_inv _ _ _ _ _ _ _ _ H)
    as (fileData & indexData & nv' & st' & found' & added' & fs1 & n &
        _ & _ & _ & _ & Hnv' & Hst' & Hdiff' & Hcopy & Hnone & Hidx1 & _ & ->).
  rewrite Hnv in Hnv'. injection Hnv' as <-.
  rewrite Hst in Hst'. injection Hst' as <-.
  rewrite Hdiff in Hdiff'. injection Hdiff' as <- <-.
  pose proof (update_facts.copy_loop_adds_under _ _ _ _ _ _ _ _ Hcopy) as Hadd.
  split.
  - destruct (Hadd (manifest_path repoDir versionId)) as [E | [N _]]; congruence.
  - assert (Hne : index_path repoDir <> manifest_path repoDir versionId)
      by (intros E; rewrite E in Hidx1; congruence).
    rewrite Write_other by exact Hne.
    assert (Hm : lookup (fs1 ++ [(manifest_path repoDir versionId, mkInode false "" Full)])%list
                        (manifest_path repoDir versionId)
                 = Some (mkInode false "" Full)).
    { rewrite lookup_app, Hnone. simpl. rewrite String.eqb_refl. reflexivity. }
    rewrite (Write_same _ _ _ _ Hm). cbn [IsDir data mode].
    rewrite string_facts.overwrite_empty. reflexivity.
Qed.

(** When the index file is not longer than the encoding of the index
    with the new version, a publish that ends well leaves exactly
    that encoding in it: the channels as they were, and the version
    list with the summary of the new version at its end. *)
Theorem publish_saves_index
  fs repoDir filesDir urlBase newVersionDir versionName versionId fileData indexData fs' :
  ReadFile fs (index_path repoDir) = Ok fileData ->
  json_Unmarshal fileData = inl indexData ->
  UpdateRepo fs repoDir filesDir urlBase newVersionDir versionName versionId
  = (Returns None, fs') ->
  let saved :=
    repo.Index.mk (repo.Index.Channels indexData)
      (repo.Index.Versions indexData ++ [repo.VersionSummary.mk versionId versionName])%list in
  String.length fileData <= String.length (json_Marshal_Index saved) ->
  ReadFile fs' (index_path repoDir) = Ok (json_Marshal_Index saved).
Proof.
  intros Hread Hjson H saved Hlen.
  destruct (publish_success_inv _ _ _ _ _ _ _ _ H)
    as (fileData' & indexData' & nv & st & found & added & fs1 & n &
        _ & _ & Hread' & Hjson' & _ & _ & _ & _ & Hnone & Hidx1 & Hidx & ->).
  rewrite Hread in Hread'. injection Hread' as <-.
  rewrite Hjson in Hjson'. injection Hjson' as <-.
  assert (Hne : manifest_path repoDir versionId <> index_path repoDir)
    by (intros E; rewrite E in Hnone; congruence).
  unfold ReadFile in Hread. rewrite Hidx in Hread.
  unfold ReadFile.
  erewrite Write_same;
    [| rewrite Write_other by exact Hne; rewrite lookup_app, Hidx1; reflexivity].
  cbn [IsDir data mode].
  destruct (mode n); try discriminate Hread;
    (destruct (IsDir n); [discriminate Hread |]);
    injection Hread as Hdata; rewrite Hdata;
    rewrite string_facts.overwrite_short by exact Hlen; reflexivity.
Qed.

(** The slash at the end of the URL base is optional: a publish
    with and without it is the same. *)
Theorem url_base_slash_optional
  fs repoDir filesDir urlBase newVersionDir versionName versionId :
  UpdateRepo fs repoDir filesDir (with_slash urlBase) newVersionDir versionName versionId
  = UpdateRepo fs repoDir filesDir urlBase newVersionDir versionName versionId.
Proof.
  unfold UpdateRepo.
  change (if golang.HasSuffix (with_slash urlBase) "/"
          then with_slash urlBase else with_slash urlBase ++ "/")
    with (with_slash (with_slash urlBase)).
  change (if golang.HasSuffix urlBase "/" then urlBase else urlBase ++ "/")
    with (with_slash urlBase).
  rewrite with_slash_idempotent. reflexivity.
Qed.

End Publish.

(** The frame of a publish at work: the first publish of the two
    files leaves the files of the new version as they were. *)
Lemma successful_publish_frame_witness :
  let fs' := snd (UpdateRepo (env := sample.env) examples.fs_fresh
                    "repo" "store" "http://x" "new" "1.0" 1) in
  lookup fs' "new/a.txt" = Some (sample.file "aaaa") /\
  lookup fs' "repo" = Some sample.dir.
Proof.
  intros fs'.
  pose proof (successful_publish_frame (env := sample.env) examples.fs_fresh
                "repo" "store" "http://x" "new" "1.0" 1 fs'
                ltac:(vm_compute; reflexivity)) as Hframe.
  split.
  - destruct (Hframe "new/a.txt") as [E | [E | [E _]]];
      [rewrite E; reflexivity | discriminate E | discriminate E].
  - destruct (Hframe "repo") as [E | [E | [E _]]];
      [rewrite E; reflexivity | discriminate E | discriminate E].
Defined.

(** The manifest of a second version: [a.txt] is found in storage,
    [c.txt] is added. *)
Lemma publish_writes_manifest_witness :
  let fs' := snd (UpdateRepo (env := sample.env) fs_second_version
                    "repo" "store" "http://x" "new" "2.0" 2) in
  lookup fs' "repo/2.json" =
  Some (sample.file (sample.Marshal_Version
    (repo.Version.mk 2 "2.0"
       [repo.FileInfo.mk "a.txt" [repo.FileSource.mk "http" "http://x/6161-a.txt"]
                         "61616161000000000000000000000000";
        repo.FileInfo.mk "c.txt" [repo.FileSource.mk "http" "http://x/6363-c.txt"]
                         "63636363000000000000000000000000"]))).
Proof.
  intros fs'.
  destruct (publish_writes_manifest (env := sample.env) fs_second_version
              "repo" "store" "http://x" "new" "2.0" 2
              [md5util.mkFileMD5Data "a.txt" "61616161000000000000000000000000";
               md5util.mkFileMD5Data "c.txt" "63636363000000000000000000000000"]
              [md5util.mkFileMD5Data "6161-a.txt" "61616161000000000000000000000000"]
              [mkFileStorageData "6161-a.txt" "a.txt" "61616161000000000000000000000000"]
              [mkFileStorageData "6363-c.txt" "c.txt" "63636363000000000000000000000000"]
              fs')
    as [_ Hm]; [vm_compute; reflexivity .. | exact Hm].
Defined.

(** The index after the first publish into a fresh repository. *)
Lemma publish_saves_index_witness :
  ReadFile (snd (UpdateRepo (env := sample.env) examples.fs_fresh
                   "repo" "store" "http://x" "new" "1.0" 1)) "repo/index.json"
  = Ok (sample.Marshal_Index (repo.Index.mk [] [repo.VersionSummary.mk 1 "1.0"])).
Proof.
  apply (publish_saves_index (env := sample.env) examples.fs_fresh
           "repo" "store" "http://x" "new" "1.0" 1 examples.blank_index repo.NewBlankIndex).
  - vm_compute; reflexivity.
  - vm_compute; reflexivity.
  - vm_compute; reflexivity.
  - vm_compute. lia.
Defined.

End publish_facts.

(* ================================================================== *)
(** ** More on the channel commands *)
(* ================================================================== *)

Module channel_facts.

Import os subcmd props more_props os_facts setchan setchan_facts.

(** The first channel of an ID that occurs. *)
Lemma first_channel chanId channels :
  In chanId (map repo.Channel.Id channels) ->
  exists r1 c r2,
    channels = (r1 ++ c :: r2)%list /\
    repo.Channel.Id c = chanId /\
    ~ In chanId (map repo.Channel.Id r1).
Proof.
  induction channels as [| c rest IH]; intros Hin; [destruct Hin |].
  destruct (string_dec (repo.Channel.Id c) chanId) as [E | Hne].
  - exists [], c, rest. repeat split; [exact E | intros []].
  - destruct Hin as [E | Hin]; [contradiction |].
    destruct (IH Hin) as (r1 & c' & r2 & -> & Hc' & Hr1).
    exists (c :: r1), c', r2. split; [reflexivity | split; [exact Hc' |]].
    intros [E | H]; [contradiction | exact (Hr1 H)].
Qed.

(** The change of the index keeps the IDs of the channels unique,
    whatever the version ID. *)
Theorem set_channel_keeps_ids_unique indexData chanId versionId :
  NoDup (channel_ids indexData) ->
  NoDup (channel_ids (set_channel indexData chanId versionId)).
Proof.
  unfold channel_ids. intros Hnd.
  destruct (in_dec string_dec chanId (map repo.Channel.Id (repo.Index.Channels indexData)))
    as [Hin | Habs].
  - destruct (first_channel _ _ Hin) as (r1 & c & r2 & E & Hc & Hr1).
    rewrite (set_channel_present _ _ _ _ _ _ E Hr1 Hc). cbn [repo.Index.Channels].
    rewrite E in Hnd. rewrite map_app in Hnd |- *.
    destruct (versionId <? 0)%Z.
    + cbn [map] in Hnd. apply NoDup_remove_1 in Hnd. exact Hnd.
    + exact Hnd.
  - rewrite (set_channel_absent _ _ _ Habs). cbn [repo.Index.Channels].
    rewrite map_app. cbn [map repo.Channel.Id].
    apply NoDup_app; [exact Hnd | repeat constructor; intros [] |].
    intros x Hx [<- | []]. exact (Habs Hx).
Qed.

(** Setting a channel to a version that is not negative, and
    looking the channel up by its ID: the first channel of that ID
    has the version. *)
Theorem set_channel_then_find indexData chanId versionId :
  (0 <= versionId)%Z ->
  exists c,
    find (fun c => repo.Channel.Id c =? chanId)
         (repo.Index.Channels (set_channel indexData chanId versionId)) = Some c /\
    repo.Channel.Id c = chanId /\
    repo.Channel.CurrentVersion c = versionId.
Proof.
  intros Hv.
  assert (Hfind : forall r1 c r2,
            ~ In chanId (map repo.Channel.Id r1) -> repo.Channel.Id c = chanId ->
            find (fun c => repo.Channel.Id c =? chanId) (r1 ++ c :: r2) = Some c).
  { induction r1 as [| d r1 IH]; intros c r2 Hr1 Hc; cbn [app find].
    - rewrite Hc, String.eqb_refl. reflexivity.
    - destruct (String.eqb_spec (repo.Channel.Id d) chanId) as [E | _].
      + exfalso. apply Hr1. left. exact E.
      + apply IH; [intros H; apply Hr1; right; exact H | exact Hc]. }
  destruct (in_dec string_dec chanId (map repo.Channel.Id (repo.Index.Channels indexData)))
    as [Hin | Habs].
  - destruct (first_channel _ _ Hin) as (r1 & c & r2 & E & Hc & Hr1).
    rewrite (set_channel_present _ _ _ _ _ _ E Hr1 Hc). cbn [repo.Index.Channels].
    destruct (Z.ltb_spec versionId 0); [lia |].
    eexists. split; [apply Hfind; [exact Hr1 | exact Hc] |]. split; [exact Hc | reflexivity].
  - rewrite (set_channel_absent _ _ _ Habs). cbn [repo.Index.Channels].
    eexists. split; [apply Hfind; [exact Habs | reflexivity] |]. split; reflexivity.
Qed.

(** Setting a channel twice to the same version that is not
    negative is the same as setting it once. *)
Theorem set_channel_idempotent indexData chanId versionId :
  (0 <= versionId)%Z ->
  set_channel (set_channel indexData chanId versionId) chanId versionId
  = set_channel indexData chanId versionId.
Proof.
  intros Hv.
  destruct (in_dec string_dec chanId (map repo.Channel.Id (repo.Index.Channels indexData)))
    as [Hin | Habs].
  - destruct (first_channel _ _ Hin) as (r1 & c & r2 & E & Hc & Hr1).
    rewrite (set_channel_present _ _ _ _ _ _ E Hr1 Hc).
    destruct (Z.ltb_spec versionId 0); [lia |].
    rewrite (set_channel_present _ chanId versionId r1
               (repo.Channel.mk (repo.Channel.Id c) (repo.Channel.Name c) versionId) r2);
      [| reflexivity | exact Hr1 | exact Hc].
    destruct (Z.ltb_spec versionId 0); [lia | reflexivity].
  - rewrite (set_channel_absent _ _ _ Habs).
    rewrite (set_channel_present _ chanId versionId (repo.Index.Channels indexData)
               (repo.Channel.mk chanId chanId versionId) []);
      [| reflexivity | exact Habs | reflexivity].
    destruct (Z.ltb_spec versionId 0); [lia | reflexivity].
Qed.

(** Removing a channel that is not there adds it, at the end of the
    list and with the negative value as its current version; removing
    it once more gives the index back as it was.  The removal is
    therefore not idempotent: the second one undoes the first. *)
Theorem set_channel_negative_twice indexData chanId versionId :
  (versionId < 0)%Z ->
  ~ In chanId (channel_ids indexData) ->
  set_channel indexData chanId versionId =
  repo.Index.mk
    (repo.Index.Channels indexData ++ [repo.Channel.mk chanId chanId versionId])%list
    (repo.Index.Versions indexData) /\
  set_channel (set_channel indexData chanId versionId) chanId versionId = indexData /\
  set_channel (set_channel indexData chanId versionId) chanId versionId
  <> set_channel indexData chanId versionId.
Proof.
  unfold channel_ids. intros Hv Habs.
  assert (Hback : set_channel (set_channel indexData chanId versionId) chanId versionId
                  = indexData).
  { rewrite (set_channel_absent _ _ _ Habs).
    rewrite (set_channel_present _ chanId versionId (repo.Index.Channels indexData)
               (repo.Channel.mk chanId chanId versionId) []);
      [| reflexivity | exact Habs | reflexivity].
    destruct (Z.ltb_spec versionId 0); [| lia].
    rewrite app_nil_r. destruct indexData; reflexivity. }
  split; [apply set_channel_absent, Habs | split; [exact Hback |]].
  rewrite Hback, (set_channel_absent _ _ _ Habs). intros E.
  apply (f_equal (fun i => List.length (repo.Index.Channels i))) in E.
  cbn [repo.Index.Channels] in E. rewrite length_app in E. simpl in E. lia.
Qed.

Section Channels.
Context {env : Env}.

(** A [SetChan] that returns an error has changed nothing: the
    index file is truncated by the very call that opens it for
    writing, after which no error is returned. *)
Theorem failed_SetChan_changes_nothing fs repoDir chanId versionId e fs' :
  SetChan fs repoDir chanId versionId = (Some e, fs') -> fs' = fs.
Proof.
  unfold SetChan. intros H.
  destruct (Stat fs repoDir) as [[|] | e1];
    [| injection H as _ <-; reflexivity
     | destruct e1; injection H as _ <-; reflexivity].
  destruct (ReadFile fs _) as [fileData | e2];
    [| destruct e2; injection H as _ <-; reflexivity].
  destruct (json_Unmarshal fileData) as [indexData | jerr];
    [| injection H as _ <-; reflexivity].
  destruct (OpenFile fs _ O_WRONLY_TRUNC) as [[f fs1] | e3];
    [discriminate H | destruct e3; injection H as _ <-; reflexivity].
Qed.

(** A [CreateChan] that returns an error has changed nothing. *)
Theorem failed_CreateChan_changes_nothing fs repoDir chanId e fs' :
  mkchan.CreateChan fs repoDir chanId = (Some e, fs') -> fs' = fs.
Proof.
  unfold mkchan.CreateChan. intros H.
  destruct (Stat fs repoDir) as [[|] | e1];
    [| injection H as _ <-; reflexivity
     | destruct e1; injection H as _ <-; reflexivity].
  destruct (ReadFile fs _) as [fileData | e2];
    [| destruct e2; injection H as _ <-; reflexivity].
  destruct (json_Unmarshal fileData) as [indexData | jerr];
    [| injection H as _ <-; reflexivity].
  destruct (mkchan.chan_present chanId (repo.Index.Channels indexData));
    [injection H as _ <-; reflexivity |].
  destruct (OpenFile fs _ O_RDWR) as [[f fs1] | e3];
    [discriminate H | destruct e3; injection H as _ <-; reflexivity].
Qed.

(** A channel command that ends well has changed the index file
    and nothing else. *)
Theorem SetChan_frame fs repoDir chanId versionId fs' p :
  SetChan fs repoDir chanId versionId = (None, fs') ->
  p <> index_path repoDir ->
  lookup fs' p = lookup fs p.
Proof.
  unfold SetChan. intros H Hp.
  destruct (Stat fs repoDir) as [[|] | e1];
    [| discriminate H | destruct e1; discriminate H].
  change (path.Join repoDir "index.json") with (index_path repoDir) in H.
  destruct (ReadFile fs _) as [fileData | e2]; [| destruct e2; discriminate H].
  destruct (json_Unmarshal fileData) as [indexData | jerr]; [| discriminate H].
  destruct (OpenFile fs (index_path repoDir) O_WRONLY_TRUNC) as [[f fs1] | e3] eqn:Ho;
    [| destruct e3; discriminate H].
  injection H as <-.
  unfold OpenFile in Ho. simpl in Ho.
  destruct (lookup fs (index_path repoDir)) as [n |]; [| discriminate Ho].
  destruct (mode n); try discriminate Ho.
  destruct (IsDir n); [discriminate Ho |].
  injection Ho as <- <-.
  rewrite Write_other by (intros E; apply Hp; symmetry; exact E).
  apply lookup_set_data_other. intros E. apply Hp. symmetry. exact E.
Qed.

End Channels.

Lemma set_channel_keeps_ids_unique_witness :
  NoDup (channel_ids (set_channel examples.two_channels "nightly" 3)).
Proof.
  apply set_channel_keeps_ids_unique.
  repeat constructor; simpl; intuition discriminate.
Defined.

Lemma set_channel_then_find_witness :
  exists c,
    find (fun c => repo.Channel.Id c =? "beta")
         (repo.Index.Channels (set_channel examples.two_channels "beta" 7)) = Some c /\
    repo.Channel.Id c = "beta" /\
    repo.Channel.CurrentVersion c = 7%Z.
Proof. apply set_channel_then_find. lia. Defined.

Lemma set_channel_idempotent_witness :
  set_channel (set_channel examples.two_channels "beta" 7) "beta" 7
  = set_channel examples.two_channels "beta" 7.
Proof. apply set_channel_idempotent. lia. Defined.

Lemma set_channel_negative_twice_witness :
  set_channel examples.two_channels "nightly" (-1) =
  repo.Index.mk
    [repo.Channel.mk "stable" "stable" 1; repo.Channel.mk "beta" "Beta" 0;
     repo.Channel.mk "nightly" "nightly" (-1)]
    [repo.VersionSummary.mk 1 "1.0"] /\
  set_channel (set_channel examples.two_channels "nightly" (-1)) "nightly" (-1)
  = examples.two_channels.
Proof.
  destruct (set_channel_negative_twice examples.two_channels "nightly" (-1)) as (H1 & H2 & _).
  - lia.
  - simpl. intros [H | [H | []]]; discriminate H.
  - split; [exact H1 | exact H2].
Defined.

Lemma failed_SetChan_changes_nothing_witness :
  snd (SetChan (env := sample.env) examples.fs_index_read_only "repo" "beta" 1)
  = examples.fs_index_read_only.
Proof.
  eapply (failed_SetChan_changes_nothing (env := sample.env)
            examples.fs_index_read_only "repo" "beta" 1).
  vm_compute. reflexivity.
Defined.

Lemma failed_CreateChan_changes_nothing_witness :
  snd (mkchan.CreateChan (env := sample.env) examples.fs_channels "repo" "beta")
  = examples.fs_channels.
Proof.
  eapply (failed_CreateChan_changes_nothing (env := sample.env)
            examples.fs_channels "repo" "beta").
  vm_compute. reflexivity.
Defined.

Lemma SetChan_frame_witness :
  lookup (snd (SetChan (env := sample.env) examples.fs_channels "repo" "beta" 1)) "repo"
  = Some sample.dir.
Proof.
  rewrite (SetChan_frame (env := sample.env) examples.fs_channels "repo" "beta" 1
             (snd (SetChan (env := sample.env) examples.fs_channels "repo" "beta" 1)) "repo").
  - reflexivity.
  - vm_compute. reflexivity.
  - discriminate.
Defined.

End channel_facts.

(* ================================================================== *)
(** ** Creating a repository *)
(* ================================================================== *)

Module create_facts.

Import os subcmd props more_props os_facts create.

Lemma append_assoc (a b c : string) : (a ++ b) ++ c = a ++ b ++ c.
Proof. induction a as [| x a IH]; simpl; congruence. Qed.

(** The directory part of a path that ends with a separator and
    [tail], when [tail] has no separator in it. *)
Lemma Dir_aux_app tail :
  (forall acc pending, path.Dir_aux acc pending tail = acc) ->
  forall d acc pending,
    path.Dir_aux acc pending (d ++ String path.slash tail) = acc ++ pending ++ d.
Proof.
  intros Htail. induction d as [| c d IH]; intros acc pending; cbn [append path.Dir_aux].
  - rewrite Ascii.eqb_refl, Htail, string_facts.append_nil_r. reflexivity.
  - destruct (Ascii.eqb_spec c path.slash) as [-> | _].
    + rewrite IH, append_assoc. reflexivity.
    + rewrite IH, append_assoc. reflexivity.
Qed.

Lemma Dir_index_path repoDir : path.Dir (index_path repoDir) = repoDir.
Proof.
  unfold index_path, path.Join, repo.IndexFileName.
  destruct repoDir as [| c d]; [reflexivity |].
  unfold path.Dir.
  change (String c d ++ "/" ++ "index.json")
    with (String c d ++ String path.slash "index.json").
  rewrite Dir_aux_app; [reflexivity |]. intros acc pending. reflexivity.
Qed.

Section CreateRepo.
Context {env : Env}.

(** [CreateRepo] refuses a path that is there already, with exit
    code 11, and leaves everything as it is. *)
Theorem CreateRepo_existing fs repoDir n :
  lookup fs repoDir = Some n ->
  CreateRepo fs repoDir =
  (Some (CausedError
     ("Can't create repository at " ++ repoDir ++
      " because the directory already exists. " ++
      "Cannot create a repository in an existing directory.")
     11 (os_error EEXIST)), fs).
Proof.
  intros H. unfold CreateRepo, fsys.Mkdir. rewrite H. reflexivity.
Qed.

(** A repository directory is not its own index file. *)
Lemma repoDir_not_index repoDir : repoDir <> index_path repoDir.
Proof.
  unfold index_path, path.Join, repo.IndexFileName.
  destruct repoDir as [| c d]; [discriminate |].
  intros E. apply (f_equal String.length) in E.
  rewrite string_facts.length_append in E. simpl in E. lia.
Qed.

(** The two steps of [CreateRepo] in a directory that admits
    them. *)
Lemma CreateRepo_steps fs repoDir parent :
  lookup fs repoDir = None ->
  lookup fs (index_path repoDir) = None ->
  lookup fs (path.Dir repoDir) = Some parent ->
  IsDir parent = true ->
  mode parent = Full ->
  CreateRepo fs repoDir = (None, created fs repoDir).
Proof.
  intros Hrepo Hindex Hparent Hdir Hmode.
  pose proof (repoDir_not_index repoDir) as Hne.
  unfold CreateRepo, fsys.Mkdir. rewrite Hrepo, Hparent, Hdir, Hmode. cbn [negb].
  fold (index_path repoDir).
  set (fs1 := (fs ++ [(repoDir, mkInode true "" Full)])%list).
  assert (Hrepo1 : lookup fs1 repoDir = Some (mkInode true "" Full)).
  { unfold fs1. rewrite lookup_app, Hrepo. simpl. rewrite String.eqb_refl. reflexivity. }
  assert (Hindex1 : lookup fs1 (index_path repoDir) = None).
  { unfold fs1. rewrite lookup_app, Hindex. simpl.
    destruct (String.eqb_spec repoDir (index_path repoDir)); [contradiction | reflexivity]. }
  unfold fsys.WriteFile, OpenFile. rewrite Hindex1. cbn [fsys.O_WRONLY_CREATE_TRUNC O_CREATE].
  rewrite Dir_index_path, Hrepo1. cbn [IsDir mode negb].
  reflexivity.
Qed.


(** A repository just created is one for the channel commands, when
    the encoding of the blank index is read back as the blank index:
    [SetChan] on it ends well and leaves the index with the one
    channel. *)
Theorem CreateRepo_then_SetChan fs repoDir parent chanId versionId fs1 :
  lookup fs repoDir = None ->
  lookup fs (index_path repoDir) = None ->
  lookup fs (path.Dir repoDir) = Some parent ->
  IsDir parent = true ->
  mode parent = Full ->
  json_Unmarshal (json_Marshal_Index repo.NewBlankIndex) = inl repo.NewBlankIndex ->
  CreateRepo fs repoDir = (None, fs1) ->
  exists fs2,
    setchan.SetChan fs1 repoDir chanId versionId = (None, fs2) /\
    ReadFile fs2 (index_path repoDir)
    = Ok (json_Marshal_Index
            (repo.Index.mk [repo.Channel.mk chanId chanId versionId] [])).
Proof.
  intros Hrepo Hindex Hparent Hdir Hmode Hjson Hcreate.
  pose proof (repoDir_not_index repoDir) as Hne.
  rewrite (CreateRepo_steps _ _ _ Hrepo Hindex Hparent Hdir Hmode) in Hcreate.
  injection Hcreate as <-.
  assert (Hrepo1 : lookup (created fs repoDir) repoDir = Some (mkInode true "" Full)).
  { unfold created. rewrite Write_other by (intros E; apply Hne; symmetry; exact E).
    rewrite !lookup_app, Hrepo. simpl. rewrite String.eqb_refl. reflexivity. }
  assert (Hindex1 : lookup (created fs repoDir) (index_path repoDir)
                    = Some (mkInode false (json_Marshal_Index repo.NewBlankIndex) Full)).
  { unfold created.
    rewrite (Write_same _ _ _ (mkInode false "" Full)).
    - cbn [IsDir data mode]. rewrite string_facts.overwrite_empty. reflexivity.
    - rewrite !lookup_app, Hindex. simpl.
      destruct (String.eqb_spec repoDir (index_path repoDir)); [contradiction |].
      rewrite String.eqb_refl. reflexivity. }
  unfold setchan.SetChan, Stat. rewrite Hrepo1. cbn [mode IsDir].
  change (path.Join repoDir "index.json") with (index_path repoDir).
  unfold ReadFile at 1. rewrite Hindex1. cbn [mode IsDir data]. rewrite Hjson.
  unfold OpenFile. rewrite Hindex1. cbn [O_WRONLY_TRUNC O_CREATE O_EXCL O_WR O_TRUNC
                                         andb mode IsDir].
  eexists. split; [reflexivity |].
  unfold ReadFile.
  erewrite Write_same by (apply lookup_set_data_same; exact Hindex1).
  cbn [mode IsDir data]. rewrite string_facts.overwrite_empty. reflexivity.
Qed.

End CreateRepo.

Lemma CreateRepo_existing_witness :
  fst (CreateRepo (env := sample.env) fs_created "repo")
  = Some (CausedError
      "Can't create repository at repo because the directory already exists. Cannot create a repository in an existing directory."
      11 (os_error EEXIST)).
Proof.
  rewrite (CreateRepo_existing (env := sample.env) fs_created "repo" sample.dir eq_refl).
  reflexivity.
Defined.


Lemma CreateRepo_then_SetChan_witness :
  exists fs2,
    setchan.SetChan (env := sample.env) fs_created "repo" "stable" 1 = (None, fs2) /\
    ReadFile fs2 "repo/index.json"
    = Ok (sample.Marshal_Index (repo.Index.mk [repo.Channel.mk "stable" "stable" 1] [])).
Proof.
  apply (CreateRepo_then_SetChan (env := sample.env) fs_root "repo" sample.dir "stable" 1
           fs_created); reflexivity.
Defined.

End create_facts.

(* ================================================================== *)
(** ** The commands as they are run *)
(* ================================================================== *)

Module execute_facts.

Import os subcmd props more_props os_facts commands.

Lemma digits_acc d :
  forall acc : positive,
    strconv.digits (Z.pos acc) (NilEmpty.string_of_uint d)
    = Some (Z.pos (Pos.of_uint_acc d acc)).
Proof.
  induction d; intros acc; cbn [NilEmpty.string_of_uint strconv.digits Pos.of_uint_acc];
    [reflexivity | ..];
    (match goal with
     | |- context [strconv.is_digit ?c] =>
         change (strconv.is_digit c) with true; cbv iota;
         let k := eval vm_compute in (Z.of_nat (nat_of_ascii c - 48)) in
         change (Z.of_nat (nat_of_ascii c - 48)) with k
     end);
    rewrite <- IHd; f_equal; lia.
Qed.

Lemma digits_zero d :
  strconv.digits 0 (NilEmpty.string_of_uint d) = Some (Z.of_N (Pos.of_uint d)).
Proof.
  induction d; cbn [NilEmpty.string_of_uint strconv.digits Pos.of_uint];
    [reflexivity | exact IHd | ..];
    (match goal with
     | |- context [strconv.is_digit ?c] =>
         change (strconv.is_digit c) with true; cbv iota;
         let k := eval vm_compute in (10 * 0 + Z.of_nat (nat_of_ascii c - 48))%Z in
         change (10 * 0 + Z.of_nat (nat_of_ascii c - 48))%Z with k
     end);
    rewrite digits_acc; reflexivity.
Qed.

Lemma digits_to_uint p :
  strconv.digits 0 (NilEmpty.string_of_uint (Pos.to_uint p)) = Some (Z.pos p).
Proof. rewrite digits_zero, DecimalPos.Unsigned.of_to. reflexivity. Qed.

(** The decimal text of a number starts with a digit. *)
Lemma to_uint_head p :
  exists c rest,
    NilZero.string_of_uint (Pos.to_uint p) = String c rest /\
    NilEmpty.string_of_uint (Pos.to_uint p) = String c rest /\
    Ascii.eqb c "+" = false /\ Ascii.eqb c "-" = false.
Proof.
  pose proof (DecimalPos.Unsigned.to_uint_nonnil p) as Hn.
  destruct (Pos.to_uint p); [contradiction | ..];
    cbn [NilZero.string_of_uint NilEmpty.string_of_uint];
    do 2 eexists; repeat split; reflexivity.
Qed.

(** Reading back the decimal text of a number: the number, when it
    is in the range of [int], and an error otherwise. *)
Lemma ParseInt_fmt_d z :
  strconv.ParseInt (golang.fmt_d z) =
  if ((- 2 ^ 63 <=? z) && (z <? 2 ^ 63))%Z then Some z else None.
Proof.
  unfold golang.fmt_d. destruct z as [| p | p]; cbn [Z.to_int NilZero.string_of_int].
  - reflexivity.
  - destruct (to_uint_head p) as (c & rest & -> & E & Hplus & Hminus).
    pose proof (digits_to_uint p) as Hd. rewrite E in Hd.
    unfold strconv.ParseInt. rewrite Hplus, Hminus, Hd. cbn [negb andb].
    destruct (Z.leb_spec (2 ^ 63) (Z.pos p)), (Z.ltb_spec (Z.pos p) (2 ^ 63));
      try lia; reflexivity.
  - destruct (to_uint_head p) as (c & rest & -> & E & _ & _).
    pose proof (digits_to_uint p) as Hd. rewrite E in Hd.
    unfold strconv.ParseInt.
    change (Ascii.eqb "-" "+") with false. change (Ascii.eqb "-" "-") with true.
    cbv iota. rewrite Hd. cbn [negb andb].
    destruct (Z.ltb_spec (2 ^ 63) (Z.pos p)), (Z.leb_spec (- 2 ^ 63) (Z.neg p));
      try lia; reflexivity.
Qed.

(** A failure of the copying loop is no usage error. *)
Lemma copy_loop_error_no_usage addToStorage :
  forall fs repoDir filesDir newVersionDir fileStorageMap e fs',
    update.copy_loop fs repoDir filesDir newVersionDir addToStorage fileStorageMap
    = (inl e, fs') ->
    printUsage e = false.
Proof.
  induction addToStorage as [| mapping rest IH]; intros fs repoDir filesDir newVersionDir
    fileStorageMap e fs' H; cbn [update.copy_loop] in H.
  - discriminate.
  - destruct (OpenFile fs _ _) as [[fileOut fs1] | createErr].
    + destruct (Open fs1 _) as [[fileIn fs2] | readErr].
      * exact (IH _ _ _ _ _ _ _ H).
      * injection H as <- _. reflexivity.
    + injection H as <- _. reflexivity.
Qed.

Section Execute.
Context {env : Env}.

(** The version ID of the command line is read as a decimal number:
    every [int], zero and the negative ones too, is passed on to
    [UpdateRepo] as it is; a number outside the range of [int] is
    refused with the usage error, and nothing is done.  Arguments
    after the sixth are ignored. *)
Theorem update_Execute_version_id
  fs repoDir filesDir urlBase newVersionDir versionName z more :
  update_Execute fs
    (repoDir :: filesDir :: urlBase :: newVersionDir :: versionName :: golang.fmt_d z :: more)
  = if ((- 2 ^ 63 <=? z) && (z <? 2 ^ 63))%Z
    then update.UpdateRepo fs repoDir filesDir urlBase newVersionDir versionName z
    else (Returns (Some (UsageError "Version ID must be a positive integer.")), fs).
Proof.
  unfold update_Execute. rewrite ParseInt_fmt_d.
  destruct ((- 2 ^ 63 <=? z) && (z <? 2 ^ 63))%Z; reflexivity.
Qed.

(** With fewer than six arguments, or with a version ID that is no
    decimal number, the command does nothing and asks for the usage
    to be shown, with exit code -1. *)
Theorem update_Execute_usage fs args e fs' :
  update_Execute fs args = (Returns (Some e), fs') ->
  printUsage e = true ->
  fs' = fs /\ exitCode e = (-1)%Z /\
  (List.length args < 6 \/ exists v, nth_error args 5 = Some v /\ strconv.ParseInt v = None).
Proof.
  unfold update_Execute. intros H Hu.
  destruct args as [| a0 [| a1 [| a2 [| a3 [| a4 [| a5 rest]]]]]];
    try (injection H as <- <-; repeat split; left; simpl; lia).
  destruct (strconv.ParseInt a5) eqn:Hp.
  - exfalso. revert H Hu. unfold update.UpdateRepo.
    repeat match goal with
           | |- context [match ?x with _ => _ end] =>
               match x with
               | context [match _ with _ => _ end] => fail 1
               | _ => destruct x eqn:?
               end
           end; intros [= <- _]; try discriminate.
    match goal with
    | Hc : update.copy_loop _ _ _ _ _ _ = (inl _, _) |- _ =>
        rewrite (copy_loop_error_no_usage _ _ _ _ _ _ _ _ Hc)
    end. discriminate.
  - injection H as <- <-. repeat split. right. exists a5. split; [reflexivity | exact Hp].
Qed.

(** Without a version ID, [setchan] removes the channel: the first
    channel of the given ID is no longer in the index file. *)
Theorem setchan_Execute_without_version
  fs repoDir chanId fileData indexData r1 c r2 fs' :
  ReadFile fs (index_path repoDir) = Ok fileData ->
  json_Unmarshal fileData = inl indexData ->
  repo.Index.Channels indexData = (r1 ++ c :: r2)%list ->
  repo.Channel.Id c = chanId ->
  ~ In chanId (map repo.Channel.Id r1) ->
  setchan_Execute fs [repoDir; chanId] = (None, fs') ->
  exists n,
    lookup fs' (index_path repoDir) = Some n /\
    data n = json_Marshal_Index
               (repo.Index.mk (r1 ++ r2)%list (repo.Index.Versions indexData)).
Proof.
  intros Hread Hjson E Hc Hr1 H.
  change (setchan_Execute fs [repoDir; chanId])
    with (setchan.SetChan fs repoDir chanId (-1)) in H.
  destruct (setchan_facts.SetChan_writes _ _ _ _ _ _ _ Hread Hjson H) as (n & Hn & Hdata).
  exists n. split; [exact Hn |].
  rewrite Hdata, (setchan_facts.set_channel_present _ _ _ _ _ _ E Hr1 Hc). reflexivity.
Qed.

End Execute.

Lemma update_Execute_usage_witness :
  snd (update_Execute (env := sample.env) examples.fs_fresh
         ["repo"; "store"; "http://x/"; "new"; "1.0"; "one"])
  = examples.fs_fresh.
Proof.
  eapply (update_Execute_usage (env := sample.env) examples.fs_fresh
            ["repo"; "store"; "http://x/"; "new"; "1.0"; "one"]).
  - vm_compute. reflexivity.
  - reflexivity.
Defined.

Lemma setchan_Execute_without_version_witness :
  exists n,
    lookup (snd (setchan_Execute (env := sample.env) examples.fs_channels ["repo"; "stable"]))
           "repo/index.json" = Some n /\
    data n = sample.Marshal_Index
               (repo.Index.mk [repo.Channel.mk "beta" "Beta" 0]
                              [repo.VersionSummary.mk 1 "1.0"]).
Proof.
  apply (setchan_Execute_without_version (env := sample.env) examples.fs_channels
           "repo" "stable" (sample.Marshal_Index examples.two_channels) examples.two_channels
           [] (repo.Channel.mk "stable" "stable" 1) [repo.Channel.mk "beta" "Beta" 0]).
  - vm_compute; reflexivity.
  - vm_compute; reflexivity.
  - reflexivity.
  - reflexivity.
  - intros [].
  - vm_compute; reflexivity.
Defined.

End execute_facts.

(* ================================================================== *)
(** ** The exit code of the process *)
(* ================================================================== *)

Module main_facts.

Import os subcmd props more_props os_facts commands repoman.

(** A failure of the copying loop has exit code 42 or 43. *)
Lemma copy_loop_error_code addToStorage :
  forall fs repoDir filesDir newVersionDir fileStorageMap e fs',
    update.copy_loop fs repoDir filesDir newVersionDir addToStorage fileStorageMap
    = (inl e, fs') ->
    exitCode e = 42%Z \/ exitCode e = 43%Z.
Proof.
  induction addToStorage as [| mapping rest IH]; intros fs repoDir filesDir newVersionDir
    fileStorageMap e fs' H; cbn [update.copy_loop] in H.
  - discriminate.
  - destruct (OpenFile fs _ _) as [[fileOut fs1] | createErr].
    + destruct (Open fs1 _) as [[fileIn fs2] | readErr].
      * exact (IH _ _ _ _ _ _ _ H).
      * injection H as <- _. right. reflexivity.
    + injection H as <- _. left. reflexivity.
Qed.

Ltac case_innermost :=
  repeat match goal with
         | |- context [match ?x with _ => _ end] =>
             match x with
             | context [match _ with _ => _ end] => fail 1
             | _ => destruct x eqn:?
             end
         end.

Section Main.
Context {env : Env}.

Lemma UpdateRepo_error_code
  fs repoDir filesDir urlBase newVersionDir versionName versionId e fs' :
  update.UpdateRepo fs repoDir filesDir urlBase newVersionDir versionName versionId
  = (Returns (Some e), fs') ->
  exitCode e <> 0%Z.
Proof.
  unfold update.UpdateRepo. case_innermost; intros [= <- _]; try discriminate.
  match goal with
  | Hc : update.copy_loop _ _ _ _ _ _ = (inl _, _) |- _ =>
      destruct (copy_loop_error_code _ _ _ _ _ _ _ _ Hc) as [-> | ->]
  end; discriminate.
Qed.

Lemma update_Execute_error_code fs args e fs' :
  update_Execute fs args = (Returns (Some e), fs') -> exitCode e <> 0%Z.
Proof.
  unfold update_Execute. intros H.
  destruct args as [| a0 [| a1 [| a2 [| a3 [| a4 [| a5 rest]]]]]];
    try (injection H as <- _; discriminate).
  destruct (strconv.ParseInt a5).
  - exact (UpdateRepo_error_code _ _ _ _ _ _ _ _ _ H).
  - injection H as <- _; discriminate.
Qed.

Lemma create_Execute_error_code fs args e fs' :
  create.Execute fs args = (Some e, fs') -> exitCode e <> 0%Z.
Proof.
  unfold create.Execute, create.CreateRepo.
  case_innermost; intros [= <- _]; discriminate.
Qed.

Lemma mkchan_Execute_error_code fs args e fs' :
  mkchan_Execute fs args = (Some e, fs') -> exitCode e <> 0%Z.
Proof.
  unfold mkchan_Execute, mkchan.CreateChan.
  case_innermost; intros [= <- _]; discriminate.
Qed.

(** The process exits with code 0 exactly when the command it ran
    returned no error: no error of [create], [update] or [mkchan]
    carries the exit code 0. *)
Theorem exit_code_zero_iff_no_error prog cmd rest cmdInfo fs code fs' :
  map_lookup repoman.commands cmd = Some cmdInfo ->
  main (prog :: cmd :: rest) fs = (Returns code, fs') ->
  code = 0%Z <-> Execute cmdInfo (prog :: cmd :: rest) fs rest = (Returns None, fs').
Proof.
  intros Hc. cbn [main]. rewrite Hc. unfold executeCommand.
  destruct cmdInfo; cbn [Execute help_Execute].
  - intros [= <- <-]. split; reflexivity.
  - destruct (create.Execute fs rest) as [[e |] fs1] eqn:E; intros [= <- <-].
    + pose proof (create_Execute_error_code _ _ _ _ E). unfold ExitCode.
      split; [contradiction | discriminate].
    + split; reflexivity.
  - destruct (update_Execute fs rest) as [[[e |] | |] fs1] eqn:E; try discriminate;
      intros [= <- <-].
    + pose proof (update_Execute_error_code _ _ _ _ E). unfold ExitCode.
      split; [contradiction | discriminate].
    + split; reflexivity.
  - destruct (mkchan_Execute fs rest) as [[e |] fs1] eqn:E; intros [= <- <-].
    + pose proof (mkchan_Execute_error_code _ _ _ _ E). unfold ExitCode.
      split; [contradiction | discriminate].
    + split; reflexivity.
Qed.

(** A command name that is not in the table makes the program show
    the help, as does the name [help], and exit with code 0, with the
    file system as it was. *)
Theorem unknown_command_exits_zero prog cmd rest fs :
  map_lookup repoman.commands cmd = None \/ cmd = "help" ->
  main (prog :: cmd :: rest) fs = (Returns 0%Z, fs).
Proof.
  intros [Hc | ->]; cbn [main].
  - rewrite Hc. reflexivity.
  - reflexivity.
Qed.

End Main.

(** A channel is made: the exit code is 0. *)
Lemma exit_code_zero_iff_no_error_witness :
  Execute (env := sample.env) mkchan_Command ["repoman"; "mkchan"; "repo"; "nightly"]
          examples.fs_channels ["repo"; "nightly"]
  = (Returns None,
     snd (main (env := sample.env) ["repoman"; "mkchan"; "repo"; "nightly"]
            examples.fs_channels)).
Proof.
  apply (proj1 (exit_code_zero_iff_no_error (env := sample.env)
                  "repoman" "mkchan" ["repo"; "nightly"] mkchan_Command
                  examples.fs_channels 0 _ eq_refl ltac:(vm_compute; reflexivity))).
  reflexivity.
Defined.

(** [setchan] is not in the table: the program shows the help and
    the channels are as they were. *)
Lemma unknown_command_exits_zero_witness :
  main (env := sample.env) ["repoman"; "setchan"; "repo"; "beta"; "1"] examples.fs_channels
  = (Returns 0%Z, examples.fs_channels).
Proof.
  apply unknown_command_exits_zero. left. reflexivity.
Defined.

End main_facts.

(* ================================================================== *)
(** ** The rounds of the naming loop *)
(* ================================================================== *)

Module rounds_facts.

Import os props more_props update string_facts path_facts naming_facts.

(** *** The length of a number in decimal *)

Lemma digits_bounds s :
  forall acc v,
    (0 <= acc)%Z ->
    strconv.digits acc s = Some v ->
    (acc * 10 ^ Z.of_nat (String.length s) <= v
     < (acc + 1) * 10 ^ Z.of_nat (String.length s))%Z.
Proof.
  induction s as [| c s IH]; intros acc v Hacc H.
  - simpl in H. injection H as <-. simpl. lia.
  - cbn [strconv.digits] in H.
    destruct (strconv.is_digit c) eqn:Hc; [| discriminate H].
    unfold strconv.is_digit in Hc. apply andb_true_iff in Hc as [H1 H2].
    apply Nat.leb_le in H1, H2.
    apply IH in H; [| lia].
    cbn [String.length]. rewrite Nat2Z.inj_succ, Z.pow_succ_r by lia.
    assert (0 < 10 ^ Z.of_nat (String.length s))%Z by (apply Z.pow_pos_nonneg; lia).
    nia.
Qed.

Lemma to_uint_normal p : Pos.to_uint p = Decimal.unorm (Pos.to_uint p).
Proof.
  pose proof (DecimalPos.Unsigned.to_of (Pos.to_uint p)) as H.
  rewrite DecimalPos.Unsigned.of_to in H. exact H.
Qed.

Lemma to_uint_not_D0 p d : Pos.to_uint p <> Decimal.D0 d.
Proof.
  intros H. pose proof (to_uint_normal p) as E. rewrite H in E.
  rewrite DecimalFacts.unorm_D0 in E.
  assert (Hd : d = Decimal.Nil \/ d <> Decimal.Nil)
    by (destruct d; [left; reflexivity | right; discriminate ..]).
  destruct Hd as [-> | Hd].
  - apply (f_equal Pos.of_uint) in H. rewrite DecimalPos.Unsigned.of_to in H. discriminate H.
  - pose proof (DecimalFacts.nb_digits_unorm d Hd) as Hn. rewrite <- E in Hn. simpl in Hn. lia.
Qed.

Lemma fmt_d_bounds p :
  (10 ^ (Z.of_nat (String.length (golang.fmt_d (Z.pos p))) - 1) <= Z.pos p
   < 10 ^ Z.of_nat (String.length (golang.fmt_d (Z.pos p))))%Z.
Proof.
  unfold golang.fmt_d. cbn [Z.to_int NilZero.string_of_int].
  pose proof (execute_facts.digits_to_uint p) as Hd.
  pose proof (to_uint_not_D0 p) as H0.
  pose proof (DecimalPos.Unsigned.to_uint_nonnil p) as Hn.
  destruct (Pos.to_uint p) as [| d | d | d | d | d | d | d | d | d | d];
    [contradiction | exfalso; exact (H0 d eq_refl) | ..];
    cbn [NilZero.string_of_uint NilEmpty.string_of_uint strconv.digits] in Hd |- *;
    (match type of Hd with
     | context [strconv.is_digit ?c] => change (strconv.is_digit c) with true in Hd
     end);
    cbv iota in Hd;
    apply digits_bounds in Hd; try (vm_compute; discriminate);
    cbn [String.length]; rewrite Nat2Z.inj_succ;
    replace (Z.succ (Z.of_nat (String.length (NilEmpty.string_of_uint d))) - 1)%Z
      with (Z.of_nat (String.length (NilEmpty.string_of_uint d))) by lia;
    rewrite Z.pow_succ_r by lia;
    (assert (0 < 10 ^ Z.of_nat (String.length (NilEmpty.string_of_uint d)))%Z
       by (apply Z.pow_pos_nonneg; lia));
    vm_compute (10 * 0 + Z.of_nat (nat_of_ascii _ - 48))%Z in Hd; nia.
Qed.

Lemma fmt_d_length_mono a b :
  (0 <= a <= b)%Z ->
  String.length (golang.fmt_d a) <= String.length (golang.fmt_d b).
Proof.
  intros [Ha Hab].
  destruct a as [| p |]; [| | lia].
  - pose proof (fmt_d_not_empty b) as Hb.
    destruct (golang.fmt_d b); [contradiction |]. simpl. lia.
  - destruct b as [| q |]; try lia.
    pose proof (fmt_d_bounds p) as [Hp _]. pose proof (fmt_d_bounds q) as [_ Hq].
    assert (H : (10 ^ (Z.of_nat (String.length (golang.fmt_d (Z.pos p))) - 1)
                 < 10 ^ Z.of_nat (String.length (golang.fmt_d (Z.pos q))))%Z) by lia.
    apply Z.pow_lt_mono_r_iff in H; lia.
Qed.

(** *** The candidates never get shorter *)

Section Rounds.
Variables md5 base : string.
Hypothesis md5_length : String.length md5 = 32.

Lemma candidate_length_numbered k :
  28 < k ->
  String.length (candidate md5 base k)
  = 34 + String.length (golang.fmt_d (Z.of_nat (k - 29))) + String.length base.
Proof.
  intros Hk. unfold candidate. destruct (Nat.leb_spec k 28); [lia |].
  rewrite !length_append, length_substring by lia. simpl. lia.
Qed.

Lemma candidate_length_mono j k :
  j <= k -> String.length (candidate md5 base j) <= String.length (candidate md5 base k).
Proof.
  intros Hjk.
  destruct (Nat.le_gt_cases j 28) as [Hj | Hj], (Nat.le_gt_cases k 28) as [Hk | Hk].
  - rewrite !(candidate_length_short md5 base md5_length) by assumption. lia.
  - rewrite (candidate_length_short md5 base md5_length j) by assumption.
    pose proof (candidate_length_long md5 base md5_length k Hk). lia.
  - lia.
  - rewrite !candidate_length_numbered by assumption.
    pose proof (fmt_d_length_mono (Z.of_nat (j - 29)) (Z.of_nat (k - 29)) ltac:(lia)). lia.
Qed.

(** The names that the loop can come to form are the candidates:
    while the prefix grows the number stays -1, and a number that
    has wrapped around to a negative value gives the name without
    number once more. *)
Lemma name_for_candidate prefixSize prefixNum :
  (4 <= prefixSize <= 32)%Z ->
  ((prefixSize < 32)%Z -> prefixNum = (-1)%Z) ->
  exists k, name_for md5 base prefixSize prefixNum = Some (candidate md5 base k).
Proof.
  intros Hs Hn.
  destruct (Z.ltb_spec prefixSize 32) as [Hlt | Hge].
  - exists (Z.to_nat (prefixSize - 4)). rewrite (Hn Hlt).
    rewrite <- (name_for_at md5 base md5_length (Z.to_nat (prefixSize - 4))).
    unfold size_at, num_at.
    destruct (Nat.leb_spec (Z.to_nat (prefixSize - 4)) 28); [| lia].
    f_equal. lia.
  - assert (prefixSize = 32%Z) by lia. subst prefixSize.
    destruct (Z.ltb_spec prefixNum 0) as [Hneg | Hpos].
    + exists 28. rewrite <- (name_for_at md5 base md5_length 28).
      unfold name_for. change (size_at 28) with 32%Z. change (num_at 28) with (-1)%Z.
      destruct (golang.slice_to md5 32); [| reflexivity].
      destruct (Z.ltb_spec prefixNum 0); [reflexivity | lia].
    + exists (29 + Z.to_nat prefixNum).
      rewrite <- (name_for_at md5 base md5_length (29 + Z.to_nat prefixNum)).
      unfold size_at, num_at.
      destruct (Nat.leb_spec (29 + Z.to_nat prefixNum) 28); [lia |].
      f_equal; lia.
Qed.

Variables (fs : FS) (filesDir : string).
Hypothesis md5_no_slash : no_slash md5 = true.
Hypothesis base_no_slash : no_slash base = true.
Hypothesis filesDir_ok : Stat fs filesDir = Ok true.

Local Abbreviation reported k :=
  (Stat fs (path.Join filesDir (candidate md5 base k)) = Err ENOENT).

Lemma Join_length_mono a b :
  String.length a <= String.length b ->
  String.length (path.Join filesDir a) <= String.length (path.Join filesDir b).
Proof.
  intros H. unfold path.Join.
  destruct filesDir as [| c d]; [exact H |].
  destruct a as [| x a], b as [| y b]; simpl in *; try lia;
    rewrite ?length_append; simpl; lia.
Qed.

(** A candidate that has no entry and is not reported as not
    existing has too long a name or path, and then no candidate after
    it is reported as not existing. *)
Lemma later_not_reported j k :
  j <= k ->
  lookup fs (path.Join filesDir (candidate md5 base j)) = None ->
  ~ reported j ->
  ~ reported k.
Proof.
  intros Hjk Hm Hj Hk.
  pose proof (IsNotExist_Stat fs _ (proj2 (IsNotExist_ENOENT _) Hk)) as Hmk.
  pose proof (candidate_length_mono j k Hjk) as Hl.
  pose proof (Join_length_mono _ _ Hl) as Hp.
  rewrite (Stat_in_dir fs filesDir _ filesDir_ok
             (candidate_no_slash md5 base md5_length md5_no_slash base_no_slash j)
             (candidate_not_empty md5 base md5_length j) Hm) in Hj.
  rewrite (Stat_in_dir fs filesDir _ filesDir_ok
             (candidate_no_slash md5 base md5_length md5_no_slash base_no_slash k)
             (candidate_not_empty md5 base md5_length k) Hmk) in Hk.
  destruct (Nat.leb_spec PATH_MAX (String.length (path.Join filesDir (candidate md5 base j))));
    destruct (Nat.ltb_spec NAME_MAX (String.length (candidate md5 base j)));
    destruct (Nat.leb_spec PATH_MAX (String.length (path.Join filesDir (candidate md5 base k))));
    destruct (Nat.ltb_spec NAME_MAX (String.length (candidate md5 base k)));
    cbn [orb] in Hj, Hk; try discriminate Hk; try lia.
  apply Hj. reflexivity.
Qed.

(** A loop that has run out of its rounds has found none of their
    candidates reported as not existing. *)
Lemma name_loop_out_of_rounds fuel :
  forall k,
    (Z.of_nat (k + fuel) < 2 ^ 63)%Z ->
    name_loop fuel fs filesDir md5 base (size_at k) (num_at k) (candidate md5 base k)
    = Diverges ->
    forall i, k <= i < k + fuel -> ~ reported i.
Proof.
  induction fuel as [| fuel IH]; intros k Hb H i Hi; [lia |].
  cbn [name_loop] in H.
  destruct (IsNotExist (err_of (Stat fs (path.Join filesDir (candidate md5 base k))))) eqn:E;
    [discriminate H |].
  rewrite (next_size md5 md5_length), (next_num md5 md5_length) in H by lia.
  rewrite (name_for_at md5 base md5_length) in H.
  destruct (Nat.eq_dec i k) as [-> | Hne].
  - intros Hk. apply IsNotExist_ENOENT in Hk. congruence.
  - apply (IH (S k)); [lia | exact H | lia].
Qed.

(** When no candidate is reported as not existing, no number of
    rounds makes the loop return. *)
Lemma name_loop_never fuel :
  (forall k, ~ reported k) ->
  forall prefixSize prefixNum storageName,
    (4 <= prefixSize <= 32)%Z ->
    ((prefixSize < 32)%Z -> prefixNum = (-1)%Z) ->
    name_for md5 base prefixSize prefixNum = Some storageName ->
    name_loop fuel fs filesDir md5 base prefixSize prefixNum storageName = Diverges.
Proof.
  intros Hnone.
  induction fuel as [| fuel IH]; intros ps pn sn Hps Hpn Hsn; cbn [name_loop]; [reflexivity |].
  destruct (name_for_candidate ps pn Hps Hpn) as (k & Hk).
  rewrite Hk in Hsn. injection Hsn as <-.
  destruct (IsNotExist (err_of (Stat fs (path.Join filesDir (candidate md5 base k))))) eqn:E.
  - exfalso. apply (Hnone k). apply IsNotExist_ENOENT, E.
  - set (ps' := if (ps <? 32)%Z then golang.incr ps else ps).
    set (pn' := if (ps <? 32)%Z then pn else golang.incr pn).
    assert (Hps' : (4 <= ps' <= 32)%Z).
    { unfold ps', golang.incr. destruct (Z.ltb_spec ps 32); [| lia].
      rewrite wrap_int_small by lia. lia. }
    assert (Hpn' : (ps' < 32)%Z -> pn' = (-1)%Z).
    { unfold ps', pn'. destruct (Z.ltb_spec ps 32); [intros _; apply Hpn; lia | lia]. }
    destruct (name_for_candidate ps' pn' Hps' Hpn') as (k' & Hk').
    rewrite Hk'. apply IH; assumption.
Qed.

(** More rounds do not change what a loop has returned. *)
Lemma name_loop_more_rounds fuel :
  forall prefixSize prefixNum storageName r fuel',
    name_loop fuel fs filesDir md5 base prefixSize prefixNum storageName = r ->
    r <> Diverges ->
    fuel <= fuel' ->
    name_loop fuel' fs filesDir md5 base prefixSize prefixNum storageName = r.
Proof.
  induction fuel as [| fuel IH]; intros ps pn sn r fuel' H Hr Hle.
  - simpl in H. congruence.
  - destruct fuel' as [| fuel']; [lia |]. cbn [name_loop] in H |- *.
    destruct (IsNotExist (err_of (Stat fs (path.Join filesDir sn)))); [exact H |].
    destruct (name_for md5 base _ _) as [sn' |]; [| exact H].
    apply (IH _ _ _ _ fuel' H Hr). lia.
Qed.

End Rounds.

(** The rounds that the model of the naming loop allows are enough:
    with any greater number of rounds the loop ends as [storage_name]
    says, and where that is [Diverges], no number of rounds makes it
    return. *)
Theorem rounds_are_enough fs filesDir f fuel storageName :
  String.length (md5util.MD5 f) = 32 ->
  (Z.of_nat (List.length fs) < 2 ^ 63 - 1)%Z ->
  no_slash (md5util.MD5 f) = true ->
  no_slash (path.Base (md5util.Path f)) = true ->
  Stat fs filesDir = Ok true ->
  name_for (md5util.MD5 f) (path.Base (md5util.Path f)) 4 (-1) = Some storageName ->
  S (List.length fs) <= fuel ->
  name_loop fuel fs filesDir (md5util.MD5 f) (path.Base (md5util.Path f)) 4 (-1) storageName
  = storage_name fs filesDir f.
Proof.
  intros Hlen Hsize Hmd5 Hbase Hdir Hname Hle.
  set (md5 := md5util.MD5 f) in *. set (base := path.Base (md5util.Path f)) in *.
  unfold storage_name. fold md5 base. rewrite Hname.
  destruct (name_loop (S (List.length fs)) fs filesDir md5 base 4 (-1) storageName)
    as [name | |] eqn:E.
  - apply (name_loop_more_rounds md5 base Hlen fs filesDir _ _ _ _ _ fuel E);
      [discriminate | exact Hle].
  - apply (name_loop_more_rounds md5 base Hlen fs filesDir _ _ _ _ _ fuel E);
      [discriminate | exact Hle].
  - assert (Hcand : storageName = candidate md5 base 0).
    { pose proof (name_for_at md5 base Hlen 0) as H0.
      change (size_at 0) with 4%Z in H0. change (num_at 0) with (-1)%Z in H0. congruence. }
    subst storageName.
    pose proof (name_loop_out_of_rounds md5 base Hlen fs filesDir (S (List.length fs)) 0
                  ltac:(lia) E) as Hfirst.
    destruct (some_candidate_missing md5 base Hlen fs filesDir) as (j & Hj & Hm).
    apply (name_loop_never md5 base Hlen fs filesDir); try lia; [| exact Hname].
    intros k. destruct (Nat.le_gt_cases k (List.length fs)) as [Hk | Hk].
    + apply Hfirst. lia.
    + apply (later_not_reported md5 base Hlen fs filesDir Hmd5 Hbase Hdir j k);
        [lia | exact Hm | apply Hfirst; lia].
Qed.

(** Ten times the rounds, for the file whose first name is taken,
    and for the file that is never named. *)
Lemma rounds_are_enough_witness :
  name_loop 70 more_props.fs_taken "store" "61616161000000000000000000000000" "a.txt"
            4 (-1) "6161-a.txt"
  = Returns "61616-a.txt" /\
  name_loop 60 more_props.fs_long_name "store" (md5util.MD5 more_props.long_txt)
            (path.Base (md5util.Path more_props.long_txt)) 4 (-1)
            ("6c6c-" ++ path.Base (md5util.Path more_props.long_txt))
  = Diverges.
Proof.
  split.
  - refine (eq_trans (rounds_are_enough more_props.fs_taken "store" more_props.a_txt 70
                        "6161-a.txt" _ _ _ _ _ _ _) _);
      try reflexivity; try (vm_compute; reflexivity); vm_compute; lia.
  - refine (eq_trans (rounds_are_enough more_props.fs_long_name "store" more_props.long_txt 60
                        ("6c6c-" ++ path.Base (md5util.Path more_props.long_txt))
                        _ _ _ _ _ _ _) _);
      try reflexivity; try (vm_compute; reflexivity); vm_compute; lia.
Defined.

End rounds_facts.
